(** * proyecto-grupal-2: the backend API and its record store

    A shallow embedding of the Express service of [backend/index.js]
    (the complete variant, with the full CRUD surface), of the startup
    sequence of the variant that retries the first connection, and of the
    PostgreSQL session the handlers talk to, with the schema of
    [database/init.sql].

    Layout: definitions first (JavaScript values, the email pattern, the
    store, the handlers, the startup code), then the properties. *)

From Stdlib Require Import List String Ascii ZArith Bool Lia Arith.
From Stdlib Require Import Permutation Sorted.
From Stdlib Require Import DecimalString DecimalZ DecimalPos.
Import ListNotations.
Local Open Scope string_scope.
Local Open Scope Z_scope.

Set Implicit Arguments.
Set Warnings "-register-all".

(* ================================================================== *)
(** ** JavaScript values used by the handlers *)
(* ================================================================== *)

Module Js.

(** JSON values, as produced by [res.json] and received by [express.json].
    An object is an association list in member order; [JDate t] is a
    [Date] (milliseconds since the epoch), which JSON writes as its ISO
    string. *)
Inductive json : Type :=
| JNull
| JBool (b : bool)
| JNum (n : Z)
| JStr (s : string)
| JDate (t : Z)
| JArr (l : list json)
| JObj (members : list (string * json)).

(** [obj.k] on a JSON object: [None] is JavaScript's [undefined]. *)
Fixpoint member (k : string) (members : list (string * json)) : option json :=
  match members with
  | [] => None
  | (k', v) :: rest => if String.eqb k k' then Some v else member k rest
  end.

Definition get (k : string) (j : json) : option json :=
  match j with
  | JObj members => member k members
  | _ => None
  end.

(** A member whose value is [undefined] is left out by [JSON.stringify]:
    [opt k v] is the member list for [k: v] with [v] possibly undefined. *)
Definition opt (k : string) (v : option json) : list (string * json) :=
  match v with
  | Some j => [(k, j)]
  | None => []
  end.

(** Truthiness of a request member that is a string or is absent:
    [undefined] and the empty string are falsy. *)
Definition truthy (v : option string) : bool :=
  match v with
  | None => false
  | Some s => negb (String.eqb s "")
  end.

(** *** Regular expressions

    The fragment of JavaScript patterns the service uses: character
    classes, concatenation and [+], matched against the whole subject
    (the pattern is anchored with [^] and [$] and has no flags).
    Matching is by derivatives. *)
Inductive regex : Type :=
| Void
| Eps
| Class (p : ascii -> bool)
| Seq (r s : regex)
| Alt (r s : regex)
| Star (r : regex).

Definition Plus (r : regex) : regex := Seq r (Star r).

Fixpoint nullable (r : regex) : bool :=
  match r with
  | Void => false
  | Eps => true
  | Class _ => false
  | Seq r s => nullable r && nullable s
  | Alt r s => nullable r || nullable s
  | Star _ => true
  end.

Fixpoint deriv (c : ascii) (r : regex) : regex :=
  match r with
  | Void => Void
  | Eps => Void
  | Class p => if p c then Eps else Void
  | Seq r s =>
      if nullable r then Alt (Seq (deriv c r) s) (deriv c s)
      else Seq (deriv c r) s
  | Alt r s => Alt (deriv c r) (deriv c s)
  | Star r => Seq (deriv c r) (Star r)
  end.

Fixpoint matches (r : regex) (s : list ascii) : bool :=
  match s with
  | [] => nullable r
  | c :: s' => matches (deriv c r) s'
  end.

(** [re.test(s)] for an anchored pattern. *)
Definition test (r : regex) (s : string) : bool :=
  matches r (list_ascii_of_string s).

(** The language of a pattern, for stating what the matcher decides. *)
Inductive lang : regex -> list ascii -> Prop :=
| LEps : lang Eps []
| LClass p c : p c = true -> lang (Class p) [c]
| LSeq r s u v : lang r u -> lang s v -> lang (Seq r s) (u ++ v)
| LAltL r s u : lang r u -> lang (Alt r s) u
| LAltR r s u : lang s u -> lang (Alt r s) u
| LStarNil r : lang (Star r) []
| LStarCons r u v : lang r u -> lang (Star r) v -> lang (Star r) (u ++ v).

(** [\s]: the white space and line terminator code units.  A character of
    a [string] stands for one code unit below 256, so of the Unicode
    spaces only U+00A0 is in range. *)
Definition is_space (c : ascii) : bool :=
  let n := nat_of_ascii c in
  ((9 <=? n) && (n <=? 13) || (n =? 32) || (n =? 160))%nat.

Definition is_char (a c : ascii) : bool := Ascii.eqb c a.

(** [[^\s@]] *)
Definition not_space_at (c : ascii) : bool :=
  negb (is_space c || is_char "@" c).

(** [/^[^\s@]+@[^\s@]+\.[^\s@]+$/] *)
Definition emailRegex : regex :=
  Seq (Plus (Class not_space_at))
    (Seq (Class (is_char "@"))
       (Seq (Plus (Class not_space_at))
          (Seq (Class (is_char "."))
             (Plus (Class not_space_at))))).

(** The spec's reading of the pattern, [local-part@domain.tld] without
    white space: three non-empty parts free of blanks and of further
    [@] signs, around one [@] and one dot. *)
Definition email_shape (s : string) : Prop :=
  exists local domain tld : list ascii,
    list_ascii_of_string s = (local ++ "@"%char :: domain ++ "."%char :: tld)%list
    /\ local <> [] /\ domain <> [] /\ tld <> []
    /\ forallb not_space_at local = true
    /\ forallb not_space_at domain = true
    /\ forallb not_space_at tld = true.

(** The texts a JSON value carries, at any depth. *)
Fixpoint strings_of (j : json) : list string :=
  match j with
  | JStr s => [s]
  | JArr l => flat_map strings_of l
  | JObj members =>
      flat_map (fun kv => match kv with (_, v) => strings_of v end) members
  | _ => []
  end.

(** [mentions msg j]: the text [msg] is one of the strings of [j]. *)
Definition mentions (msg : string) (j : json) : bool :=
  existsb (String.eqb msg) (strings_of j).


(** What the process does at startup, as seen from outside. *)
Inductive event : Type :=
| Connect                 (* pool.connect() *)
| Release                 (* client.release() *)
| Sleep (ms : Z)          (* await new Promise(r => setTimeout(r, ms)) *)
| Listen                  (* app.listen(PORT, ...) *)
| Exit (status : Z).      (* process.exit(status) *)

(** The connection attempts of a startup trace, and its pauses. *)
Definition connects (t : list event) : nat :=
  List.length (filter (fun ev => match ev with Connect => true | _ => false end) t).

Fixpoint pauses (t : list event) : list Z :=
  match t with
  | [] => []
  | Sleep ms :: t' => ms :: pauses t'
  | _ :: t' => pauses t'
  end.

End Js.

(* ================================================================== *)
(** ** The record store: a PostgreSQL session over [database/init.sql] *)
(* ================================================================== *)

Module Pg.
Import Js.

(** What [pool.query] rejects with: the SQLSTATE in [code] (or the
    driver's own code when the server was not reached) and the text. *)
Record pg_error : Type := mkError { code : string; message : string }.

(** [CREATE TABLE usuarios (id SERIAL PRIMARY KEY, nombre VARCHAR(100) NOT
    NULL, email VARCHAR(100) UNIQUE NOT NULL, creado_en TIMESTAMP DEFAULT
    CURRENT_TIMESTAMP)] *)
Record usuario : Type := mkUsuario {
  id : Z;
  nombre : string;
  email : string;
  creado_en : Z
}.

Definition usuarios_columns : list string :=
  ["id"; "nombre"; "email"; "creado_en"].

(** [CREATE TABLE productos (id SERIAL PRIMARY KEY, nombre VARCHAR(100) NOT
    NULL, precio DECIMAL(10, 2) NOT NULL, stock INTEGER DEFAULT 0,
    creado_en TIMESTAMP DEFAULT CURRENT_TIMESTAMP)].  The driver hands a
    DECIMAL over as its text; [stock] may be NULL. *)
Record producto : Type := mkProducto {
  p_id : Z;
  p_nombre : string;
  precio : string;
  stock : option Z;
  p_creado_en : Z
}.

(** The state of the store.  [usuarios_id_seq] is the next value of the
    sequence behind [usuarios.id]; the sequence of a SERIAL column ends at
    the largest [integer].  [now] is what CURRENT_TIMESTAMP and NOW()
    return, [version] what version() returns. *)
Record database : Type := mkDatabase {
  usuarios : list usuario;
  usuarios_id_seq : Z;
  productos : list producto;
  now : Z;
  version : string
}.

(** The seeded names; their accented letters are the code units 233 and
    237. *)
Definition juan_perez : string := "Juan P" ++ String "233" "rez".
Definition maria_garcia : string :=
  "Mar" ++ String "237" "a Garc" ++ String "237" "a".

(** The store after [init.sql] ran at time [t] on an empty volume. *)
Definition init_sql (t : Z) (v : string) : database :=
  {| usuarios := [ mkUsuario 1 juan_perez "juan@example.com" t;
                   mkUsuario 2 maria_garcia "maria@example.com" t ];
     usuarios_id_seq := 3;
     productos := [ mkProducto 1 "Laptop" "1200.00" (Some 10) t;
                    mkProducto 2 "Mouse" "25.50" (Some 50) t;
                    mkProducto 3 "Teclado" "45.00" (Some 30) t ];
     now := t;
     version := v |}.

(** Right-hand side of an assignment in a SET list. *)
Inductive expr : Type :=
| Param (n : nat)            (* [$n] *)
| CURRENT_TIMESTAMP.

(** The statements the handlers send, one constructor per query text. *)
Inductive statement : Type :=
| SELECT_1
    (* SELECT 1 *)
| SELECT_now
    (* SELECT NOW() as db_time *)
| SELECT_now_version
    (* SELECT NOW() as current_time, version() as postgres_version *)
| SELECT_usuarios
    (* SELECT * FROM usuarios ORDER BY creado_en DESC *)
| SELECT_usuario (where_id : nat)
    (* SELECT * FROM usuarios WHERE id = $n *)
| INSERT_usuario
    (* INSERT INTO usuarios (nombre, email) VALUES ($1, $2) RETURNING * *)
| UPDATE_usuario (set : list (string * expr)) (where_id : nat)
    (* UPDATE usuarios SET col = e, ... WHERE id = $n RETURNING * *)
| DELETE_usuario (where_id : nat)
    (* DELETE FROM usuarios WHERE id = $n RETURNING * *)
| SELECT_productos
    (* SELECT * FROM productos ORDER BY creado_en DESC *)
| COUNT_usuarios
    (* SELECT COUNT( * ) as total FROM usuarios *)
| COUNT_productos
    (* SELECT COUNT( * ) as total, SUM(stock) as total_stock FROM productos *)
| SELECT_version.
    (* SELECT version() as version *)

(** [pool.query(text, values)]. *)
Record query : Type := mkQuery { text : statement; values : list string }.

(** What [pool.query] resolves with. *)
Record result : Type := mkResult { rowCount : Z; rows : list json }.

Definition usuario_row (u : usuario) : json :=
  JObj [ ("id", JNum (id u)); ("nombre", JStr (nombre u));
         ("email", JStr (email u)); ("creado_en", JDate (creado_en u)) ].

Definition producto_row (p : producto) : json :=
  JObj [ ("id", JNum (p_id p)); ("nombre", JStr (p_nombre p));
         ("precio", JStr (precio p));
         ("stock", match stock p with Some n => JNum n | None => JNull end);
         ("creado_en", JDate (p_creado_en p)) ].

Definition result_of (rs : list json) : result :=
  mkResult (Z.of_nat (List.length rs)) rs.

(** *** Text parameters

    The driver sends every value as text.  The server refuses, when the
    values are bound, a text holding the code unit 0. *)

Definition is_nul (c : ascii) : bool := Ascii.eqb c "000".

Definition has_nul (s : string) : bool :=
  existsb is_nul (list_ascii_of_string s).

(** *** Reading a text parameter as an [integer] *)

Definition pg_isspace (c : ascii) : bool :=
  let n := nat_of_ascii c in ((9 <=? n) && (n <=? 13) || (n =? 32))%nat.

Fixpoint skip_spaces (s : list ascii) : list ascii :=
  match s with
  | c :: s' => if pg_isspace c then skip_spaces s' else s
  | [] => []
  end.

Definition trim (s : string) : string :=
  string_of_list_ascii
    (rev (skip_spaces (rev (skip_spaces (list_ascii_of_string s))))).

Definition int4_min : Z := -2147483648.
Definition int4_max : Z := 2147483647.

(** Optional blanks, an optional sign, decimal digits, optional blanks. *)
Definition integer_digits (s : string) : option Z :=
  match trim s with
  | String "+" r => option_map Z.of_uint (NilZero.uint_of_string r)
  | t => option_map Z.of_int (NilZero.int_of_string t)
  end.

(** The value must fit 32 bits. *)
Definition int4_in (s : string) : option Z :=
  match integer_digits s with
  | Some n => if (int4_min <=? n) && (n <=? int4_max) then Some n else None
  | None => None
  end.

(** The double quote of the server's messages. *)
Definition dq : string := String "034" EmptyString.
Definition quoted (s : string) : string := dq ++ s ++ dq.

(** The characters of a canonical decimal text: no blank, no plus sign. *)
Definition plain_char (c : ascii) : bool :=
  negb (pg_isspace c) && negb (Ascii.eqb c "+").

Definition invalid_integer (s : string) : pg_error :=
  mkError "22P02" ("invalid input syntax for type integer: " ++ quoted s).

Definition out_of_range (s : string) : pg_error :=
  mkError "22003"
    ("value " ++ quoted s ++ " is out of range for type integer").

Definition invalid_byte_sequence : pg_error :=
  mkError "22021"
    ("invalid byte sequence for encoding " ++ quoted "UTF8" ++ ": 0x00").

Definition sequence_exhausted : pg_error :=
  mkError "2200H"
    ("nextval: reached maximum value of sequence "
       ++ quoted "usuarios_id_seq" ++ " (2147483647)").

Definition undefined_column (c : string) : pg_error :=
  mkError "42703"
    ("column " ++ quoted c ++ " of relation " ++ quoted "usuarios"
       ++ " does not exist").

Definition value_too_long : pg_error :=
  mkError "22001" "value too long for type character varying(100)".

Definition unique_violation (constraint : string) : pg_error :=
  mkError "23505"
    ("duplicate key value violates unique constraint " ++ quoted constraint).

Definition missing_parameter : pg_error :=
  mkError "08P01" "bind message supplies too few parameters".

(** Answer to an assignment the service's query texts cannot contain (a
    timestamp into a text column, a text into a timestamp or key column):
    outside the modelled fragment. *)
Definition not_modelled : pg_error :=
  mkError "0A000" "assignment outside the modelled fragment".

(** [$n] among the bound values. *)
Definition param (n : nat) (vs : list string) : option string :=
  match n with
  | O => None
  | S k => nth_error vs k
  end.

(** A text assigned to a VARCHAR(100) column: stored as it is when it has
    at most 100 characters, cut to its first 100 when all that comes after
    them is spaces, refused otherwise. *)
Definition varchar100 (s : string) : option string :=
  let l := list_ascii_of_string s in
  if (List.length l <=? 100)%nat then Some s
  else if forallb (Ascii.eqb " ") (skipn 100 l)
       then Some (string_of_list_ascii (firstn 100 l))
       else None.

Definition by_id (n : Z) (u : usuario) : bool := id u =? n.
Definition by_email (e : string) (u : usuario) : bool := String.eqb (email u) e.

(** ORDER BY creado_en DESC (rows of equal time keep their table order;
    SQL leaves that order open). *)
Fixpoint insert_desc (u : usuario) (l : list usuario) : list usuario :=
  match l with
  | [] => [u]
  | v :: l' =>
      if creado_en v <=? creado_en u then u :: l else v :: insert_desc u l'
  end.

Definition order_desc (l : list usuario) : list usuario :=
  fold_right insert_desc [] l.

Fixpoint insert_desc_p (p : producto) (l : list producto) : list producto :=
  match l with
  | [] => [p]
  | q :: l' =>
      if p_creado_en q <=? p_creado_en p then p :: l else q :: insert_desc_p p l'
  end.

Definition order_desc_p (l : list producto) : list producto :=
  fold_right insert_desc_p [] l.

Definition set_usuarios (l : list usuario) (d : database) : database :=
  mkDatabase l (usuarios_id_seq d) (productos d) (now d) (version d).

Definition nextval (d : database) : database :=
  mkDatabase (usuarios d) (usuarios_id_seq d + 1) (productos d) (now d)
    (version d).

(** [WHERE id = $n]: the bound text read as an integer. *)
Definition where_id_value (n : nat) (vs : list string) : pg_error + Z :=
  match param n vs with
  | None => inl missing_parameter
  | Some s =>
      match int4_in s with
      | Some i => inr i
      | None =>
          match integer_digits s with
          | Some _ => inl (out_of_range s)
          | None => inl (invalid_integer s)
          end
      end
  end.

(** Analysis of a SET list: the first target that is not a column. *)
Fixpoint missing_column (set : list (string * expr)) : option string :=
  match set with
  | [] => None
  | (c, _) :: rest =>
      if existsb (String.eqb c) usuarios_columns then missing_column rest
      else Some c
  end.

(** One assignment of a SET list, made ready when the statement is
    planned: the bound value is fitted to its column before any row is
    looked at.  What comes out is the change to a row, given the time of
    the statement. *)
Definition assign (vs : list string) (a : string * expr)
  : pg_error + (Z -> usuario -> usuario) :=
  match a with
  | (c, Param n) =>
      match param n vs with
      | None => inl missing_parameter
      | Some s =>
          if String.eqb c "nombre" then
            match varchar100 s with
            | Some s' =>
                inr (fun _ u => mkUsuario (id u) s' (email u) (creado_en u))
            | None => inl value_too_long
            end
          else if String.eqb c "email" then
            match varchar100 s with
            | Some s' =>
                inr (fun _ u => mkUsuario (id u) (nombre u) s' (creado_en u))
            | None => inl value_too_long
            end
          else inl not_modelled
      end
  | (c, CURRENT_TIMESTAMP) =>
      if String.eqb c "creado_en"
      then inr (fun t u => mkUsuario (id u) (nombre u) (email u) t)
      else inl not_modelled
  end.

Fixpoint assign_all (vs : list string) (set : list (string * expr))
  : pg_error + (Z -> usuario -> usuario) :=
  match set with
  | [] => inr (fun _ u => u)
  | a :: rest =>
      match assign vs a with
      | inl e => inl e
      | inr f =>
          match assign_all vs rest with
          | inl e => inl e
          | inr g => inr (fun t u => g t (f t u))
          end
      end
  end.

(** SUM(stock): NULL when no row has a stock. *)
Fixpoint sum_stock (l : list producto) : option Z :=
  match l with
  | [] => None
  | p :: l' =>
      match stock p, sum_stock l' with
      | Some n, Some m => Some (n + m)
      | Some n, None => Some n
      | None, r => r
      end
  end.

(** One statement run by the server: its outcome and the store after it.
    A statement that names an unknown column is refused when it is
    parsed; then the values are bound (no code unit 0, an integer where
    the id is compared), then fitted to their columns, and only then are
    rows read or written. *)
Definition exec (q : query) (d : database) : (pg_error + result) * database :=
  let vs := values q in
  match text q with
  | SELECT_1 =>
      (inr (result_of [JObj [("?column?", JNum 1)]]), d)
  | SELECT_now =>
      (inr (result_of [JObj [("db_time", JDate (now d))]]), d)
  | SELECT_now_version =>
      (inr (result_of [JObj [("current_time", JDate (now d));
                             ("postgres_version", JStr (version d))]]), d)
  | SELECT_usuarios =>
      (inr (result_of (map usuario_row (order_desc (usuarios d)))), d)
  | SELECT_usuario n =>
      if existsb has_nul vs then (inl invalid_byte_sequence, d)
      else
        match where_id_value n vs with
        | inl e => (inl e, d)
        | inr i =>
            (inr (result_of (map usuario_row (filter (by_id i) (usuarios d)))),
             d)
        end
  | INSERT_usuario =>
      match param 1 vs, param 2 vs with
      | Some n, Some e =>
          if existsb has_nul vs then (inl invalid_byte_sequence, d)
          else
            match varchar100 n, varchar100 e with
            | Some n', Some e' =>
                (* the id is drawn when the row is formed, and a sequence
                   does not give a value back when the keys then refuse
                   the row *)
                let i := usuarios_id_seq d in
                if int4_max <? i then (inl sequence_exhausted, d)
                else
                  let d1 := nextval d in
                  let u := mkUsuario i n' e' (now d) in
                  if existsb (by_id i) (usuarios d) then
                    (inl (unique_violation "usuarios_pkey"), d1)
                  else if existsb (by_email e') (usuarios d) then
                    (inl (unique_violation "usuarios_email_key"), d1)
                  else
                    (inr (result_of [usuario_row u]),
                     set_usuarios (usuarios d ++ [u]) d1)
            | _, _ => (inl value_too_long, d)
            end
      | _, _ => (inl missing_parameter, d)
      end
  | UPDATE_usuario set n =>
      match missing_column set with
      | Some c => (inl (undefined_column c), d)
      | None =>
          if existsb has_nul vs then (inl invalid_byte_sequence, d)
          else
            match where_id_value n vs with
            | inl e => (inl e, d)
            | inr i =>
                match assign_all vs set with
                | inl e => (inl e, d)
                | inr change =>
                    match find (by_id i) (usuarios d) with
                    | None => (inr (result_of []), d)
                    | Some u =>
                        let u' := change (now d) u in
                        if existsb (fun v => negb (by_id i v)
                                             && by_email (email u') v)
                             (usuarios d)
                        then (inl (unique_violation "usuarios_email_key"), d)
                        else
                          (inr (result_of [usuario_row u']),
                           set_usuarios
                             (map (fun v => if by_id i v then u' else v)
                                (usuarios d)) d)
                    end
                end
            end
      end
  | DELETE_usuario n =>
      if existsb has_nul vs then (inl invalid_byte_sequence, d)
      else
        match where_id_value n vs with
        | inl e => (inl e, d)
        | inr i =>
            (inr (result_of (map usuario_row (filter (by_id i) (usuarios d)))),
             set_usuarios (filter (fun v => negb (by_id i v)) (usuarios d)) d)
        end
  | SELECT_productos =>
      (inr (result_of (map producto_row (order_desc_p (productos d)))), d)
  | COUNT_usuarios =>
      (inr (result_of
              [JObj [("total", JNum (Z.of_nat (List.length (usuarios d))))]]),
       d)
  | COUNT_productos =>
      (inr (result_of
              [JObj [("total", JNum (Z.of_nat (List.length (productos d))));
                     ("total_stock",
                      match sum_stock (productos d) with
                      | Some n => JNum n
                      | None => JNull
                      end)]]),
       d)
  | SELECT_version =>
      (inr (result_of [JObj [("version", JStr (version d))]]), d)
  end.

(** The row an INSERT of [(n, e)] adds to [d]. *)
Definition created (n e : string) (d : database) : usuario :=
  mkUsuario (usuarios_id_seq d) n e (now d).

(** What the schema's keys and the sequence guarantee of a store: every
    id was drawn from the sequence, and ids and emails are not shared. *)
Definition consistent (d : database) : Prop :=
  Forall (fun u => id u < usuarios_id_seq d) (usuarios d)
  /\ NoDup (map id (usuarios d))
  /\ NoDup (map email (usuarios d)).

(** *** The connection pool

    [server] is the store behind the pool; [outage], when set, is what
    every [pool.query] and [pool.connect] rejects with because the store
    cannot be reached; [issued] records the queries handed to the pool,
    oldest first. *)
Record pool : Type := mkPool {
  server : database;
  outage : option pg_error;
  issued : list query
}.

Definition pool_query (q : query) (p : pool) : (pg_error + result) * pool :=
  match outage p with
  | Some e => (inl e, mkPool (server p) (outage p) (issued p ++ [q]))
  | None =>
      let (r, d) := exec q (server p) in
      (r, mkPool d (outage p) (issued p ++ [q]))
  end.

End Pg.

(* ================================================================== *)
(** ** The service: routes and handlers of [backend/index.js] *)
(* ================================================================== *)

Module V3.
Import Js Pg.

(** The process environment and what the runtime reports when asked:
    [Date_now] is [new Date()], [uptime] is [process.uptime()] in whole
    seconds, [heapUsed] is in bytes. *)
Record env : Type := mkEnv {
  NODE_ENV : option string;
  DB_HOST : option string;
  Date_now : Z;
  START_TIME : Z;
  uptime : Z;
  node_version : string;
  memoryUsage : json;
  heapUsed : Z
}.

(** [v || d] on an environment variable. *)
Definition or_default (v : option string) (d : string) : string :=
  match v with
  | Some s => if String.eqb s "" then d else s
  | None => d
  end.

(** [v === s] on an environment variable. *)
Definition is_exactly (v : option string) (s : string) : bool :=
  match v with
  | Some t => String.eqb t s
  | None => false
  end.

(** The methods the service registers routes for. *)
Inductive http_method : Type := GET | POST | PUT | DELETE.

(** What a middleware passes to [next(err)]. *)
Record js_error : Type := mkJsError {
  err_status : option Z;
  err_message : string;
  err_stack : string
}.

(** A request after [express.json()]: the path as its non-empty segments,
    and either the parsed body (an object with string members; the empty
    object when no body was sent) or the error the parser raised.  Bodies
    with members that are not strings are not covered. *)
Record request : Type := mkRequest {
  method : http_method;
  path : list string;
  body : js_error + list (string * string)
}.

Record response : Type := mkResponse { status : Z; payload : json }.

Definition is_2xx (r : response) : bool :=
  (200 <=? status r) && (status r <? 300).

(** [req.body.k] *)
Fixpoint field (k : string) (b : list (string * string)) : option string :=
  match b with
  | [] => None
  | (k', v) :: rest => if String.eqb k k' then Some v else field k rest
  end.

(** A member inside a template literal or a parameter list. *)
Definition text_of (v : option string) : string :=
  match v with
  | Some s => s
  | None => "undefined"
  end.

Definition body_json (b : list (string * string)) : json :=
  JObj (map (fun kv => (fst kv, JStr (snd kv))) b).

Definition show (n : Z) : string := NilZero.string_of_int (Z.to_int n).

(** [`${days}d ${hours}h ${minutes}m ${seconds}s`] *)
Definition uptime_text (e : env) : string :=
  let up := uptime e in
  let days := up / (3600 * 24) in
  let hours := (up mod (3600 * 24)) / 3600 in
  let minutes := (up mod 3600) / 60 in
  let seconds := up mod 60 in
  show days ++ "d " ++ show hours ++ "h " ++ show minutes ++ "m "
    ++ show seconds ++ "s".

(** [parseInt(x) || 0] on a count column. *)
Definition parseInt_or_0 (v : option json) : Z :=
  match v with
  | Some (JNum n) => n
  | _ => 0
  end.

(** *** Handlers *)

(** [app.get('/health')] *)
Definition health (e : env) (p : pool) : response * pool :=
  let (r, p1) := pool_query (mkQuery SELECT_1 []) p in
  match r with
  | inr _ =>
      (mkResponse 200
         (JObj [ ("service", JStr "backend-api");
                 ("status", JStr "healthy");
                 ("timestamp", JDate (Date_now e));
                 ("database", JObj [ ("status", JStr "connected");
                                     ("server_time", JDate (Date_now e)) ]);
                 ("environment", JStr (or_default (NODE_ENV e) "development"));
                 ("uptime", JNum (uptime e)) ]), p1)
  | inl error =>
      (mkResponse 500
         (JObj [ ("service", JStr "backend-api");
                 ("status", JStr "unhealthy");
                 ("timestamp", JDate (Date_now e));
                 ("database", JObj [ ("status", JStr "disconnected");
                                     ("error", JStr (message error)) ]);
                 ("environment", JStr (or_default (NODE_ENV e) "development")) ]),
       p1)
  end.

(** [app.get('/db-test')] *)
Definition db_test (p : pool) : response * pool :=
  let (r, p1) := pool_query (mkQuery SELECT_now_version []) p in
  match r with
  | inr result =>
      (mkResponse 200
         (JObj ([ ("success", JBool true) ]
                ++ opt "data" (hd_error (rows result))
                ++ [ ("message", JStr ("Conexi" ++ String "243" "n a PostgreSQL exitosa")) ])), p1)
  | inl error =>
      (mkResponse 500
         (JObj [ ("success", JBool false);
                 ("error", JStr (message error));
                 ("message", JStr "Error al conectar con PostgreSQL") ]), p1)
  end.

Definition endpoint (m p d : string) : json :=
  JObj [ ("method", JStr m); ("path", JStr p); ("description", JStr d) ].

(** [app.get('/system-info')] *)
Definition system_info (e : env) : response :=
  mkResponse 200
    (JObj [ ("success", JBool true);
            ("service", JStr "Backend API - Proyecto Grupal 2");
            ("version", JStr "3.0.0");
            ("description",
             JStr "API REST con Node.js, Express y PostgreSQL para proyecto Docker");
            ("endpoints", JArr [
               endpoint "GET" "/health" ("Estado del sistema y conexi" ++ String "243" "n a BD");
               endpoint "GET" "/db-test" ("Prueba de conexi" ++ String "243" "n a PostgreSQL");
               endpoint "GET" "/users" "Obtener todos los usuarios";
               endpoint "GET" "/users/:id" "Obtener usuario por ID";
               endpoint "POST" "/users" "Crear nuevo usuario";
               endpoint "PUT" "/users/:id" "Actualizar usuario";
               endpoint "DELETE" "/users/:id" "Eliminar usuario";
               endpoint "GET" "/products" "Obtener todos los productos";
               endpoint "GET" "/stats" ("Estad" ++ String "237" "sticas del sistema");
               endpoint "GET" "/system-info" ("Informaci" ++ String "243" "n completa del API");
               endpoint "GET" "/info" ("Informaci" ++ String "243" "n b" ++ String "225" "sica");
               endpoint "GET" "/data" "Datos de ejemplo";
               endpoint "POST" "/echo" "Echo endpoint (POST)" ]);
            ("database", JObj [ ("type", JStr "PostgreSQL");
                                ("connected", JBool true);
                                ("host", JStr (or_default (DB_HOST e) "database")) ]);
            ("server", JObj [ ("start_time", JDate (START_TIME e));
                              ("uptime", JStr (uptime_text e));
                              ("node_version", JStr (node_version e));
                              ("environment",
                               JStr (or_default (NODE_ENV e) "development"));
                              ("memory_usage", memoryUsage e) ]);
            ("project", JObj [ ("name", JStr "Proyecto Grupal 2 - Docker");
                               ("members", JNum 3);
                               ("services", JArr [ JStr "Backend API";
                                                   JStr "PostgreSQL";
                                                   JStr "Frontend Nginx" ]) ]) ]).

(** [app.get('/info')] *)
Definition info : response :=
  mkResponse 200
    (JObj [ ("service", JStr "Backend API");
            ("version", JStr "3.0.0");
            ("endpoints", JArr (map JStr
               [ "/health"; "/db-test"; "/users"; "/products"; "/stats";
                 "/system-info"; "/info"; "/data"; "/echo" ]));
            ("database", JStr "PostgreSQL");
            ("documentation", JStr "Ver README.md o endpoint /system-info") ]).

Definition item (i : Z) (n : string) (v : Z) : json :=
  JObj [ ("id", JNum i); ("name", JStr n); ("value", JNum v) ].

(** [app.get('/data')] *)
Definition data (e : env) : response :=
  mkResponse 200
    (JObj [ ("message", JStr "Datos desde el backend");
            ("items", JArr [ item 1 "Item A" 100; item 2 "Item B" 200;
                             item 3 "Item C" 300 ]);
            ("total", JNum 3);
            ("generatedAt", JDate (Date_now e)) ]).

(** [app.post('/echo')] *)
Definition echo (e : env) (b : list (string * string)) : response :=
  let receivedData := body_json b in
  mkResponse 200
    (JObj [ ("received", receivedData);
            ("echoedAt", JDate (Date_now e));
            ("message", JStr "Datos recibidos correctamente") ]).

(** The [catch] blocks that answer 500 with the error's text. *)
Definition failure (error : pg_error) : response :=
  mkResponse 500
    (JObj [ ("success", JBool false); ("error", JStr (message error)) ]).

Definition not_found_user (id : string) : response :=
  mkResponse 404
    (JObj [ ("success", JBool false);
            ("error", JStr ("Usuario con ID " ++ id ++ " no encontrado")) ]).

(** [app.get('/users')] *)
Definition get_users (p : pool) : response * pool :=
  let (r, p1) := pool_query (mkQuery SELECT_usuarios []) p in
  match r with
  | inr result =>
      (mkResponse 200
         (JObj [ ("success", JBool true);
                 ("count", JNum (rowCount result));
                 ("users", JArr (rows result)) ]), p1)
  | inl error => (failure error, p1)
  end.

(** [app.get('/users/:id')] *)
Definition get_user (id : string) (p : pool) : response * pool :=
  let (r, p1) := pool_query (mkQuery (SELECT_usuario 1) [id]) p in
  match r with
  | inr result =>
      if rowCount result =? 0 then (not_found_user id, p1)
      else
        (mkResponse 200
           (JObj ([ ("success", JBool true) ]
                  ++ opt "user" (hd_error (rows result)))), p1)
  | inl error => (failure error, p1)
  end.

(** [app.post('/users')] *)
Definition post_users (b : list (string * string)) (p : pool)
  : response * pool :=
  let nombre := field "nombre" b in
  let email := field "email" b in
  if negb (truthy nombre) || negb (truthy email) then
    (mkResponse 400
       (JObj [ ("success", JBool false);
               ("error", JStr "Nombre y email son campos requeridos") ]), p)
  else if negb (test emailRegex (text_of email)) then
    (mkResponse 400
       (JObj [ ("success", JBool false);
               ("error", JStr ("Formato de email inv" ++ String "225" "lido")) ]), p)
  else
    let (r, p1) :=
      pool_query (mkQuery INSERT_usuario [text_of nombre; text_of email]) p in
    match r with
    | inr result =>
        (mkResponse 201
           (JObj ([ ("success", JBool true);
                    ("message", JStr "Usuario creado exitosamente") ]
                  ++ opt "user" (hd_error (rows result)))), p1)
    | inl error =>
        if String.eqb (code error) "23505" then
          (mkResponse 409
             (JObj [ ("success", JBool false);
                     ("error", JStr ("El email '" ++ text_of email
                                       ++ ("' ya est" ++ String "225" " registrado"))) ]), p1)
        else (failure error, p1)
    end.

(** The dynamic SET list under construction in [app.put('/users/:id')]:
    [updates], [values] and [paramCount]. *)
Record building : Type := mkBuilding {
  updates : list (string * expr);
  vals : list string;
  paramCount : nat
}.

(** [if (v) { updates.push(`col = $${paramCount}`); values.push(v);
    paramCount++; }] *)
Definition push_if (col : string) (v : option string) (b : building)
  : building :=
  if truthy v then
    mkBuilding (updates b ++ [(col, Param (paramCount b))])%list
      (vals b ++ [text_of v])%list (S (paramCount b))
  else b.

(** The query text and values [app.put('/users/:id')] ends up with. *)
Definition update_query (id : string) (nombre email : option string) : query :=
  let b := mkBuilding [] [] 1 in
  let b := push_if "nombre" nombre b in
  let b := push_if "email" email b in
  let values := (vals b ++ [id])%list in
  mkQuery
    (UPDATE_usuario
       (updates b ++ [("actualizado_en", CURRENT_TIMESTAMP)])%list
       (paramCount b))
    values.

(** [app.put('/users/:id')] *)
Definition put_user (id : string) (b : list (string * string)) (p : pool)
  : response * pool :=
  let nombre := field "nombre" b in
  let email := field "email" b in
  let catch (error : pg_error) (p' : pool) :=
    if String.eqb (code error) "23505" then
      (mkResponse 409
         (JObj [ ("success", JBool false);
                 ("error", JStr ("El email '" ++ text_of email
                                   ++ ("' ya est"
                                       ++ String "225" " registrado por otro usuario"))) ]),
       p')
    else (failure error, p') in
  if negb (truthy nombre) && negb (truthy email) then
    (mkResponse 400
       (JObj [ ("success", JBool false);
               ("error",
                JStr "Se requiere al menos un campo para actualizar (nombre o email)") ]),
     p)
  else
    let (c, p1) := pool_query (mkQuery (SELECT_usuario 1) [id]) p in
    match c with
    | inl error => catch error p1
    | inr checkResult =>
        if rowCount checkResult =? 0 then (not_found_user id, p1)
        else
          let (r, p2) := pool_query (update_query id nombre email) p1 in
          match r with
          | inl error => catch error p2
          | inr result =>
              (mkResponse 200
                 (JObj ([ ("success", JBool true);
                          ("message", JStr "Usuario actualizado exitosamente") ]
                        ++ opt "user" (hd_error (rows result)))), p2)
          end
    end.

(** [app.delete('/users/:id')] *)
Definition delete_user (id : string) (p : pool) : response * pool :=
  let (r, p1) := pool_query (mkQuery (DELETE_usuario 1) [id]) p in
  match r with
  | inr result =>
      if rowCount result =? 0 then (not_found_user id, p1)
      else
        (mkResponse 200
           (JObj ([ ("success", JBool true);
                    ("message", JStr "Usuario eliminado exitosamente") ]
                  ++ opt "deleted_user" (hd_error (rows result)))), p1)
  | inl error => (failure error, p1)
  end.

(** [app.get('/products')] *)
Definition get_products (p : pool) : response * pool :=
  let (r, p1) := pool_query (mkQuery SELECT_productos []) p in
  match r with
  | inr result =>
      (mkResponse 200
         (JObj [ ("success", JBool true);
                 ("count", JNum (rowCount result));
                 ("products", JArr (rows result)) ]), p1)
  | inl error => (failure error, p1)
  end.

(** [`${Math.round(process.memoryUsage().heapUsed / 1024 / 1024)}MB`] *)
Definition heap_text (e : env) : string :=
  show ((2 * heapUsed e + 1024 * 1024) / (2 * 1024 * 1024)) ++ "MB".

Definition first_row (r : result) : json :=
  match rows r with
  | row :: _ => row
  | [] => JNull
  end.

(** [app.get('/stats')].  The three queries of the [Promise.all] are all
    handed to the pool before any answer is looked at; when several fail,
    the rejection kept here is that of the earliest in the array. *)
Definition get_stats (e : env) (p : pool) : response * pool :=
  let (r1, p1) := pool_query (mkQuery COUNT_usuarios []) p in
  let (r2, p2) := pool_query (mkQuery COUNT_productos []) p1 in
  let (r3, p3) := pool_query (mkQuery SELECT_version []) p2 in
  match r1, r2, r3 with
  | inr usersResult, inr productsResult, inr dbResult =>
      (mkResponse 200
         (JObj [ ("success", JBool true);
                 ("stats", JObj [
                    ("users", JObj [
                       ("total",
                        JNum (parseInt_or_0 (get "total" (first_row usersResult)))) ]);
                    ("products", JObj [
                       ("total",
                        JNum (parseInt_or_0
                                (get "total" (first_row productsResult))));
                       ("total_stock",
                        JNum (parseInt_or_0
                                (get "total_stock" (first_row productsResult)))) ]);
                    ("database", JObj
                       (opt "version" (get "version" (first_row dbResult))
                        ++ [ ("connection", JStr "active") ]));
                    ("api", JObj [
                       ("uptime", JStr (uptime_text e));
                       ("start_time", JDate (START_TIME e));
                       ("environment",
                        JStr (or_default (NODE_ENV e) "development"));
                       ("memory_usage", JStr (heap_text e)) ]) ]) ]), p3)
  | inl error, _, _ => (failure error, p3)
  | _, inl error, _ => (failure error, p3)
  | _, _, inl error => (failure error, p3)
  end.

(** The terminal error handler, [app.use((err, req, res, next) => ...)]. *)
Definition error_handler (e : env) (err : js_error) : response :=
  mkResponse
    (match err_status err with
     | Some s => if s =? 0 then 500 else s
     | None => 500
     end)
    (JObj ([ ("success", JBool false);
             ("error", JStr (if String.eqb (err_message err) ""
                             then "Error interno del servidor"
                             else err_message err)) ]
           ++ opt "stack"
                (if is_exactly (NODE_ENV e) "development"
                 then Some (JStr (err_stack err)) else None))).

(** The fallback, [app.use((req, res) => ...)]. *)
Definition route_not_found : response :=
  mkResponse 404
    (JObj [ ("success", JBool false);
            ("error", JStr "Ruta no encontrada");
            ("available_routes", JArr (map JStr
               [ "/health"; "/db-test"; "/system-info"; "/info"; "/data";
                 "/echo"; "/users"; "/users/:id"; "/products"; "/stats" ])) ]).

(** *** Routing *)

Definition lower_char (c : ascii) : ascii :=
  let n := nat_of_ascii c in
  if ((65 <=? n) && (n <=? 90))%nat then ascii_of_nat (n + 32) else c.

Fixpoint lower (s : string) : string :=
  match s with
  | EmptyString => EmptyString
  | String c s' => String (lower_char c) (lower s')
  end.

(** A literal path segment matches whatever the case of its letters. *)
Definition seg (lit s : string) : bool := String.eqb (lower s) lit.

Inductive route : Type :=
| Health | DbTest | SystemInfo | Info | Data | Echo
| GetUsers | GetUser (id : string) | PostUsers
| PutUser (id : string) | DeleteUser (id : string)
| GetProducts | GetStats
| NotFound.

(** The first registered route that matches the method and the path. *)
Definition route_of (m : http_method) (segments : list string) : route :=
  match m, segments with
  | GET, [s] =>
      if seg "health" s then Health
      else if seg "db-test" s then DbTest
      else if seg "system-info" s then SystemInfo
      else if seg "info" s then Info
      else if seg "data" s then Data
      else if seg "users" s then GetUsers
      else if seg "products" s then GetProducts
      else if seg "stats" s then GetStats
      else NotFound
  | POST, [s] =>
      if seg "echo" s then Echo
      else if seg "users" s then PostUsers
      else NotFound
  | GET, [s; id] => if seg "users" s then GetUser id else NotFound
  | PUT, [s; id] => if seg "users" s then PutUser id else NotFound
  | DELETE, [s; id] => if seg "users" s then DeleteUser id else NotFound
  | _, _ => NotFound
  end.

Definition handle (r : route) (e : env) (b : list (string * string)) (p : pool)
  : response * pool :=
  match r with
  | Health => health e p
  | DbTest => db_test p
  | SystemInfo => (system_info e, p)
  | Info => (info, p)
  | Data => (data e, p)
  | Echo => (echo e b, p)
  | GetUsers => get_users p
  | GetUser id => get_user id p
  | PostUsers => post_users b p
  | PutUser id => put_user id b p
  | DeleteUser id => delete_user id p
  | GetProducts => get_products p
  | GetStats => get_stats e p
  | NotFound => (route_not_found, p)
  end.


(** One request of a routed method from [express.json()] on: the body
    parser first, then the routes, then the fallback.  The response is
    what the handler hands to [res.status(...).json(...)]. *)
Definition app (e : env) (req : request) (p : pool) : response * pool :=
  match body req with
  | inl err => (error_handler e err, p)
  | inr b => handle (route_of (method req) (path req)) e b p
  end.

(** Requests served one after the other. *)
Fixpoint serve (e : env) (reqs : list request) (p : pool) : pool :=
  match reqs with
  | [] => p
  | req :: rest => serve e rest (snd (app e req p))
  end.

(** The queries one request hands to the pool. *)
Definition queries_of (e : env) (req : request) (p : pool) : list query :=
  skipn (List.length (issued p)) (issued (snd (app e req p))).

(** *** The whole middleware chain, from [cors()] on

    [app.use(cors())] comes first: it answers every OPTIONS request itself,
    204 without a body, before the body is parsed or a route is tried.  A
    HEAD request runs the GET route of its path and is answered with that
    status and no body.  Any other method has no route and ends in the
    fallback (or in the error handler, when its body cannot be parsed). *)
Inductive verb : Type :=
| OPTIONS
| HEAD
| Routed (m : http_method)
| Other.                     (* PATCH, TRACE, ...: no route is registered *)

(** A request as it arrives. *)
Record arrival : Type := mkArrival {
  arrival_verb : verb;
  arrival_path : list string;
  arrival_body : js_error + list (string * string)
}.

(** A response as it leaves: [None] is an empty body. *)
Record reply : Type := mkReply { reply_status : Z; reply_body : option json }.

Definition service (e : env) (a : arrival) (p : pool) : reply * pool :=
  match arrival_verb a with
  | OPTIONS => (mkReply 204 None, p)
  | HEAD =>
      let (r, p1) := app e (mkRequest GET (arrival_path a) (arrival_body a)) p in
      (mkReply (status r) None, p1)
  | Routed m =>
      let (r, p1) := app e (mkRequest m (arrival_path a) (arrival_body a)) p in
      (mkReply (status r) (Some (payload r)), p1)
  | Other =>
      let r := match arrival_body a with
               | inl err => error_handler e err
               | inr _ => route_not_found
               end in
      (mkReply (status r) (Some (payload r)), p)
  end.

(** The queries one arriving request hands to the pool. *)
Definition service_queries (e : env) (a : arrival) (p : pool) : list query :=
  skipn (List.length (issued p)) (issued (snd (service e a p))).

(** *** Startup: [pool.connect()] once, then [app.listen] *)

(** [pool.connect()] resolves or rejects, the outcome is only logged, and
    [app.listen] runs whatever it was. *)
Definition startup : list event := [Connect; Listen].

(** *** The parts of an uptime, as [/system-info] and [/stats] compute them *)

Definition days_of (up : Z) : Z := up / (3600 * 24).
Definition hours_of (up : Z) : Z := (up mod (3600 * 24)) / 3600.
Definition minutes_of (up : Z) : Z := (up mod 3600) / 60.
Definition seconds_of (up : Z) : Z := up mod 60.

End V3.

(* ================================================================== *)
(** ** The variant that checks the store before listening *)
(* ================================================================== *)

Module V2.
Import Js Pg.

(** The loop of [checkDatabaseConnection] from iteration [i] on, with
    [remaining = retries - i] iterations left.  [connect k] tells whether
    the [pool.connect()] of iteration [k] resolves. *)
Fixpoint attempts (connect : nat -> bool) (retries : nat) (delay : Z)
  (remaining i : nat) : bool * list event :=
  match remaining with
  | O => (false, [])
  | S k =>
      if connect i then (true, [Connect; Release])
      else
        let pause :=
          if Z.of_nat i <? Z.of_nat retries - 1 then [Sleep delay] else [] in
        let (r, t) := attempts connect retries delay k (S i) in
        (r, Connect :: pause ++ t)
  end.

(** [async function checkDatabaseConnection(retries = 5, delay = 2000)] *)
Definition checkDatabaseConnection_with (connect : nat -> bool)
  (retries : nat) (delay : Z) : bool * list event :=
  attempts connect retries delay retries 0.

Definition checkDatabaseConnection (connect : nat -> bool)
  : bool * list event :=
  checkDatabaseConnection_with connect 5 2000.

(** [async function startServer()]: [listen_throws] tells whether
    [app.listen] throws (the one call of the [try] block that can). *)
Definition startServer (connect : nat -> bool) (listen_throws : bool)
  : list event :=
  let (dbConnected, t) := checkDatabaseConnection connect in
  if listen_throws then t ++ [Exit 1] else t ++ [Listen].

(** [app.get('/health')] of this variant. *)
Definition health (e : V3.env) (p : pool) : V3.response * pool :=
  let (r, p1) := pool_query (mkQuery SELECT_now []) p in
  match r with
  | inr dbCheck =>
      let dbTime :=
        match get "db_time" (V3.first_row dbCheck) with
        | Some (JDate t) => t
        | _ => 0
        end in
      (V3.mkResponse 200
         (JObj [ ("service", JStr "backend-api");
                 ("status", JStr "healthy");
                 ("timestamp", JDate (V3.Date_now e));
                 ("database", JObj [
                    ("status", JStr "connected");
                    ("server_time", JDate dbTime);
                    ("latency",
                     JStr (V3.show (V3.Date_now e - dbTime) ++ "ms")) ]);
                 ("environment",
                  JStr (V3.or_default (V3.NODE_ENV e) "development")) ]), p1)
  | inl error =>
      (V3.mkResponse 500
         (JObj [ ("service", JStr "backend-api");
                 ("status", JStr "unhealthy");
                 ("timestamp", JDate (V3.Date_now e));
                 ("database", JObj [ ("status", JStr "disconnected");
                                     ("error", JStr (message error)) ]) ]), p1)
  end.

(** *** The user handlers of this variant

    Their statements list the four columns of the table where the complete
    variant writes a star; on this schema they are the same statements. *)

(** The fixed answer of this variant's [catch] blocks. *)
Definition internal_error : V3.response :=
  V3.mkResponse 500
    (JObj [ ("success", JBool false);
            ("error", JStr "Error interno del servidor") ]).

Definition user_not_found : V3.response :=
  V3.mkResponse 404
    (JObj [ ("success", JBool false);
            ("error", JStr "Usuario no encontrado") ]).

(** [app.get('/users')]: the column list of the SELECT is the table's. *)
Definition get_users (e : V3.env) (p : pool) : V3.response * pool :=
  let (r, p1) := pool_query (mkQuery SELECT_usuarios []) p in
  match r with
  | inr result =>
      (V3.mkResponse 200
         (JObj [ ("success", JBool true);
                 ("count", JNum (rowCount result));
                 ("users", JArr (rows result)) ]), p1)
  | inl error =>
      (V3.mkResponse 500
         (JObj ([ ("success", JBool false);
                  ("error", JStr "Error interno del servidor") ]
                ++ opt "details"
                     (if V3.is_exactly (V3.NODE_ENV e) "development"
                      then Some (JStr (message error)) else None))), p1)
  end.

(** [app.get('/users/:id')] *)
Definition get_user (id : string) (p : pool) : V3.response * pool :=
  let (r, p1) := pool_query (mkQuery (SELECT_usuario 1) [id]) p in
  match r with
  | inr result =>
      if rowCount result =? 0 then (user_not_found, p1)
      else
        (V3.mkResponse 200
           (JObj ([ ("success", JBool true) ]
                  ++ opt "user" (hd_error (rows result)))), p1)
  | inl error => (internal_error, p1)
  end.

(** [app.post('/users')] *)
Definition post_users (b : list (string * string)) (p : pool)
  : V3.response * pool :=
  let nombre := V3.field "nombre" b in
  let email := V3.field "email" b in
  if negb (truthy nombre) || negb (truthy email) then
    (V3.mkResponse 400
       (JObj [ ("success", JBool false);
               ("error", JStr "Nombre y email son requeridos") ]), p)
  else if negb (test emailRegex (V3.text_of email)) then
    (V3.mkResponse 400
       (JObj [ ("success", JBool false);
               ("error", JStr ("Email no v" ++ String "225" "lido")) ]), p)
  else
    let (r, p1) :=
      pool_query
        (mkQuery INSERT_usuario [V3.text_of nombre; V3.text_of email]) p in
    match r with
    | inr result =>
        (V3.mkResponse 201
           (JObj ([ ("success", JBool true);
                    ("message", JStr "Usuario creado exitosamente") ]
                  ++ opt "user" (hd_error (rows result)))), p1)
    | inl error =>
        if String.eqb (code error) "23505" then
          (V3.mkResponse 409
             (JObj [ ("success", JBool false);
                     ("error", JStr ("El email ya est" ++ String "225" " registrado")) ]), p1)
        else (internal_error, p1)
    end.

(** [app.put('/users/:id')]: both fields are required and both are
    assigned. *)
Definition put_user (id : string) (b : list (string * string)) (p : pool)
  : V3.response * pool :=
  let nombre := V3.field "nombre" b in
  let email := V3.field "email" b in
  if negb (truthy nombre) || negb (truthy email) then
    (V3.mkResponse 400
       (JObj [ ("success", JBool false);
               ("error", JStr "Nombre y email son requeridos") ]), p)
  else
    let (r, p1) :=
      pool_query
        (mkQuery
           (UPDATE_usuario [("nombre", Param 1); ("email", Param 2)] 3)
           [V3.text_of nombre; V3.text_of email; id]) p in
    match r with
    | inr result =>
        if rowCount result =? 0 then (user_not_found, p1)
        else
          (V3.mkResponse 200
             (JObj ([ ("success", JBool true);
                      ("message", JStr "Usuario actualizado exitosamente") ]
                    ++ opt "user" (hd_error (rows result)))), p1)
    | inl error => (internal_error, p1)
    end.

(** The terminal error handler of this variant. *)
Definition error_handler (e : V3.env) (err : V3.js_error) : V3.response :=
  V3.mkResponse 500
    (JObj ([ ("success", JBool false);
             ("error", JStr "Error interno del servidor") ]
           ++ opt "message"
                (if V3.is_exactly (V3.NODE_ENV e) "development"
                 then Some (JStr (V3.err_message err)) else None))).

End V2.

(* ================================================================== *)
(** ** The first variant: [src/backend/index.js] *)
(* ================================================================== *)

Module V1.
Import Js Pg.

(** [app.get('/health')] *)
Definition health (e : V3.env) (p : pool) : V3.response * pool :=
  let (r, p1) := pool_query (mkQuery SELECT_1 []) p in
  match r with
  | inr _ =>
      (V3.mkResponse 200
         (JObj [ ("service", JStr "backend-api");
                 ("status", JStr "healthy");
                 ("timestamp", JDate (V3.Date_now e));
                 ("database", JStr "connected") ]), p1)
  | inl error =>
      (V3.mkResponse 500
         (JObj [ ("service", JStr "backend-api");
                 ("status", JStr "unhealthy");
                 ("timestamp", JDate (V3.Date_now e));
                 ("database", JStr "disconnected");
                 ("error", JStr (message error)) ]), p1)
  end.

(** [app.get('/db-test')] *)
Definition db_test (p : pool) : V3.response * pool :=
  let (r, p1) := pool_query (mkQuery SELECT_now_version []) p in
  match r with
  | inr result =>
      (V3.mkResponse 200
         (JObj ([ ("success", JBool true) ]
                ++ opt "data" (hd_error (rows result))
                ++ [ ("message", JStr ("Conexi" ++ String "243" "n a la base de datos exitosa")) ])),
       p1)
  | inl error =>
      (V3.mkResponse 500
         (JObj [ ("success", JBool false);
                 ("error", JStr (message error));
                 ("message", JStr "Error al conectar con la base de datos") ]),
       p1)
  end.

End V1.

(* ================================================================== *)
(** ** Requests and a sample deployment, for stating the properties *)
(* ================================================================== *)

Module Client.
Import Js Pg V3.

(** [GET /users/:id] *)
Definition GET_user (id : string) : request :=
  mkRequest GET ["users"; id] (inr []).

(** [POST /users] with a JSON object as body. *)
Definition POST_users (b : list (string * string)) : request :=
  mkRequest POST ["users"] (inr b).

(** [PUT /users/:id] with a JSON object as body. *)
Definition PUT_user (id : string) (b : list (string * string)) : request :=
  mkRequest PUT ["users"; id] (inr b).

(** [DELETE /users/:id] *)
Definition DELETE_user (id : string) : request :=
  mkRequest DELETE ["users"; id] (inr []).

(** A bodyless [GET] of a one-segment path. *)
Definition GET_ (name : string) : request :=
  mkRequest GET [name] (inr []).

(** The service in production mode. *)
Definition production : env :=
  mkEnv (Some "production") (Some "database") 1700000000000 1699999000000
    1000 "v18.19.0" (JObj [("heapUsed", JNum 20000000)]) 20000000.

(** A pool in front of the freshly seeded store. *)
Definition seeded : pool :=
  mkPool (init_sql 1699990000000 "PostgreSQL 15.5") None [].

(** The same pool while the store cannot be reached. *)
Definition refused : pg_error :=
  mkError "ECONNREFUSED" "connect ECONNREFUSED 172.18.0.2:5432".

Definition unreachable : pool :=
  mkPool (init_sql 1699990000000 "PostgreSQL 15.5") (Some refused) [].

(** The user rows of [p] registered under the email [e]. *)
Definition registered (e : string) (p : pool) : list usuario :=
  filter (by_email e) (usuarios (server p)).

(** No row of [p] has the id [n]. *)
Definition absent (n : Z) (p : pool) : bool :=
  negb (existsb (by_id n) (usuarios (server p))).

(** [payload.k1.k2...] *)
Fixpoint at_path (ks : list string) (j : json) : option json :=
  match ks with
  | [] => Some j
  | k :: rest =>
      match get k j with
      | Some v => at_path rest v
      | None => None
      end
  end.

(** The statements the service can send: what varies with a request is the
    values bound to them. *)
Definition templates : list statement :=
  [ SELECT_1; SELECT_now_version; SELECT_usuarios; SELECT_usuario 1;
    INSERT_usuario; DELETE_usuario 1; SELECT_productos; COUNT_usuarios;
    COUNT_productos; SELECT_version;
    UPDATE_usuario
      [("nombre", Param 1); ("actualizado_en", CURRENT_TIMESTAMP)] 2;
    UPDATE_usuario
      [("email", Param 1); ("actualizado_en", CURRENT_TIMESTAMP)] 2;
    UPDATE_usuario
      [("nombre", Param 1); ("email", Param 2);
       ("actualizado_en", CURRENT_TIMESTAMP)] 3 ].

(** Newest first, as [ORDER BY creado_en DESC] asks. *)
Definition newer_first (u v : usuario) : Prop := creado_en v <= creado_en u.

(** A name of 101 characters. *)
Definition long_name : string := string_of_list_ascii (repeat "a"%char 101).

(** A name of 100 letters followed by two spaces, and its first 100
    characters. *)
Definition full_name : string := string_of_list_ascii (repeat "a"%char 100).
Definition padded_name : string := full_name ++ "  ".

(** A name with the code unit 0 in it. *)
Definition nul_name : string := "An" ++ String "000" "a".

(** A store that answers the first [k] connection attempts with a refusal. *)
Definition up_after (k : nat) (attempt : nat) : bool := (k <=? attempt)%nat.

End Client.

(* ================================================================== *)
(** * Properties *)
(* ================================================================== *)

Import Js Pg V3 Client.
Local Open Scope list_scope.

(** ** The pattern matcher decides the language of its pattern *)

Section RegexTheory.

Lemma lang_seq_inv r s w :
  lang (Seq r s) w -> exists u v, w = u ++ v /\ lang r u /\ lang s v.
Proof. intro H; inversion H; subst; eauto. Qed.

Lemma lang_alt_inv r s w : lang (Alt r s) w -> lang r w \/ lang s w.
Proof. intro H; inversion H; subst; auto. Qed.

Lemma lang_class_inv p w : lang (Class p) w -> exists c, w = [c] /\ p c = true.
Proof. intro H; inversion H; subst; eauto. Qed.

Lemma lang_seq_cons r s c u v :
  lang r (c :: u) -> lang s v -> lang (Seq r s) (c :: u ++ v).
Proof. intros Hu Hv. apply (LSeq Hu Hv). Qed.

Lemma nullable_lang r : nullable r = true <-> lang r [].
Proof.
  induction r; simpl; split; intro H.
  - discriminate.
  - inversion H.
  - constructor.
  - reflexivity.
  - discriminate.
  - inversion H.
  - apply andb_true_iff in H as [H1 H2].
    apply (@LSeq r1 r2 [] []); [apply IHr1 | apply IHr2]; assumption.
  - apply lang_seq_inv in H as (u & v & Huv & Hu & Hv).
    symmetry in Huv. apply app_eq_nil in Huv as [-> ->].
    apply andb_true_iff; split; [apply IHr1 | apply IHr2]; assumption.
  - apply orb_true_iff in H as [H|H];
      [apply LAltL, IHr1 | apply LAltR, IHr2]; assumption.
  - apply orb_true_iff.
    apply lang_alt_inv in H as [H|H];
      [left; apply IHr1 | right; apply IHr2]; assumption.
  - constructor.
  - reflexivity.
Qed.

Lemma lang_star_cons r c s :
  lang (Star r) (c :: s) ->
  exists u v, s = u ++ v /\ lang r (c :: u) /\ lang (Star r) v.
Proof.
  intro H. remember (Star r) as q eqn:Eq. remember (c :: s) as w eqn:Ew.
  revert Eq Ew.
  induction H as [| | | | | |r' u v Hu IHu Hv IHv]; intros Eq Ew;
    try discriminate.
  injection Eq as ->.
  destruct u as [|a u].
  - simpl in Ew. apply IHv; [reflexivity | assumption].
  - simpl in Ew. injection Ew as -> <-.
    exists u, v. repeat split; assumption.
Qed.

Lemma deriv_lang r : forall c s, lang (deriv c r) s <-> lang r (c :: s).
Proof.
  induction r; intros c s; simpl.
  - split; intro H; inversion H.
  - split; intro H; inversion H.
  - destruct (p c) eqn:E; split; intro H.
    + inversion H; subst. constructor; assumption.
    + apply lang_class_inv in H as (a & [= -> ->] & _). constructor.
    + inversion H.
    + apply lang_class_inv in H as (a & [= -> _] & Ha). congruence.
  - assert (Hseq : forall w, lang (Seq (deriv c r1) r2) w <->
              exists u v, w = u ++ v /\ lang r1 (c :: u) /\ lang r2 v).
    { intro w; split.
      - intro H. apply lang_seq_inv in H as (u & v & -> & Hu & Hv).
        exists u, v. repeat split; [apply IHr1|]; assumption.
      - intros (u & v & -> & Hu & Hv). constructor; [apply IHr1|]; assumption. }
    split.
    + intro H.
      assert (Hl : lang (Seq (deriv c r1) r2) s -> lang (Seq r1 r2) (c :: s)).
      { intro Hw. apply Hseq in Hw as (u & v & -> & Hu & Hv).
        apply lang_seq_cons; assumption. }
      destruct (nullable r1) eqn:N; [|auto].
      apply lang_alt_inv in H as [H|H]; [auto|].
      apply (@LSeq r1 r2 [] (c :: s));
        [apply nullable_lang; assumption | apply IHr2; assumption].
    + intro H. apply lang_seq_inv in H as (u & v & Huv & Hu & Hv).
      destruct u as [|a u]; simpl in Huv.
      * subst v. apply nullable_lang in Hu. rewrite Hu.
        apply LAltR, IHr2; assumption.
      * injection Huv as <- ->.
        assert (lang (Seq (deriv c r1) r2) (u ++ v))
          by (apply Hseq; eauto).
        destruct (nullable r1); [apply LAltL|]; assumption.
  - split; intro H; apply lang_alt_inv in H as [H|H];
      solve [apply LAltL, IHr1; assumption | apply LAltR, IHr2; assumption].
  - split; intro H.
    + apply lang_seq_inv in H as (u & v & -> & Hu & Hv).
      apply (@LStarCons r (c :: u) v); [apply IHr|]; assumption.
    + apply lang_star_cons in H as (u & v & -> & Hu & Hv).
      constructor; [apply IHr|]; assumption.
Qed.

Lemma matches_lang s : forall r, matches r s = true <-> lang r s.
Proof.
  induction s as [|c s IH]; intro r; simpl.
  - apply nullable_lang.
  - rewrite IH. apply deriv_lang.
Qed.

(** Character classes under [*] and [+]. *)
Lemma lang_star_class p s :
  lang (Star (Class p)) s <-> forallb p s = true.
Proof.
  split.
  - intro H. remember (Star (Class p)) as q eqn:Eq. revert Eq.
    induction H as [| | | | | |r' u v Hu IHu Hv IHv]; intro Eq;
      try discriminate.
    + reflexivity.
    + injection Eq as ->. apply lang_class_inv in Hu as (c & -> & Hc).
      simpl. rewrite Hc. apply IHv. reflexivity.
  - induction s as [|c s IH]; simpl; intro H.
    + constructor.
    + apply andb_true_iff in H as [Hc Hs].
      apply (@LStarCons (Class p) [c] s); [constructor|]; auto.
Qed.

Lemma lang_plus_class p s :
  lang (Plus (Class p)) s <-> s <> [] /\ forallb p s = true.
Proof.
  unfold Plus. split.
  - intro H. apply lang_seq_inv in H as (u & v & -> & Hu & Hv).
    apply lang_class_inv in Hu as (c & -> & Hc).
    apply lang_star_class in Hv. simpl. rewrite Hc, Hv. split; [discriminate|reflexivity].
  - intros [Hne H]. destruct s as [|c s]; [congruence|].
    simpl in H. apply andb_true_iff in H as [Hc Hs].
    apply (@LSeq (Class p) (Star (Class p)) [c] s); [constructor; assumption|].
    apply lang_star_class; assumption.
Qed.

Lemma lang_emailRegex w :
  lang emailRegex w <->
  exists l d t : list ascii,
    w = l ++ "@"%char :: d ++ "."%char :: t
    /\ l <> [] /\ d <> [] /\ t <> []
    /\ forallb not_space_at l = true
    /\ forallb not_space_at d = true
    /\ forallb not_space_at t = true.
Proof.
  unfold emailRegex. split.
  - intro H.
    apply lang_seq_inv in H as (l & w1 & -> & Hl & H).
    apply lang_seq_inv in H as (a & w2 & -> & Ha & H).
    apply lang_seq_inv in H as (d & w3 & -> & Hd & H).
    apply lang_seq_inv in H as (b & t & -> & Hb & Ht).
    apply lang_class_inv in Ha as (ca & -> & Ea).
    apply lang_class_inv in Hb as (cb & -> & Eb).
    apply Ascii.eqb_eq in Ea, Eb. subst ca cb.
    apply lang_plus_class in Hl as [? ?], Hd as [? ?], Ht as [? ?].
    exists l, d, t. simpl. repeat split; assumption.
  - intros (l & d & t & -> & Nl & Nd & Nt & Hl & Hd & Ht).
    apply LSeq; [apply lang_plus_class; auto|].
    apply (@LSeq _ _ ["@"%char]); [constructor; reflexivity|].
    apply LSeq; [apply lang_plus_class; auto|].
    apply (@LSeq _ _ ["."%char]); [constructor; reflexivity|].
    apply lang_plus_class; auto.
Qed.

Theorem emailRegex_spec s : test emailRegex s = true <-> email_shape s.
Proof.
  unfold test, email_shape. rewrite matches_lang. apply lang_emailRegex.
Qed.

End RegexTheory.

(** ** Lists *)

Lemma filter_nil_existsb {A} (f : A -> bool) l :
  filter f l = [] <-> existsb f l = false.
Proof.
  induction l as [|a l IH]; simpl; [tauto|].
  destruct (f a); simpl; [split; discriminate | exact IH].
Qed.

Lemma find_filter {A} (f : A -> bool) l u :
  find f l = Some u -> exists rest, filter f l = u :: rest.
Proof.
  induction l as [|a l IH]; simpl; [discriminate|].
  destruct (f a) eqn:E.
  - intros [= ->]. eauto.
  - exact IH.
Qed.

Lemma filter_negb_gone {A} (f : A -> bool) l :
  filter f (filter (fun v => negb (f v)) l) = [].
Proof.
  induction l as [|a l IH]; simpl; [reflexivity|].
  destruct (f a) eqn:E; simpl; [exact IH|]. rewrite E. exact IH.
Qed.

Lemma existsb_app_r {A} (f : A -> bool) l a :
  f a = true -> existsb f (l ++ [a]) = true.
Proof. intro H. rewrite existsb_app. simpl. rewrite H. apply orb_true_r. Qed.

Lemma skipn_length_app {A} (l l' : list A) : skipn (List.length l) (l ++ l') = l'.
Proof. induction l; simpl; auto. Qed.

Lemma skipn_length {A} (l : list A) : skipn (List.length l) l = [].
Proof. induction l; simpl; auto. Qed.

Lemma NoDup_map_filter {A B} (g : A -> B) (f : A -> bool) l :
  NoDup (map g l) -> NoDup (map g (filter f l)).
Proof.
  induction l as [|a l IH]; simpl; intro H; [constructor|].
  inversion H as [|? ? Ha Hl]; subst.
  destruct (f a); simpl; [|auto].
  constructor; [|auto].
  rewrite in_map_iff. intros (w & Hw & Hin). apply Ha.
  apply in_map_iff. exists w. split; [exact Hw|].
  apply filter_In in Hin. tauto.
Qed.

Lemma Forall_filter {A} (P : A -> Prop) (f : A -> bool) l :
  Forall P l -> Forall P (filter f l).
Proof.
  intro H. apply Forall_forall. intros x Hx. apply filter_In in Hx as [Hx _].
  revert x Hx. apply Forall_forall. exact H.
Qed.

Lemma NoDup_snoc {A} (l : list A) a : NoDup l -> ~ In a l -> NoDup (l ++ [a]).
Proof.
  induction l as [|b l IH]; simpl; intros H Hn.
  - constructor; [intros [] | constructor].
  - inversion H as [|? ? Hb Hl]; subst. constructor.
    + rewrite in_app_iff. simpl. intros [Hin|[Heq|[]]]; [tauto|].
      apply Hn. left. symmetry. exact Heq.
    + apply IH; [exact Hl | intro Hin; apply Hn; right; exact Hin].
Qed.

Lemma forallb_rev {A} (f : A -> bool) l : forallb f l = true -> forallb f (rev l) = true.
Proof.
  rewrite !forallb_forall. intros H x Hx. apply H, in_rev, Hx.
Qed.

Lemma find_In {A} (f : A -> bool) l u : find f l = Some u -> In u l /\ f u = true.
Proof. apply find_some. Qed.

Lemma existsb_rev {A} (f : A -> bool) l : existsb f (rev l) = existsb f l.
Proof.
  induction l as [|a l IH]; simpl; [reflexivity|].
  rewrite existsb_app, IH. simpl. rewrite orb_false_r. apply orb_comm.
Qed.

Lemma length_list_ascii s :
  List.length (list_ascii_of_string s) = String.length s.
Proof. induction s as [|c s IH]; simpl; [reflexivity | rewrite IH; reflexivity]. Qed.

(** ** Text parameters *)

Lemma pg_isspace_not_nul c : pg_isspace c = true -> is_nul c = false.
Proof.
  destruct c as [[] [] [] [] [] [] [] []]; try reflexivity; discriminate.
Qed.

Lemma skip_spaces_nul l :
  existsb is_nul (skip_spaces l) = false -> existsb is_nul l = false.
Proof.
  induction l as [|c l IH]; simpl; [reflexivity|].
  destruct (pg_isspace c) eqn:E; [|exact (fun H => H)].
  intro H. rewrite (pg_isspace_not_nul _ E). apply IH, H.
Qed.

Lemma trim_nul s : has_nul (trim s) = false -> has_nul s = false.
Proof.
  unfold has_nul, trim. rewrite list_ascii_of_string_of_list_ascii.
  rewrite existsb_rev. intro H. apply skip_spaces_nul in H.
  rewrite existsb_rev in H. apply skip_spaces_nul, H.
Qed.

Lemma uint_text_nul d : has_nul (NilEmpty.string_of_uint d) = false.
Proof. unfold has_nul. induction d; simpl; auto. Qed.

Lemma uint_text_nul' d : has_nul (NilZero.string_of_uint d) = false.
Proof. destruct d; try apply (uint_text_nul (_ _)); reflexivity. Qed.

Lemma int_text_nul d : has_nul (NilZero.string_of_int d) = false.
Proof. destruct d as [d|d]; simpl; [apply uint_text_nul' | apply (uint_text_nul' d)]. Qed.

Lemma integer_digits_cases s :
  integer_digits s = option_map Z.of_int (NilZero.int_of_string (trim s))
  \/ exists r, trim s = String "+" r
               /\ integer_digits s
                  = option_map Z.of_uint (NilZero.uint_of_string r).
Proof.
  unfold integer_digits. destruct (trim s) as [|c r]; [left; reflexivity|].
  destruct c as [[] [] [] [] [] [] [] []]; try (left; reflexivity).
  right. eexists. split; reflexivity.
Qed.

(** A text the server reads as an integer has no code unit 0: it is made of
    blanks, a sign and digits. *)
Lemma integer_digits_nul s n : integer_digits s = Some n -> has_nul s = false.
Proof.
  intro H. apply trim_nul.
  destruct (integer_digits_cases s) as [E | (r & Et & E)]; rewrite E in H.
  - destruct (NilZero.int_of_string (trim s)) as [d|] eqn:Ed; [|discriminate].
    apply NilZero.sis in Ed. rewrite <- Ed. apply int_text_nul.
  - destruct (NilZero.uint_of_string r) as [d|] eqn:Ed; [|discriminate].
    apply NilZero.sus in Ed. rewrite Et, <- Ed.
    change (has_nul (String "+" (NilZero.string_of_uint d)))
      with (has_nul (NilZero.string_of_uint d)).
    apply uint_text_nul'.
Qed.

Lemma int4_in_nul s n : int4_in s = Some n -> has_nul s = false.
Proof.
  unfold int4_in. destruct (integer_digits s) as [m|] eqn:E; [|discriminate].
  intros _. eapply integer_digits_nul, E.
Qed.

Lemma int4_in_bound s n : int4_in s = Some n -> existsb has_nul [s] = false.
Proof. intro H. simpl. rewrite (int4_in_nul _ H). reflexivity. Qed.

(** *** VARCHAR(100) *)

Lemma varchar100_short s :
  (String.length s <= 100)%nat -> varchar100 s = Some s.
Proof.
  intro H. unfold varchar100. rewrite length_list_ascii.
  apply Nat.leb_le in H. rewrite H. reflexivity.
Qed.

(** What is stored fits the column. *)
Lemma varchar100_fits s s' :
  varchar100 s = Some s' -> (String.length s' <= 100)%nat.
Proof.
  unfold varchar100. rewrite length_list_ascii. generalize 100%nat as k. intro k.
  destruct (String.length s <=? k)%nat eqn:E.
  - intros [= <-]. apply Nat.leb_le, E.
  - destruct (forallb _ _); [|discriminate]. intros [= <-].
    rewrite <- length_list_ascii, list_ascii_of_string_of_list_ascii.
    apply firstn_le_length.
Qed.

(** A text without a space is stored as it is or refused. *)
Lemma varchar100_no_space s :
  forallb (fun c => negb (Ascii.eqb " " c)) (list_ascii_of_string s) = true ->
  varchar100 s = if (String.length s <=? 100)%nat then Some s else None.
Proof.
  intro H. unfold varchar100. rewrite length_list_ascii.
  generalize 100%nat as k. intro k.
  destruct (String.length s <=? k)%nat eqn:E; [reflexivity|].
  apply Nat.leb_gt in E. rewrite <- length_list_ascii in E.
  destruct (skipn k (list_ascii_of_string s)) as [|c rest] eqn:Es.
  - apply (f_equal (@List.length ascii)) in Es. rewrite length_skipn in Es.
    simpl in Es. lia.
  - assert (Hc : In c (list_ascii_of_string s)).
    { rewrite <- (firstn_skipn k). rewrite Es. apply in_or_app. right. left.
      reflexivity. }
    rewrite forallb_forall in H. specialize (H c Hc).
    cbn [forallb]. apply negb_true_iff in H. rewrite H. reflexivity.
Qed.

Lemma not_space_at_no_blank c : not_space_at c = true -> negb (Ascii.eqb " " c) = true.
Proof.
  destruct (Ascii.eqb_spec " " c) as [<-|]; [discriminate | reflexivity].
Qed.

Lemma forallb_impl {A} (f g : A -> bool) l :
  (forall a, f a = true -> g a = true) ->
  forallb f l = true -> forallb g l = true.
Proof.
  intros H. rewrite !forallb_forall. intros Hf x Hx. apply H, Hf, Hx.
Qed.

(** An email the pattern accepts has no space: the column takes it as it
    is, or refuses it. *)
Lemma varchar100_email e :
  test emailRegex e = true ->
  varchar100 e = if (String.length e <=? 100)%nat then Some e else None.
Proof.
  intro H. apply varchar100_no_space.
  apply emailRegex_spec in H as (lo & dom & tld & E & _ & _ & _ & H1 & H2 & H3).
  rewrite forallb_forall in H1, H2, H3.
  apply forallb_forall. intros c Hc. rewrite E in Hc.
  apply in_app_or in Hc as [Hc|[<-|Hc]];
    [apply not_space_at_no_blank, H1, Hc | reflexivity |].
  apply in_app_or in Hc as [Hc|[<-|Hc]];
    [apply not_space_at_no_blank, H2, Hc | reflexivity |].
  apply not_space_at_no_blank, H3, Hc.
Qed.

(** ** The pool and the statements of the service *)

(** A reachable store runs the query; the pool records it. *)
Lemma pool_query_up q p :
  outage p = None ->
  pool_query q p =
    (fst (exec q (server p)),
     mkPool (snd (exec q (server p))) None (issued p ++ [q])).
Proof.
  intro H. unfold pool_query. rewrite H.
  destruct (exec q (server p)); reflexivity.
Qed.

(** An unreachable store rejects it; the pool still records it. *)
Lemma pool_query_down q p err :
  outage p = Some err ->
  pool_query q p = (inl err, mkPool (server p) (Some err) (issued p ++ [q])).
Proof. intro H. unfold pool_query. rewrite H. reflexivity. Qed.

Lemma issued_pool_query q p r p1 :
  pool_query q p = (r, p1) -> issued p1 = issued p ++ [q] /\ outage p1 = outage p.
Proof.
  unfold pool_query. destruct (outage p) eqn:Ho.
  - intros [= <- <-]. simpl. auto.
  - destruct (exec q (server p)). intros [= <- <-]. simpl. auto.
Qed.

Lemma rowCount_result_of rs :
  (rowCount (result_of rs) =? 0) = match rs with [] => true | _ => false end.
Proof. destruct rs; reflexivity. Qed.

Lemma exec_select_usuario id n d :
  int4_in id = Some n ->
  exec (mkQuery (SELECT_usuario 1) [id]) d =
    (inr (result_of (map usuario_row (filter (by_id n) (usuarios d)))), d).
Proof.
  intro H. unfold exec; cbn [text values]. rewrite (int4_in_bound _ H).
  unfold where_id_value; simpl. rewrite H. reflexivity.
Qed.

Lemma exec_delete_usuario id n d :
  int4_in id = Some n ->
  exec (mkQuery (DELETE_usuario 1) [id]) d =
    (inr (result_of (map usuario_row (filter (by_id n) (usuarios d)))),
     set_usuarios (filter (fun v => negb (by_id n v)) (usuarios d)) d).
Proof.
  intro H. unfold exec; cbn [text values]. rewrite (int4_in_bound _ H).
  unfold where_id_value; simpl. rewrite H. reflexivity.
Qed.

(** The schema has no [actualizado_en] column: the store rejects every
    UPDATE the service can build, whatever the row and the fields. *)
Lemma exec_update_query id n e d :
  exec (update_query id n e) d = (inl (undefined_column "actualizado_en"), d).
Proof.
  unfold update_query, push_if.
  destruct (truthy n), (truthy e); reflexivity.
Qed.

Lemma existsb_by_id_below d :
  Forall (fun u => id u < usuarios_id_seq d) (usuarios d) ->
  existsb (by_id (usuarios_id_seq d)) (usuarios d) = false.
Proof.
  intro H. induction H as [|u l Hu _ IH]; simpl; [reflexivity|].
  rewrite IH, orb_false_r. unfold by_id. apply Z.eqb_neq. lia.
Qed.

Lemma bound_two n e :
  has_nul n = false -> has_nul e = false -> existsb has_nul [n; e] = false.
Proof. intros Hn He. simpl. rewrite Hn, He. reflexivity. Qed.

(** An INSERT the store accepts. *)
Lemma exec_insert_ok n e n' e' d :
  has_nul n = false -> has_nul e = false ->
  varchar100 n = Some n' -> varchar100 e = Some e' ->
  usuarios_id_seq d <= int4_max ->
  existsb (by_id (usuarios_id_seq d)) (usuarios d) = false ->
  existsb (by_email e') (usuarios d) = false ->
  exec (mkQuery INSERT_usuario [n; e]) d =
    (inr (result_of [usuario_row (created n' e' d)]),
     set_usuarios (usuarios d ++ [created n' e' d]) (nextval d)).
Proof.
  intros Nn Ne Vn Ve Hs Hi He. unfold exec; cbn [text values param nth_error].
  rewrite (bound_two _ _ Nn Ne), Vn, Ve.
  replace (int4_max <? usuarios_id_seq d) with false
    by (symmetry; apply Z.ltb_ge; exact Hs).
  cbv zeta. rewrite Hi, He. reflexivity.
Qed.

(** What an accepted INSERT tells of its values and of the store. *)
Lemma exec_insert_inv n e d r d' :
  exec (mkQuery INSERT_usuario [n; e]) d = (inr r, d') ->
  exists n' e',
    has_nul n = false /\ has_nul e = false
    /\ varchar100 n = Some n' /\ varchar100 e = Some e'
    /\ usuarios_id_seq d <= int4_max
    /\ existsb (by_id (usuarios_id_seq d)) (usuarios d) = false
    /\ existsb (by_email e') (usuarios d) = false.
Proof.
  unfold exec; cbn [text values param nth_error existsb].
  destruct (has_nul n) eqn:Nn; [discriminate|].
  destruct (has_nul e) eqn:Ne; [discriminate|]. cbn [orb].
  destruct (varchar100 n) as [n'|] eqn:Vn; [|discriminate].
  destruct (varchar100 e) as [e'|] eqn:Ve; [|discriminate].
  destruct (int4_max <? usuarios_id_seq d) eqn:Es; [discriminate|].
  cbv zeta.
  destruct (existsb (by_id _) _) eqn:Hi; [discriminate|].
  destruct (existsb (by_email e') _) eqn:He; [discriminate|].
  intros _. exists n', e'. apply Z.ltb_ge in Es. auto 10.
Qed.

(** An INSERT whose email is taken: refused by a key, the sequence moved. *)
Lemma exec_insert_duplicate n e n' e' d :
  has_nul n = false -> has_nul e = false ->
  varchar100 n = Some n' -> varchar100 e = Some e' ->
  usuarios_id_seq d <= int4_max ->
  existsb (by_email e') (usuarios d) = true ->
  exists c, exec (mkQuery INSERT_usuario [n; e]) d
            = (inl (unique_violation c), nextval d).
Proof.
  intros Nn Ne Vn Ve Hs He. unfold exec; cbn [text values param nth_error].
  rewrite (bound_two _ _ Nn Ne), Vn, Ve.
  replace (int4_max <? usuarios_id_seq d) with false
    by (symmetry; apply Z.ltb_ge; exact Hs).
  cbv zeta. rewrite He.
  destruct (existsb (by_id _) _); eauto.
Qed.

(** An INSERT refused before a row is formed leaves the store, its sequence
    included, as it was. *)
Lemma exec_insert_refused n e d :
  has_nul n || has_nul e = true
  \/ varchar100 n = None \/ varchar100 e = None
  \/ int4_max < usuarios_id_seq d ->
  exists err, exec (mkQuery INSERT_usuario [n; e]) d = (inl err, d)
              /\ code err <> "23505".
Proof.
  intro H. unfold exec; cbn [text values param nth_error existsb].
  rewrite orb_false_r.
  destruct (has_nul n || has_nul e) eqn:En.
  { eexists. split; [reflexivity | discriminate]. }
  destruct H as [H | H]; [discriminate|].
  destruct (varchar100 n) as [n'|].
  2:{ eexists. split; [reflexivity | discriminate]. }
  destruct (varchar100 e) as [e'|].
  2:{ eexists. split; [reflexivity | discriminate]. }
  destruct H as [H | [H | H]]; try discriminate.
  apply Z.ltb_lt in H. rewrite H.
  eexists. split; [reflexivity | discriminate].
Qed.

Lemma by_email_created n e d : by_email e (created n e d) = true.
Proof. apply String.eqb_refl. Qed.

Lemma absent_filter n p : absent n p = true -> filter (by_id n) (usuarios (server p)) = [].
Proof.
  unfold absent. intro H. apply filter_nil_existsb.
  apply negb_true_iff. exact H.
Qed.

(** ** The canonical decimal text of an id is read back as that id *)

Lemma plain_uint d : forallb plain_char (list_ascii_of_string (NilEmpty.string_of_uint d)) = true.
Proof. induction d; simpl; auto. Qed.

Lemma plain_show n : forallb plain_char (list_ascii_of_string (show n)) = true.
Proof.
  unfold show. destruct (Z.to_int n) as [d|d]; simpl.
  - destruct d; try apply (plain_uint (_ _)); reflexivity.
  - destruct d; try apply (plain_uint (_ _)); reflexivity.
Qed.

Lemma skip_spaces_plain l : forallb plain_char l = true -> skip_spaces l = l.
Proof.
  destruct l as [|c l]; simpl; [reflexivity|].
  intro H. apply andb_true_iff in H as [H _].
  apply andb_true_iff in H as [H _]. apply negb_true_iff in H.
  rewrite H. reflexivity.
Qed.

Lemma trim_plain s :
  forallb plain_char (list_ascii_of_string s) = true -> trim s = s.
Proof.
  intro H. unfold trim.
  rewrite (skip_spaces_plain _ H).
  rewrite (skip_spaces_plain _ (forallb_rev _ _ H)).
  rewrite rev_involutive. apply string_of_list_ascii_of_string.
Qed.

Lemma show_sign n : match show n with String "+" _ => False | _ => True end.
Proof.
  pose proof (plain_show n) as H.
  destruct (show n) as [|c s]; [exact I|].
  simpl in H. apply andb_true_iff in H as [H _].
  apply andb_true_iff in H as [_ H]. apply negb_true_iff, Ascii.eqb_neq in H.
  destruct c as [[] [] [] [] [] [] [] []]; try exact I. congruence.
Qed.

Lemma to_int_proper n :
  Z.to_int n <> Decimal.Pos Decimal.Nil /\ Z.to_int n <> Decimal.Neg Decimal.Nil.
Proof.
  destruct n as [|p|p]; simpl; split; try discriminate;
    intros [= H]; revert H; apply DecimalPos.Unsigned.to_uint_nonnil.
Qed.

Lemma int_of_show n : option_map Z.of_int (NilZero.int_of_string (show n)) = Some n.
Proof.
  unfold show. destruct (to_int_proper n) as [H1 H2].
  rewrite NilZero.isi by assumption. simpl. rewrite DecimalZ.of_to. reflexivity.
Qed.

(** [GET /users/3]: the text a client prints for an id within the integer range. *)
Theorem int4_in_show n :
  int4_min <= n <= int4_max -> int4_in (show n) = Some n.
Proof.
  intro Hr. unfold int4_in, integer_digits. rewrite (trim_plain _ (plain_show n)).
  pose proof (show_sign n) as Hs. pose proof (int_of_show n) as Hi.
  assert (E : match show n with
              | String "+" r => option_map Z.of_uint (NilZero.uint_of_string r)
              | t => option_map Z.of_int (NilZero.int_of_string t)
              end = Some n).
  { destruct (show n) as [|c s]; [exact Hi|].
    destruct c as [[] [] [] [] [] [] [] []]; try exact Hi. contradiction. }
  rewrite E.
  replace ((int4_min <=? n) && (n <=? int4_max)) with true; [reflexivity|].
  symmetry. apply andb_true_iff. split; apply Z.leb_le; lia.
Qed.

(** ** The keys of the schema hold in every store the service can reach *)

Lemma init_sql_consistent t v : consistent (init_sql t v).
Proof.
  unfold consistent, init_sql; simpl. repeat split.
  - repeat constructor; simpl; lia.
  - repeat constructor; simpl; intuition discriminate.
  - repeat constructor; simpl; intuition discriminate.
Qed.

Lemma assign_id vs a f : assign vs a = inr f -> forall t u, id (f t u) = id u.
Proof.
  unfold assign. destruct a as [c [n|]].
  - destruct (param n vs) as [s|]; [|discriminate].
    destruct (c =? "nombre")%string.
    { destruct (varchar100 s); [|discriminate]. intros [= <-]. reflexivity. }
    destruct (c =? "email")%string; [|discriminate].
    destruct (varchar100 s); [|discriminate]. intros [= <-]. reflexivity.
  - destruct (c =? "creado_en")%string; [|discriminate].
    intros [= <-]. reflexivity.
Qed.

Lemma assign_all_id vs set :
  forall f, assign_all vs set = inr f -> forall t u, id (f t u) = id u.
Proof.
  induction set as [|a set IH]; simpl; intros f.
  - intros [= <-]. reflexivity.
  - destruct (assign vs a) as [e|g] eqn:E; [discriminate|].
    destruct (assign_all vs set) as [e|h] eqn:Eh; [discriminate|].
    intros [= <-] t u. rewrite (IH h eq_refl). eapply assign_id, E.
Qed.

Lemma map_replace_ids i u' us :
  id u' = i ->
  map id (map (fun v => if by_id i v then u' else v) us) = map id us.
Proof.
  intro H. induction us as [|v us IH]; simpl; [reflexivity|].
  rewrite IH. f_equal. unfold by_id. destruct (id v =? i) eqn:E; [|reflexivity].
  apply Z.eqb_eq in E. congruence.
Qed.

Lemma replace_emails i u' us :
  NoDup (map id us) -> NoDup (map email us) ->
  existsb (fun v => negb (by_id i v) && by_email (email u') v) us = false ->
  NoDup (map email (map (fun v => if by_id i v then u' else v) us)).
Proof.
  intros Hid Hem Hother.
  assert (Hne : forall v, In v us -> by_id i v = false -> email v <> email u').
  { intros v Hv Hi Heq.
    assert (existsb (fun v => negb (by_id i v) && by_email (email u') v) us = true).
    { apply existsb_exists. exists v. split; [exact Hv|].
      rewrite Hi. simpl. unfold by_email. apply String.eqb_eq. exact Heq. }
    congruence. }
  clear Hother.
  induction us as [|v us IH]; simpl; [constructor|].
  simpl in Hid, Hem. inversion Hid as [|? ? Hidv Hid']; subst.
  inversion Hem as [|? ? Hemv Hem']; subst.
  assert (IH' := IH Hid' Hem' (fun w Hw => Hne w (or_intror Hw))).
  constructor; [|exact IH'].
  rewrite in_map_iff. intros (w' & Hw'e & Hw'in).
  apply in_map_iff in Hw'in as (w & <- & Hw).
  destruct (by_id i v) eqn:Ev; destruct (by_id i w) eqn:Ew.
  - apply Hidv. apply in_map_iff. exists w. split; [|exact Hw].
    unfold by_id in Ev, Ew. apply Z.eqb_eq in Ev, Ew. congruence.
  - apply (Hne w (or_intror Hw) Ew). exact Hw'e.
  - apply (Hne v (or_introl eq_refl) Ev). symmetry. exact Hw'e.
  - apply Hemv. apply in_map_iff. exists w. split; assumption.
Qed.

Lemma consistent_nextval d : consistent d -> consistent (nextval d).
Proof.
  intros (Hlt & Hid & Hem). repeat split; simpl; try assumption.
  eapply Forall_impl; [|exact Hlt]. simpl. intros; lia.
Qed.

(** No statement breaks the keys, whether it succeeds or fails. *)
Theorem exec_consistent q d : consistent d -> consistent (snd (exec q d)).
Proof.
  intro H. destruct q as [t vs]. unfold exec. cbn [text values].
  destruct t; try exact H.
  - destruct (existsb has_nul vs); [exact H|].
    destruct (where_id_value where_id vs); exact H.
  - destruct (param 1 vs) as [n|]; [|exact H].
    destruct (param 2 vs) as [e|]; [|exact H].
    destruct (existsb has_nul vs); [exact H|].
    destruct (varchar100 n) as [n'|]; [|exact H].
    destruct (varchar100 e) as [e'|]; [|exact H].
    destruct (int4_max <? usuarios_id_seq d); [exact H|]. cbv zeta.
    destruct (existsb (by_id _) _) eqn:Ei; [apply consistent_nextval, H|].
    destruct (existsb (by_email e') _) eqn:Ee; [apply consistent_nextval, H|].
    destruct H as (Hlt & Hid & Hem). repeat split; simpl.
    + apply Forall_app. split.
      * eapply Forall_impl; [|exact Hlt]. simpl; intros; lia.
      * repeat constructor. simpl. lia.
    + rewrite map_app. simpl. apply NoDup_snoc; [exact Hid|].
      rewrite in_map_iff. intros (w & Hw & Hin).
      rewrite Forall_forall in Hlt. specialize (Hlt w Hin). simpl in Hlt. lia.
    + rewrite map_app. simpl. apply NoDup_snoc; [exact Hem|].
      * rewrite in_map_iff. intros (w & Hw & Hin).
        assert (existsb (by_email e') (usuarios d) = true); [|congruence].
        apply existsb_exists. exists w. split; [exact Hin|].
        unfold by_email. apply String.eqb_eq. exact Hw.
  - destruct (missing_column set); [exact H|].
    destruct (existsb has_nul vs); [exact H|].
    destruct (where_id_value where_id vs) as [e|i]; [exact H|].
    destruct (assign_all vs set) as [e|change] eqn:Ea; [exact H|].
    destruct (find (by_id i) (usuarios d)) as [u|] eqn:Ef; [|exact H].
    cbv zeta.
    destruct (existsb _ (usuarios d)) eqn:Eo; [exact H|].
    destruct H as (Hlt & Hid & Hem).
    apply find_In in Ef as [Hin Hu].
    pose proof (assign_all_id _ _ Ea (now d) u) as Eid.
    unfold by_id in Hu. apply Z.eqb_eq in Hu.
    repeat split; simpl.
    + apply Forall_forall. intros x Hx. apply in_map_iff in Hx as (w & <- & Hw).
      rewrite Forall_forall in Hlt.
      destruct (by_id i w); [rewrite Eid; apply Hlt, Hin | apply Hlt, Hw].
    + rewrite map_replace_ids by congruence. exact Hid.
    + apply replace_emails; assumption.
  - destruct (existsb has_nul vs); [exact H|].
    destruct (where_id_value where_id vs) as [e|i]; [exact H|].
    destruct H as (Hlt & Hid & Hem). repeat split; simpl.
    + apply Forall_filter, Hlt.
    + apply NoDup_map_filter, Hid.
    + apply NoDup_map_filter, Hem.
Qed.

Lemma pool_query_consistent q p r p1 :
  pool_query q p = (r, p1) -> consistent (server p) -> consistent (server p1).
Proof.
  unfold pool_query. destruct (outage p).
  - intros [= <- <-] H. exact H.
  - destruct (exec q (server p)) as [r' d'] eqn:E. intros [= <- <-] H. simpl.
    change d' with (snd (r', d')). rewrite <- E. apply exec_consistent, H.
Qed.

Ltac query_case r p1 E :=
  match goal with
  | |- context [pool_query ?q ?p] =>
      destruct (pool_query q p) as [r p1] eqn:E
  end.

(** No request breaks them either. *)
Theorem app_consistent ev req p :
  consistent (server p) -> consistent (server (snd (app ev req p))).
Proof.
  intro H. destruct req as [m pa [jerr|b]]; unfold app; simpl body; [exact H|].
  simpl method; simpl path.
  destruct (route_of m pa) as [| | | | | | |i| |i|i| | |]; simpl handle;
    try exact H.
  - unfold health. query_case r p1 E.
    apply pool_query_consistent in E; [|exact H]. destruct r; exact E.
  - unfold db_test. query_case r p1 E.
    apply pool_query_consistent in E; [|exact H]. destruct r; exact E.
  - unfold get_users. query_case r p1 E.
    apply pool_query_consistent in E; [|exact H]. destruct r; exact E.
  - unfold get_user. query_case r p1 E.
    apply pool_query_consistent in E; [|exact H].
    destruct r as [e|r]; [exact E|]. destruct (rowCount r =? 0); exact E.
  - unfold post_users.
    destruct (negb _ || negb _); [exact H|].
    destruct (negb (test _ _)); [exact H|].
    query_case r p1 E. apply pool_query_consistent in E; [|exact H].
    destruct r as [e|r]; [|exact E].
    destruct (code e =? "23505")%string; exact E.
  - unfold put_user.
    destruct (negb _ && negb _); [exact H|].
    query_case r p1 E. apply pool_query_consistent in E; [|exact H].
    destruct r as [e|r].
    { destruct (code e =? "23505")%string; exact E. }
    destruct (rowCount r =? 0); [exact E|].
    query_case r2 p2 E2. apply pool_query_consistent in E2; [|exact E].
    destruct r2 as [e|r2]; [|exact E2].
    destruct (code e =? "23505")%string; exact E2.
  - unfold delete_user. query_case r p1 E.
    apply pool_query_consistent in E; [|exact H].
    destruct r as [e|r]; [exact E|]. destruct (rowCount r =? 0); exact E.
  - unfold get_products. query_case r p1 E.
    apply pool_query_consistent in E; [|exact H]. destruct r; exact E.
  - unfold get_stats. query_case r1 p1 E1. query_case r2 p2 E2.
    query_case r3 p3 E3.
    apply pool_query_consistent in E1; [|exact H].
    apply pool_query_consistent in E2; [|exact E1].
    apply pool_query_consistent in E3; [|exact E2].
    destruct r1, r2, r3; exact E3.
Qed.

(** Hence they hold after any sequence of requests. *)
Theorem serve_consistent ev reqs : forall p,
  consistent (server p) -> consistent (server (serve ev reqs p)).
Proof.
  induction reqs as [|req rest IH]; intros p H; simpl; [exact H|].
  apply IH, app_consistent, H.
Qed.

(** ** Routing and the handlers, one request at a time *)

Lemma app_GET_user env id p : app env (GET_user id) p = get_user id p.
Proof. reflexivity. Qed.

Lemma app_POST_users env b p : app env (POST_users b) p = post_users b p.
Proof. reflexivity. Qed.

Lemma app_PUT_user env id b p : app env (PUT_user id b) p = put_user id b p.
Proof. reflexivity. Qed.

Lemma app_DELETE_user env id p : app env (DELETE_user id) p = delete_user id p.
Proof. reflexivity. Qed.

Lemma emailRegex_truthy e : test emailRegex e = true -> truthy (Some e) = true.
Proof. destruct e; [discriminate | reflexivity]. Qed.

Lemma queries_of_eq ev req p l :
  issued (snd (app ev req p)) = issued p ++ l -> queries_of ev req p = l.
Proof. unfold queries_of. intros ->. apply skipn_length_app. Qed.

Lemma issued_nil p : issued p = issued p ++ [].
Proof. symmetry. apply app_nil_r. Qed.

Lemma queries_of_unchanged ev req p :
  snd (app ev req p) = p -> queries_of ev req p = [].
Proof. unfold queries_of. intros ->. apply skipn_length. Qed.

(** The queries each route hands to the pool, and when. *)
Lemma issued_app ev req p :
  exists l, issued (snd (app ev req p)) = issued p ++ l /\
  match body req with
  | inl _ => l = []
  | inr b =>
      match route_of (method req) (path req) with
      | Health => l = [mkQuery SELECT_1 []]
      | DbTest => l = [mkQuery SELECT_now_version []]
      | GetUsers => l = [mkQuery SELECT_usuarios []]
      | GetUser id => l = [mkQuery (SELECT_usuario 1) [id]]
      | PostUsers =>
          if negb (truthy (field "nombre" b)) || negb (truthy (field "email" b))
             || negb (test emailRegex (text_of (field "email" b)))
          then l = []
          else l = [mkQuery INSERT_usuario
                      [text_of (field "nombre" b); text_of (field "email" b)]]
      | PutUser id =>
          if negb (truthy (field "nombre" b)) && negb (truthy (field "email" b))
          then l = []
          else
            match fst (pool_query (mkQuery (SELECT_usuario 1) [id]) p) with
            | inr found =>
                if rowCount found =? 0
                then l = [mkQuery (SELECT_usuario 1) [id]]
                else l = [mkQuery (SELECT_usuario 1) [id];
                          update_query id (field "nombre" b) (field "email" b)]
            | inl _ => l = [mkQuery (SELECT_usuario 1) [id]]
            end
      | DeleteUser id => l = [mkQuery (DELETE_usuario 1) [id]]
      | GetProducts => l = [mkQuery SELECT_productos []]
      | GetStats =>
          l = [mkQuery COUNT_usuarios []; mkQuery COUNT_productos [];
               mkQuery SELECT_version []]
      | SystemInfo | Info | Data | Echo | NotFound => l = []
      end
  end.
Proof.
  destruct req as [m pa [err|b]]; unfold app; simpl body.
  { exists []. split; [apply issued_nil | reflexivity]. }
  simpl method; simpl path.
  destruct (route_of m pa); simpl handle.
  - eexists; split; [|reflexivity]. unfold health. query_case r p1 E.
    apply issued_pool_query in E as [E _]. destruct r; exact E.
  - eexists; split; [|reflexivity]. unfold db_test. query_case r p1 E.
    apply issued_pool_query in E as [E _]. destruct r; exact E.
  - exists []. split; [apply issued_nil | reflexivity].
  - exists []. split; [apply issued_nil | reflexivity].
  - exists []. split; [apply issued_nil | reflexivity].
  - exists []. split; [apply issued_nil | reflexivity].
  - eexists; split; [|reflexivity]. unfold get_users. query_case r p1 E.
    apply issued_pool_query in E as [E _]. destruct r; exact E.
  - eexists; split; [|reflexivity]. unfold get_user. query_case r p1 E.
    apply issued_pool_query in E as [E _]. destruct r as [e|r]; [exact E|].
    destruct (rowCount r =? 0); exact E.
  - unfold post_users.
    destruct (negb _ || negb _).
    { exists []. split; [apply issued_nil | reflexivity]. }
    destruct (negb (test _ _)).
    { exists []. split; [apply issued_nil | reflexivity]. }
    eexists; split; [|reflexivity]. query_case r p1 E.
    apply issued_pool_query in E as [E _]. destruct r as [e|r]; [|exact E].
    destruct (code e =? "23505")%string; exact E.
  - unfold put_user.
    destruct (negb _ && negb _).
    { exists []. split; [apply issued_nil | reflexivity]. }
    query_case r p1 E. pose proof (issued_pool_query _ _ E) as [E1 _].
    cbn [fst].
    destruct r as [e|r].
    { eexists; split; [|reflexivity].
      destruct (code e =? "23505")%string; exact E1. }
    destruct (rowCount r =? 0).
    { eexists; split; [|reflexivity]. exact E1. }
    eexists; split; [|reflexivity].
    query_case r2 p2 E2. apply issued_pool_query in E2 as [E2 _].
    assert (E' : issued p2 = issued p ++
              [mkQuery (SELECT_usuario 1) [id0];
               update_query id0 (field "nombre" b) (field "email" b)]).
    { rewrite E2, E1, <- app_assoc. reflexivity. }
    destruct r2 as [e|r2]; [|exact E'].
    destruct (code e =? "23505")%string; exact E'.
  - eexists; split; [|reflexivity]. unfold delete_user. query_case r p1 E.
    apply issued_pool_query in E as [E _]. destruct r as [e|r]; [exact E|].
    destruct (rowCount r =? 0); exact E.
  - eexists; split; [|reflexivity]. unfold get_products. query_case r p1 E.
    apply issued_pool_query in E as [E _]. destruct r; exact E.
  - eexists; split; [|reflexivity]. unfold get_stats.
    query_case r1 p1 E1. query_case r2 p2 E2. query_case r3 p3 E3.
    apply issued_pool_query in E1 as [E1 _], E2 as [E2 _], E3 as [E3 _].
    assert (E' : issued p3 = issued p ++
              [mkQuery COUNT_usuarios []; mkQuery COUNT_productos [];
               mkQuery SELECT_version []]).
    { rewrite E3, E2, E1, <- !app_assoc. reflexivity. }
    destruct r1, r2, r3; exact E'.
  - exists []. split; [apply issued_nil | reflexivity].
Qed.

Lemma mentions_In msg j : In msg (strings_of j) -> mentions msg j = true.
Proof.
  intro H. unfold mentions. apply existsb_exists.
  exists msg. split; [exact H | apply String.eqb_refl].
Qed.

Lemma failure_mentions err : mentions (message err) (payload (failure err)) = true.
Proof. apply mentions_In. simpl. auto. Qed.

Lemma code_other err : code err <> "23505" -> (code err =? "23505")%string = false.
Proof. intro H. apply String.eqb_neq. exact H. Qed.

Lemma failed_up q p err d e0 :
  outage p = None -> fst (pool_query q p) = inl err ->
  exec q (server p) = (inl e0, d) -> e0 = err.
Proof.
  intros Hup H E. rewrite pool_query_up in H by assumption.
  rewrite E in H. simpl in H. congruence.
Qed.

Lemma failed_not q p err d (r : result) :
  outage p = None -> fst (pool_query q p) = inl err ->
  exec q (server p) = (inr r, d) -> False.
Proof.
  intros Hup H E. rewrite pool_query_up in H by assumption.
  rewrite E in H. simpl in H. discriminate.
Qed.

Lemma failed_down q p err e0 :
  outage p = Some e0 -> fst (pool_query q p) = inl err -> e0 = err.
Proof.
  intros Hd H. rewrite (pool_query_down _ _ Hd) in H. simpl in H. congruence.
Qed.

Lemma put_user_no_field id b p :
  truthy (field "nombre" b) = false ->
  truthy (field "email" b) = false ->
  fst (put_user id b p) =
    mkResponse 400
      (JObj [ ("success", JBool false);
              ("error",
               JStr "Se requiere al menos un campo para actualizar (nombre o email)") ])
  /\ snd (put_user id b p) = p.
Proof.
  intros Hn He. unfold put_user. rewrite Hn, He. simpl. split; reflexivity.
Qed.

Lemma put_user_cong id b b' p :
  field "nombre" b' = None ->
  truthy (field "nombre" b) = false ->
  field "email" b' = field "email" b ->
  put_user id b p = put_user id b' p.
Proof.
  intros Hn' Hn He. unfold put_user, update_query, push_if.
  rewrite Hn', He, Hn. simpl. reflexivity.
Qed.

Lemma put_user_not_400 id b p :
  truthy (field "email" b) = true ->
  status (fst (put_user id b p)) <> 400.
Proof.
  intro He. unfold put_user. rewrite He, andb_false_r.
  destruct (pool_query (mkQuery (SELECT_usuario 1) [id]) p) as [[err|res] p1].
  - destruct (code err =? "23505")%string; simpl; discriminate.
  - destruct (rowCount res =? 0); [simpl; discriminate|].
    destruct (pool_query _ p1) as [[err|r] p2].
    + destruct (code err =? "23505")%string; simpl; discriminate.
    + simpl; discriminate.
Qed.

(** An update of a row that exists: both queries are sent, the second is
    rejected for its unknown column, and the store is as before. *)
Lemma put_user_existing id b p n :
  outage p = None ->
  truthy (field "nombre" b) || truthy (field "email" b) = true ->
  int4_in id = Some n ->
  existsb (by_id n) (usuarios (server p)) = true ->
  put_user id b p =
    (failure (undefined_column "actualizado_en"),
     mkPool (server p) None
       (issued p ++ [mkQuery (SELECT_usuario 1) [id];
                     update_query id (field "nombre" b) (field "email" b)])).
Proof.
  intros Hup Hf Hid Hex. unfold put_user.
  replace (negb (truthy (field "nombre" b)) && negb (truthy (field "email" b)))
    with false by (rewrite <- negb_orb, Hf; reflexivity).
  rewrite pool_query_up by assumption.
  rewrite exec_select_usuario with (n := n) by assumption. simpl fst; simpl snd. cbv beta iota.
  rewrite rowCount_result_of.
  destruct (filter (by_id n) (usuarios (server p))) as [|u us] eqn:E.
  { apply filter_nil_existsb in E. congruence. }
  simpl map.
  rewrite pool_query_up by reflexivity. rewrite exec_update_query.
  simpl. rewrite <- app_assoc. reflexivity.
Qed.

(** No [PUT /users/:id] is ever answered 200. *)
Lemma put_user_never_200 id b p : status (fst (put_user id b p)) <> 200.
Proof.
  unfold put_user.
  destruct (negb (truthy (field "nombre" b)) && negb (truthy (field "email" b)));
    [simpl; discriminate|].
  unfold pool_query at 1.
  destruct (outage p) as [err|] eqn:Ho.
  - destruct (code err =? "23505")%string; simpl; discriminate.
  - destruct (exec _ (server p)) as [[err|res] d1].
    + destruct (code err =? "23505")%string; simpl; discriminate.
    + destruct (rowCount res =? 0); [simpl; discriminate|].
      rewrite pool_query_up by reflexivity. rewrite exec_update_query.
      simpl. discriminate.
Qed.

(** [POST /users] answers 400 to an email that has not the shape of the
    pattern, and sends nothing to the store. *)
Lemma post_users_malformed_email ev b p e :
  field "email" b = Some e -> ~ email_shape e ->
  status (fst (app ev (POST_users b) p)) = 400
  /\ snd (app ev (POST_users b) p) = p.
Proof.
  intros He Hs. rewrite app_POST_users. unfold post_users. rewrite He.
  destruct (negb (truthy (field "nombre" b)) || negb (truthy (Some e)));
    [split; reflexivity|].
  destruct (test emailRegex (text_of (Some e))) eqn:T.
  - exfalso. apply Hs, emailRegex_spec. exact T.
  - split; reflexivity.
Qed.

Lemma email_stored e :
  test emailRegex e = true -> (String.length e <= 100)%nat ->
  varchar100 e = Some e.
Proof. intros _ H. apply varchar100_short, H. Qed.

Lemma email_stored_inv e e' :
  test emailRegex e = true -> varchar100 e = Some e' ->
  e' = e /\ (String.length e <= 100)%nat.
Proof.
  intros Te H. rewrite (varchar100_email _ Te) in H.
  destruct (String.length e <=? 100)%nat eqn:E; [|discriminate].
  injection H as <-. split; [reflexivity | apply Nat.leb_le, E].
Qed.

Lemma post_users_created ev p b n e n' :
  outage p = None ->
  field "nombre" b = Some n -> field "email" b = Some e ->
  n <> "" -> test emailRegex e = true ->
  has_nul n = false -> has_nul e = false ->
  varchar100 n = Some n' -> (String.length e <= 100)%nat ->
  usuarios_id_seq (server p) <= int4_max ->
  existsb (by_id (usuarios_id_seq (server p))) (usuarios (server p)) = false ->
  existsb (by_email e) (usuarios (server p)) = false ->
  app ev (POST_users b) p =
    (mkResponse 201
       (JObj [ ("success", JBool true);
               ("message", JStr "Usuario creado exitosamente");
               ("user", usuario_row (created n' e (server p))) ]),
     mkPool (set_usuarios (usuarios (server p) ++ [created n' e (server p)])
               (nextval (server p)))
       None (issued p ++ [mkQuery INSERT_usuario [n; e]])).
Proof.
  intros Hup Hn He Nn Te Zn Ze Vn Le Hs Hi Hm.
  rewrite app_POST_users. unfold post_users. rewrite Hn, He.
  assert (Tn : truthy (Some n) = true).
  { simpl. apply negb_true_iff, String.eqb_neq. exact Nn. }
  rewrite Tn, (emailRegex_truthy _ Te). simpl negb. simpl orb. cbv beta iota.
  simpl text_of. rewrite Te. simpl negb. cbv beta iota.
  rewrite pool_query_up by assumption.
  rewrite exec_insert_ok with (n' := n') (e' := e);
    try assumption; [reflexivity | apply email_stored; assumption].
Qed.

Lemma post_users_201_inv ev b p :
  status (fst (app ev (POST_users b) p)) = 201 ->
  exists n e n',
    field "nombre" b = Some n /\ field "email" b = Some e
    /\ n <> "" /\ test emailRegex e = true
    /\ outage p = None
    /\ has_nul n = false /\ has_nul e = false
    /\ varchar100 n = Some n' /\ (String.length e <= 100)%nat
    /\ usuarios_id_seq (server p) <= int4_max
    /\ existsb (by_id (usuarios_id_seq (server p))) (usuarios (server p)) = false
    /\ existsb (by_email e) (usuarios (server p)) = false.
Proof.
  rewrite app_POST_users. unfold post_users.
  destruct (field "nombre" b) as [n|] eqn:Hn; [|simpl; discriminate].
  destruct (field "email" b) as [e|] eqn:He;
    [|rewrite orb_true_r; simpl; discriminate].
  destruct (negb (truthy (Some n)) || negb (truthy (Some e))) eqn:T;
    [simpl; discriminate|].
  apply orb_false_iff in T as [Tn _].
  apply negb_false_iff in Tn. simpl in Tn.
  apply negb_true_iff, String.eqb_neq in Tn.
  simpl text_of.
  destruct (test emailRegex e) eqn:Te; [|simpl; discriminate].
  simpl negb. cbv beta iota.
  unfold pool_query. destruct (outage p) as [err|] eqn:Ho.
  { destruct (code err =? "23505")%string; simpl; discriminate. }
  destruct (exec _ (server p)) as [[err|r] d'] eqn:E.
  { destruct (code err =? "23505")%string; simpl; discriminate. }
  intros _.
  apply exec_insert_inv in E as (n' & e' & Zn & Ze & Vn & Ve & Hs & Hi & Hm).
  destruct (email_stored_inv _ Te Ve) as [-> Le].
  exists n, e, n'. auto 15.
Qed.

(** A path parameter that is no integer: the store rejects the lookup and
    the handler answers 500 with the store's message. *)
Lemma get_user_malformed_id ev :
  int4_in "abc" = None
  /\ fst (app ev (GET_user "abc") seeded) = failure (invalid_integer "abc").
Proof. split; reflexivity. Qed.

(** So does a path parameter that is an integer too large for the column,
    or one that holds the code unit 0. *)
Lemma get_user_unbound_id ev :
  fst (app ev (GET_user "99999999999") seeded)
    = failure (out_of_range "99999999999")
  /\ fst (app ev (GET_user (String "000" "1")) seeded)
       = failure invalid_byte_sequence.
Proof. split; reflexivity. Qed.

(** A failed query, in every mode: when a query sent for a request fails,
    because the store is unreachable or because the store rejects the
    statement, with anything but a uniqueness violation, the handler
    answers 500 and hands over the text of the store's error.  What a
    request sends before a failing query only reads, so the failing query
    meets the store as the request found it. *)
Lemma app_failure_text ev req p q err :
  In q (queries_of ev req p) ->
  fst (pool_query q p) = inl err ->
  code err <> "23505" ->
  status (fst (app ev req p)) = 500
  /\ mentions (message err) (payload (fst (app ev req p))) = true.
Proof.
  intros Hin Hfail Hcode. apply code_other in Hcode.
  destruct (outage p) as [e0|] eqn:Hout.
  - (* the store cannot be reached: whatever was sent failed with [e0] *)
    pose proof (@failed_down _ _ _ _ Hout Hfail) as ->.
    assert (Hsame : snd (app ev req p) <> p).
    { intro H. rewrite (@queries_of_unchanged ev req p H) in Hin. exact Hin. }
    clear Hin Hfail. revert Hsame.
    destruct req as [m pa [jerr|b]]; unfold app; simpl body.
    { intro H. exfalso. apply H. reflexivity. }
    simpl method; simpl path.
    destruct (route_of m pa) as [| | | | | | |i| |i|i| | |]; simpl handle;
      try (intro H; exfalso; apply H; reflexivity).
    + intros _. unfold health. rewrite (pool_query_down _ _ Hout).
      split; [reflexivity | apply mentions_In; simpl; auto 10].
    + intros _. unfold db_test. rewrite (pool_query_down _ _ Hout).
      split; [reflexivity | apply mentions_In; simpl; auto 10].
    + intros _. unfold get_users. rewrite (pool_query_down _ _ Hout).
      split; [reflexivity | apply failure_mentions].
    + intros _. unfold get_user. rewrite (pool_query_down _ _ Hout).
      split; [reflexivity | apply failure_mentions].
    + unfold post_users.
      destruct (negb _ || negb _); [intro H; exfalso; apply H; reflexivity|].
      destruct (negb (test _ _)); [intro H; exfalso; apply H; reflexivity|].
      intros _. rewrite (pool_query_down _ _ Hout). cbv beta iota.
      rewrite Hcode. split; [reflexivity | apply failure_mentions].
    + unfold put_user.
      destruct (negb _ && negb _); [intro H; exfalso; apply H; reflexivity|].
      intros _. rewrite (pool_query_down _ _ Hout). cbv beta iota.
      rewrite Hcode. split; [reflexivity | apply failure_mentions].
    + intros _. unfold delete_user. rewrite (pool_query_down _ _ Hout).
      split; [reflexivity | apply failure_mentions].
    + intros _. unfold get_products. rewrite (pool_query_down _ _ Hout).
      split; [reflexivity | apply failure_mentions].
    + intros _. unfold get_stats. rewrite (pool_query_down _ _ Hout).
      rewrite pool_query_down with (err := err) by reflexivity.
      rewrite pool_query_down with (err := err) by reflexivity.
      split; [reflexivity | apply failure_mentions].
  - (* the store answers: the failure is that of one statement *)
    revert Hin. unfold queries_of.
    destruct req as [m pa [jerr|b]]; unfold app; simpl body.
    { simpl snd. rewrite skipn_length. intros []. }
    simpl method; simpl path.
    destruct (route_of m pa) as [| | | | | | |i| |i|i| | |]; simpl handle;
      try (simpl snd; rewrite skipn_length; intros []).
    + unfold health. rewrite pool_query_up by assumption. cbv beta iota.
      destruct (exec _ (server p)) as [[e1|r1] d1] eqn:Ex; simpl fst; simpl snd;
        cbv beta iota; simpl snd; simpl issued; rewrite skipn_length_app;
        (intros [<-|[]]); [|exfalso; eapply failed_not; eassumption].
      pose proof (@failed_up _ _ _ _ _ Hout Hfail Ex) as ->.
      split; [reflexivity | apply mentions_In; simpl; auto 10].
    + unfold db_test. rewrite pool_query_up by assumption. cbv beta iota.
      destruct (exec _ (server p)) as [[e1|r1] d1] eqn:Ex; simpl fst; simpl snd;
        cbv beta iota; simpl snd; simpl issued; rewrite skipn_length_app;
        (intros [<-|[]]); [|exfalso; eapply failed_not; eassumption].
      pose proof (@failed_up _ _ _ _ _ Hout Hfail Ex) as ->.
      split; [reflexivity | apply mentions_In; simpl; auto 10].
    + unfold get_users. rewrite pool_query_up by assumption. cbv beta iota.
      destruct (exec _ (server p)) as [[e1|r1] d1] eqn:Ex; simpl fst; simpl snd;
        cbv beta iota; simpl snd; simpl issued; rewrite skipn_length_app;
        (intros [<-|[]]); [|exfalso; eapply failed_not; eassumption].
      pose proof (@failed_up _ _ _ _ _ Hout Hfail Ex) as ->.
      split; [reflexivity | apply failure_mentions].
    + unfold get_user. rewrite pool_query_up by assumption. cbv beta iota.
      destruct (exec _ (server p)) as [[e1|r1] d1] eqn:Ex; simpl fst; simpl snd;
        cbv beta iota.
      * simpl snd; simpl issued; rewrite skipn_length_app. intros [<-|[]].
        pose proof (@failed_up _ _ _ _ _ Hout Hfail Ex) as ->.
        split; [reflexivity | apply failure_mentions].
      * destruct (rowCount r1 =? 0); simpl snd; simpl issued;
          rewrite skipn_length_app; intros [<-|[]];
          exfalso; eapply failed_not; eassumption.
    + unfold post_users.
      destruct (negb _ || negb _);
        [simpl snd; rewrite skipn_length; intros []|].
      destruct (negb (test _ _));
        [simpl snd; rewrite skipn_length; intros []|].
      rewrite pool_query_up by assumption. cbv beta iota.
      destruct (exec _ (server p)) as [[e1|r1] d1] eqn:Ex; simpl fst; simpl snd;
        cbv beta iota.
      * destruct (code e1 =? "23505")%string eqn:Ec; simpl snd; simpl issued;
          rewrite skipn_length_app; intros [<-|[]];
          pose proof (@failed_up _ _ _ _ _ Hout Hfail Ex) as ->; [congruence|].
        split; [reflexivity | apply failure_mentions].
      * simpl snd; simpl issued; rewrite skipn_length_app. intros [<-|[]].
        exfalso; eapply failed_not; eassumption.
    + unfold put_user.
      destruct (negb _ && negb _);
        [simpl snd; rewrite skipn_length; intros []|].
      rewrite pool_query_up by assumption. cbv beta iota.
      destruct (exec _ (server p)) as [[e1|r1] d1] eqn:Ex; simpl fst; simpl snd;
        cbv beta iota.
      * destruct (code e1 =? "23505")%string eqn:Ec; simpl snd; simpl issued;
          rewrite skipn_length_app; intros [<-|[]];
          pose proof (@failed_up _ _ _ _ _ Hout Hfail Ex) as ->; [congruence|].
        split; [reflexivity | apply failure_mentions].
      * destruct (rowCount r1 =? 0).
        { simpl snd; simpl issued; rewrite skipn_length_app. intros [<-|[]].
          exfalso; eapply failed_not; eassumption. }
        rewrite pool_query_up by reflexivity. rewrite exec_update_query.
        simpl. rewrite <- app_assoc, skipn_length_app.
        intros [<-|[<-|[]]]; [exfalso; eapply failed_not; eassumption|].
        rewrite pool_query_up in Hfail by assumption.
        rewrite exec_update_query in Hfail. simpl in Hfail.
        injection Hfail as <-.
        split; [reflexivity | apply failure_mentions].
    + unfold delete_user. rewrite pool_query_up by assumption. cbv beta iota.
      destruct (exec _ (server p)) as [[e1|r1] d1] eqn:Ex; simpl fst; simpl snd;
        cbv beta iota.
      * simpl snd; simpl issued; rewrite skipn_length_app. intros [<-|[]].
        pose proof (@failed_up _ _ _ _ _ Hout Hfail Ex) as ->.
        split; [reflexivity | apply failure_mentions].
      * destruct (rowCount r1 =? 0); simpl snd; simpl issued;
          rewrite skipn_length_app; intros [<-|[]];
          exfalso; eapply failed_not; eassumption.
    + unfold get_products. rewrite pool_query_up by assumption. cbv beta iota.
      destruct (exec _ (server p)) as [[e1|r1] d1] eqn:Ex; simpl fst; simpl snd;
        cbv beta iota; simpl snd; simpl issued; rewrite skipn_length_app;
        (intros [<-|[]]); [|exfalso; eapply failed_not; eassumption].
      pose proof (@failed_up _ _ _ _ _ Hout Hfail Ex) as ->.
      split; [reflexivity | apply failure_mentions].
    + intro Hin. exfalso. revert Hin. unfold get_stats.
      rewrite pool_query_up by assumption.
      rewrite pool_query_up by reflexivity.
      rewrite pool_query_up by reflexivity.
      simpl. rewrite <- !app_assoc, skipn_length_app.
      intros [<-|[<-|[<-|[]]]];
        rewrite pool_query_up in Hfail by assumption; discriminate Hfail.
Qed.


(** *** The middleware chain *)

Lemma service_HEAD ev pa b p :
  service ev (mkArrival HEAD pa b) p
    = (mkReply (status (fst (app ev (mkRequest GET pa b) p))) None,
       snd (app ev (mkRequest GET pa b) p)).
Proof.
  unfold service. cbn [arrival_verb arrival_path arrival_body].
  destruct (app ev (mkRequest GET pa b) p); reflexivity.
Qed.

Lemma service_Routed ev m pa b p :
  service ev (mkArrival (Routed m) pa b) p
    = (mkReply (status (fst (app ev (mkRequest m pa b) p)))
         (Some (payload (fst (app ev (mkRequest m pa b) p)))),
       snd (app ev (mkRequest m pa b) p)).
Proof.
  unfold service. cbn [arrival_verb arrival_path arrival_body].
  destruct (app ev (mkRequest m pa b) p); reflexivity.
Qed.

(** The queries of an arriving request are those of the route it reaches. *)
Lemma service_queries_eq ev a p :
  service_queries ev a p =
    match arrival_verb a with
    | HEAD => queries_of ev (mkRequest GET (arrival_path a) (arrival_body a)) p
    | Routed m => queries_of ev (mkRequest m (arrival_path a) (arrival_body a)) p
    | OPTIONS | Other => []
    end.
Proof.
  destruct a as [[| |m|] pa b]; unfold service_queries;
    cbn [arrival_verb arrival_path arrival_body].
  - apply skipn_length.
  - rewrite service_HEAD. reflexivity.
  - rewrite service_Routed. reflexivity.
  - apply skipn_length.
Qed.

(** ** Startup *)

(** The complete variant tries the store once and listens whatever came of it. *)
Lemma startup_listens_after_one_attempt : V3.startup = [Connect; Listen].
Proof. reflexivity. Qed.

Lemma pauses_app t u : pauses (t ++ u) = pauses t ++ pauses u.
Proof.
  induction t as [|ev t IH]; simpl; [reflexivity|].
  destruct ev; simpl; rewrite ?IH; reflexivity.
Qed.

(** Whatever the store does, no more attempts than iterations left. *)
Lemma attempts_bounded connect retries delay :
  forall remaining i,
    (connects (snd (V2.attempts connect retries delay remaining i)) <= remaining)%nat.
Proof.
  induction remaining as [|k IH]; intro i; simpl; [apply Nat.le_refl|].
  destruct (connect i); [unfold connects; simpl; lia|].
  specialize (IH (S i)).
  destruct (V2.attempts connect retries delay k (S i)) as [r t].
  simpl in *. unfold connects in *. simpl.
  rewrite filter_app, length_app.
  destruct (Z.of_nat i <? Z.of_nat retries - 1); simpl; lia.
Qed.

(** A store that stays unreachable: [retries] attempts, a pause after each
    but the last, and [false]. *)
Lemma attempts_exhausted connect retries delay :
  (forall k, connect k = false) ->
  forall remaining i, (i + remaining = retries)%nat ->
    fst (V2.attempts connect retries delay remaining i) = false
    /\ connects (snd (V2.attempts connect retries delay remaining i)) = remaining
    /\ pauses (snd (V2.attempts connect retries delay remaining i))
         = repeat delay (remaining - 1).
Proof.
  intros Hdown. induction remaining as [|k IH]; intros i Hi; simpl.
  { repeat split. }
  rewrite Hdown.
  destruct (IH (S i) ltac:(lia)) as (Hr & Hc & Hp).
  destruct (V2.attempts connect retries delay k (S i)) as [r t].
  simpl in *. subst r. split; [reflexivity|].
  unfold connects in *. simpl. rewrite filter_app, length_app, Hc.
  change (Connect :: (if Z.of_nat i <? Z.of_nat retries - 1 then [Sleep delay] else []) ++ t)
    with ([Connect] ++ (if Z.of_nat i <? Z.of_nat retries - 1 then [Sleep delay] else []) ++ t).
  rewrite !pauses_app, Hp.
  destruct k as [|k].
  - replace (Z.of_nat i <? Z.of_nat retries - 1) with false
      by (symmetry; apply Z.ltb_ge; lia).
    split; reflexivity.
  - replace (Z.of_nat i <? Z.of_nat retries - 1) with true
      by (symmetry; apply Z.ltb_lt; lia).
    simpl. rewrite Nat.sub_0_r. split; reflexivity.
Qed.

(** ** The claims of the specification *)

(** C1 (the code breaks the claim).  [PUT /users/1] with only a valid email,
    on the seeded store where user 1 exists: the claim promises a 200
    with the email changed and an update time refreshed.  The handler
    does build [SET email = $1, actualizado_en = CURRENT_TIMESTAMP], but
    the table has no such column: the store rejects the statement, the
    answer is a 500 carrying the store's message, and the row is as
    before. *)
Theorem C1_put_email_only_is_rejected :
  let b := [("email", "nuevo@example.com")] in
  let r := app production (PUT_user "1" b) seeded in
  test emailRegex "nuevo@example.com" = true
  /\ absent 1 seeded = false
  /\ status (fst r) = 500
  /\ get "error" (payload (fst r))
       = Some (JStr (message (undefined_column "actualizado_en")))
  /\ server (snd r) = server seeded.
Proof. repeat split. Qed.

(** C2, as stated, fails: after a [POST /users] answered 201 for an email, a
    second one with the same email is answered 400 when it has no name
    (the handler checks the body before the store is asked) and 500 when
    its name is longer than the column (the store refuses the value
    before it looks at the keys); 409 in neither case. *)
Theorem C2_counterexample :
  let b1 := [("nombre", "Ana"); ("email", "ana@example.com")] in
  let p1 := snd (app production (POST_users b1) seeded) in
  status (fst (app production (POST_users b1) seeded)) = 201
  /\ status (fst (app production
                    (POST_users [("email", "ana@example.com")]) p1)) = 400
  /\ status (fst (app production
                    (POST_users [("nombre", long_name);
                                 ("email", "ana@example.com")]) p1)) = 500.
Proof. repeat split. Qed.

(** C2, amended.  After a [POST /users] that answered 201 for the email [e],
    exactly one user is registered under [e], and a second [POST /users]
    with the same email leaves the users and the products as they were,
    whatever its name.  It is answered 409 when its name is not empty,
    has no code unit 0, fits the column (at most 100 characters, or
    nothing but spaces after them) and the id sequence has a value left;
    the refused INSERT takes that value.  It is answered 400 when its
    name is missing or empty, and 500 when the store refuses the name or
    the sequence is used up. *)
Theorem C2_second_post_conflicts ev p b1 b2 e :
  field "email" b1 = Some e ->
  field "email" b2 = Some e ->
  status (fst (app ev (POST_users b1) p)) = 201 ->
  let p1 := snd (app ev (POST_users b1) p) in
  let r2 := app ev (POST_users b2) p1 in
  let n2 := text_of (field "nombre" b2) in
  (exists u, registered e (snd r2) = [u] /\ email u = e)
  /\ usuarios (server (snd r2)) = usuarios (server p1)
  /\ productos (server (snd r2)) = productos (server p1)
  /\ (truthy (field "nombre" b2) = true ->
      has_nul n2 = false -> varchar100 n2 <> None ->
      usuarios_id_seq (server p1) <= int4_max ->
      status (fst r2) = 409
      /\ usuarios_id_seq (server (snd r2)) = usuarios_id_seq (server p1) + 1)
  /\ (truthy (field "nombre" b2) = false ->
      status (fst r2) = 400 /\ snd r2 = p1)
  /\ (truthy (field "nombre" b2) = true ->
      has_nul n2 = true \/ varchar100 n2 = None
      \/ int4_max < usuarios_id_seq (server p1) ->
      status (fst r2) = 500 /\ server (snd r2) = server p1).
Proof.
  intros He1 He2 H201.
  destruct (@post_users_201_inv ev b1 p H201)
    as (n & e' & n' & Hn & He' & Nn & Te & Hup & Zn & Ze & Vn & Le & Hs & Hi & Hm).
  rewrite He1 in He'. injection He' as <-.
  rewrite (@post_users_created ev p b1 n e n') by assumption.
  simpl snd. cbv zeta.
  set (d1 := set_usuarios _ _).
  set (p1 := mkPool d1 None _).
  assert (Hdup : existsb (by_email e) (usuarios d1) = true).
  { apply existsb_app_r, by_email_created. }
  assert (Hreg : exists u, registered e p1 = [u] /\ email u = e).
  { exists (created n' e (server p)). split; [|reflexivity].
    unfold registered. simpl. rewrite filter_app.
    assert (F0 : filter (by_email e) (usuarios (server p)) = [])
      by (apply filter_nil_existsb; exact Hm).
    rewrite F0. simpl. rewrite by_email_created. reflexivity. }
  match goal with
  | |- _ /\ ?rest =>
      assert (Main : rest);
        [|split; [|exact Main];
          destruct Main as [U _]; unfold registered; rewrite U; exact Hreg]
  end.
  rewrite app_POST_users. unfold post_users. rewrite He2.
  destruct (truthy (field "nombre" b2)) eqn:Tn2.
  2:{ simpl. split; [reflexivity|]. split; [reflexivity|].
      split; [discriminate|]. split; [split; reflexivity | discriminate]. }
  rewrite (emailRegex_truthy _ Te). simpl negb. simpl orb. cbv beta iota.
  simpl text_of at 1. rewrite Te. simpl negb. cbv beta iota.
  rewrite pool_query_up by reflexivity. simpl text_of.
  change (server p1) with d1.
  set (n2 := text_of (field "nombre" b2)).
  assert (Refused : forall err,
            exec (mkQuery INSERT_usuario [n2; e]) d1 = (inl err, d1) ->
            code err <> "23505" ->
            has_nul n2 = true \/ varchar100 n2 = None
            \/ int4_max < usuarios_id_seq d1 ->
            let r2 :=
              let (r, p2) :=
                (fst (exec (mkQuery INSERT_usuario [n2; e]) d1),
                 mkPool (snd (exec (mkQuery INSERT_usuario [n2; e]) d1)) None
                   (issued p1 ++ [mkQuery INSERT_usuario [n2; e]])) in
              match r with
              | inr result =>
                  (mkResponse 201
                     (JObj ([ ("success", JBool true);
                              ("message", JStr "Usuario creado exitosamente") ]
                            ++ opt "user" (hd_error (rows result)))), p2)
              | inl error =>
                  if (code error =? "23505")%string then
                    (mkResponse 409
                       (JObj [ ("success", JBool false);
                               ("error", JStr ("El email '" ++ e
                                  ++ ("' ya est" ++ String "225" " registrado"))%string) ]), p2)
                  else (failure error, p2)
              end in
            usuarios (server (snd r2)) = usuarios d1
            /\ productos (server (snd r2)) = productos d1
            /\ (true = true -> has_nul n2 = false -> varchar100 n2 <> None ->
                usuarios_id_seq d1 <= int4_max ->
                status (fst r2) = 409
                /\ usuarios_id_seq (server (snd r2)) = usuarios_id_seq d1 + 1)
            /\ (true = false -> status (fst r2) = 400 /\ snd r2 = p1)
            /\ (true = true ->
                has_nul n2 = true \/ varchar100 n2 = None
                \/ int4_max < usuarios_id_seq d1 ->
                status (fst r2) = 500 /\ server (snd r2) = d1)).
  { intros err Ex Hc Hwhy. cbv zeta. rewrite Ex. cbn [fst snd]. cbv beta iota.
    rewrite (code_other _ Hc). cbn [fst snd status server failure].
    split; [reflexivity|]. split; [reflexivity|].
    split; [|split; [discriminate | split; reflexivity]].
    intros _ Z V S. exfalso. destruct Hwhy as [H|[H|H]];
      [congruence | contradiction | lia]. }
  destruct (has_nul n2) eqn:Zn2.
  { destruct (@exec_insert_refused n2 e d1) as (err & Ex & Hc).
    { left. rewrite Zn2. reflexivity. }
    apply (Refused err Ex Hc). left. reflexivity. }
  destruct (varchar100 n2) as [n2'|] eqn:Vn2.
  2:{ destruct (@exec_insert_refused n2 e d1) as (err & Ex & Hc).
      { right. left. exact Vn2. }
      apply (Refused err Ex Hc). right. left. reflexivity. }
  destruct (Z_le_gt_dec (usuarios_id_seq d1) int4_max) as [Hs1|Hs1].
  - clear Refused.
    destruct (@exec_insert_duplicate n2 e n2' e d1 Zn2 Ze Vn2
                (@email_stored e Te Le) Hs1 Hdup) as [c Hc].
    rewrite Hc. cbn [fst snd status server]. cbv beta iota.
    rewrite String.eqb_refl. cbn [fst snd status server].
    split; [reflexivity|]. split; [reflexivity|].
    split; [intros; split; reflexivity|]. split; [discriminate|].
    intros _ [H|[H|H]]; [discriminate | discriminate | exfalso; lia].
  - destruct (@exec_insert_refused n2 e d1) as (err & Ex & Hc).
    { right. right. right. lia. }
    apply (Refused err Ex Hc). right. right. lia.
Qed.

Lemma C2_witness :
  let b := [("nombre", "Ana"); ("email", "ana@example.com")] in
  let p1 := snd (app production (POST_users b) seeded) in
  let r2 := app production (POST_users b) p1 in
  (status (fst r2) = 409
   /\ usuarios (server (snd r2)) = usuarios (server p1)
   /\ exists u, registered "ana@example.com" (snd r2) = [u]
                /\ email u = "ana@example.com")
  /\ status (fst (app production
                    (POST_users [("nombre", ""); ("email", "ana@example.com")])
                    p1)) = 400
  /\ status (fst (app production
                    (POST_users [("nombre", nul_name);
                                 ("email", "ana@example.com")]) p1)) = 500.
Proof.
  destruct (@C2_second_post_conflicts production seeded
              [("nombre", "Ana"); ("email", "ana@example.com")]
              [("nombre", "Ana"); ("email", "ana@example.com")]
              "ana@example.com" eq_refl eq_refl eq_refl)
    as (R & U & _ & C & _).
  destruct (@C2_second_post_conflicts production seeded
              [("nombre", "Ana"); ("email", "ana@example.com")]
              [("nombre", ""); ("email", "ana@example.com")]
              "ana@example.com" eq_refl eq_refl eq_refl)
    as (_ & _ & _ & _ & E & _).
  destruct (@C2_second_post_conflicts production seeded
              [("nombre", "Ana"); ("email", "ana@example.com")]
              [("nombre", nul_name); ("email", "ana@example.com")]
              "ana@example.com" eq_refl eq_refl eq_refl)
    as (_ & _ & _ & _ & _ & N).
  destruct C as [S _]; [reflexivity | reflexivity | discriminate | |].
  - vm_compute. discriminate.
  - split; [split; [exact S | split; [exact U | exact R]]|].
    split.
    + apply E. reflexivity.
    + apply N; [reflexivity | left; reflexivity].
Defined.

(** C3, as stated, fails: in production mode, with the store unreachable,
    [GET /users] answers 500 and the payload carries the text of the
    store's error. *)
Theorem C3_counterexample :
  NODE_ENV production = Some "production"
  /\ outage unreachable = Some refused
  /\ status (fst (app production (GET_ "users") unreachable)) = 500
  /\ mentions (message refused)
       (payload (fst (app production (GET_ "users") unreachable))) = true.
Proof. repeat split. Qed.

(** C3, amended.  In every mode, production included: when a query sent for
    a request fails, because the store is unreachable or because the
    store rejects the statement, with anything but a uniqueness
    violation, the request is answered 500 and the body carries the text
    of the store's error; a HEAD request gets the 500 without a body.
    The terminal error handler, too, reports the message of its error in
    every mode (a fixed text when the message is empty); it adds the
    stack in development mode and in no other, and nothing else of its
    answer depends on the mode. *)
Theorem C3_failure_text_in_every_mode ev :
  (forall a p q err,
     In q (service_queries ev a p) ->
     fst (pool_query q p) = inl err ->
     code err <> "23505" ->
     let r := fst (service ev a p) in
     reply_status r = 500
     /\ match arrival_verb a with
        | HEAD => reply_body r = None
        | _ => exists j, reply_body r = Some j
                         /\ mentions (message err) j = true
        end)
  /\ (forall jerr,
        let h := error_handler ev jerr in
        get "error" (payload h)
          = Some (JStr (if (err_message jerr =? "")%string
                        then "Error interno del servidor"
                        else err_message jerr))
        /\ get "stack" (payload h)
             = (if is_exactly (NODE_ENV ev) "development"
                then Some (JStr (err_stack jerr)) else None)
        /\ forall ev',
             status (error_handler ev' jerr) = status h
             /\ forall k, k <> "stack" ->
                  get k (payload (error_handler ev' jerr)) = get k (payload h)).
Proof.
  split.
  - intros a p q err Hin Hfail Hcode. cbv zeta.
    rewrite service_queries_eq in Hin.
    destruct a as [[| |m|] pa b];
      cbn [arrival_verb arrival_path arrival_body] in *;
      try contradiction.
    + rewrite service_HEAD. cbn [fst reply_status reply_body].
      split; [|reflexivity]. eapply app_failure_text; eassumption.
    + rewrite service_Routed. cbn [fst reply_status reply_body].
      destruct (@app_failure_text ev _ p q err Hin Hfail Hcode) as [S M].
      split; [exact S|]. eexists. split; [reflexivity | exact M].
  - intro jerr. cbv zeta. unfold error_handler. cbn [status payload].
    split; [reflexivity|]. split.
    { destruct (is_exactly (NODE_ENV ev) "development"); reflexivity. }
    intro ev'. split; [reflexivity|]. intros k Hk.
    apply String.eqb_neq in Hk. cbn [get List.app member].
    destruct (k =? "success")%string; [reflexivity|].
    destruct (k =? "error")%string; [reflexivity|].
    destruct (is_exactly (NODE_ENV ev') "development"),
      (is_exactly (NODE_ENV ev) "development"); cbn [opt member];
      rewrite ?Hk; reflexivity.
Qed.

Lemma C3_witness :
  reply_status (fst (service production
                       (mkArrival (Routed GET) ["products"] (inr []))
                       unreachable)) = 500
  /\ exists j,
       reply_body (fst (service production
                          (mkArrival (Routed GET) ["products"] (inr []))
                          unreachable)) = Some j
       /\ mentions (message refused) j = true.
Proof.
  destruct (C3_failure_text_in_every_mode production) as [H _].
  apply (H (mkArrival (Routed GET) ["products"] (inr [])) unreachable
           (mkQuery SELECT_productos []) refused (or_introl eq_refl) eq_refl).
  discriminate.
Defined.

(** C4, as stated, fails: an update of an existing user sends two queries
    and the statistics send three. *)
Theorem C4_counterexample :
  List.length (queries_of production
                 (PUT_user "1" [("email", "nuevo@example.com")]) seeded) = 2%nat
  /\ List.length (queries_of production (GET_ "stats") seeded) = 3%nat.
Proof. split; reflexivity. Qed.

(** C4, amended.  No request makes a handler send the same query twice.
    [GET /stats] sends its three queries.  [PUT /users/:id] sends nothing
    when the body has neither a name nor an email that is not empty;
    otherwise it sends the lookup, and the UPDATE after it exactly when
    the lookup returns a row: on a reachable store, when the id is read
    as the integer of a user.  [POST /users] sends nothing when the name
    or the email is missing or empty or the email does not match the
    pattern, and its INSERT otherwise.  Every other route that talks to
    the store sends exactly one query; the remaining routes, and a
    request whose body could not be parsed, send none. *)
Theorem C4_queries_per_request ev req p :
  let qs := queries_of ev req p in
  NoDup qs
  /\ match body req with
     | inl _ => qs = []
     | inr b =>
         match route_of (method req) (path req) with
         | GetStats =>
             qs = [mkQuery COUNT_usuarios []; mkQuery COUNT_productos [];
                   mkQuery SELECT_version []]
         | PutUser i =>
             let lookup := mkQuery (SELECT_usuario 1) [i] in
             let update := update_query i (field "nombre" b) (field "email" b) in
             (if negb (truthy (field "nombre" b))
                 && negb (truthy (field "email" b))
              then qs = []
              else
                match fst (pool_query lookup p) with
                | inr found =>
                    if rowCount found =? 0 then qs = [lookup]
                    else qs = [lookup; update]
                | inl _ => qs = [lookup]
                end)
             /\ (truthy (field "nombre" b) || truthy (field "email" b) = true ->
                 outage p = None ->
                 forall n, int4_in i = Some n ->
                   qs = if existsb (by_id n) (usuarios (server p))
                        then [lookup; update] else [lookup])
         | PostUsers =>
             if negb (truthy (field "nombre" b))
                || negb (truthy (field "email" b))
                || negb (test emailRegex (text_of (field "email" b)))
             then qs = []
             else qs = [mkQuery INSERT_usuario
                          [text_of (field "nombre" b);
                           text_of (field "email" b)]]
         | Health => qs = [mkQuery SELECT_1 []]
         | DbTest => qs = [mkQuery SELECT_now_version []]
         | GetUsers => qs = [mkQuery SELECT_usuarios []]
         | GetUser i => qs = [mkQuery (SELECT_usuario 1) [i]]
         | DeleteUser i => qs = [mkQuery (DELETE_usuario 1) [i]]
         | GetProducts => qs = [mkQuery SELECT_productos []]
         | SystemInfo | Info | Data | Echo | NotFound => qs = []
         end
     end.
Proof.
  destruct (issued_app ev req p) as (l & Hl & Hshape).
  cbv zeta. rewrite (@queries_of_eq ev req p l Hl). clear Hl.
  assert (N1 : forall q : query, NoDup [q]).
  { intro q. constructor; [intros [] | constructor]. }
  destruct (body req) as [err|b]; [subst l; split; [constructor | reflexivity]|].
  destruct (route_of (method req) (path req)) as [| | | | | | |i| |i|i| | |];
    try (subst l; split; [first [apply N1 | apply NoDup_nil] | reflexivity]).
  - split; [|exact Hshape].
    destruct (_ || _ || _); subst l; [constructor | apply N1].
  - assert (N2 : NoDup [mkQuery (SELECT_usuario 1) [i];
                        update_query i (field "nombre" b) (field "email" b)]).
    { constructor; [|apply N1].
      intros [H|[]]. unfold update_query in H. discriminate H. }
    split; [|split; [exact Hshape|]].
    + destruct (negb _ && negb _); [subst l; constructor|].
      destruct (fst (pool_query _ p)) as [e|found]; [subst l; apply N1|].
      destruct (rowCount found =? 0); subst l; [apply N1 | exact N2].
    + intros Hf Hup n Hi. rewrite <- negb_orb, Hf in Hshape.
      simpl negb in Hshape. cbv beta iota in Hshape.
      rewrite pool_query_up in Hshape by assumption.
      rewrite exec_select_usuario with (n := n) in Hshape by assumption.
      cbn [fst] in Hshape. rewrite rowCount_result_of in Hshape.
      destruct (existsb (by_id n) (usuarios (server p))) eqn:Ex.
      * destruct (filter (by_id n) (usuarios (server p))) eqn:Ef;
          [apply filter_nil_existsb in Ef; congruence | exact Hshape].
      * apply filter_nil_existsb in Ex. rewrite Ex in Hshape. exact Hshape.
  - subst l. split; [|reflexivity].
    repeat constructor; simpl; intuition discriminate.
Qed.

Lemma C4_witness :
  queries_of production (PUT_user "1" [("email", "nuevo@example.com")]) seeded
    = [ mkQuery (SELECT_usuario 1) ["1"];
        update_query "1" None (Some "nuevo@example.com") ]
  /\ queries_of production (PUT_user "999" [("email", "nuevo@example.com")])
       seeded
     = [ mkQuery (SELECT_usuario 1) ["999"] ].
Proof.
  destruct (C4_queries_per_request production
              (PUT_user "1" [("email", "nuevo@example.com")]) seeded)
    as (_ & _ & H1).
  destruct (C4_queries_per_request production
              (PUT_user "999" [("email", "nuevo@example.com")]) seeded)
    as (_ & _ & H2).
  split.
  - exact (H1 eq_refl eq_refl 1 eq_refl).
  - exact (H2 eq_refl eq_refl 999 eq_refl).
Defined.

(** C5 (the code breaks the claim).  [POST /users] does answer 400 to a
    malformed email ([post_users_malformed_email]); [PUT /users/:id] never
    looks at the shape of the email.  With the email [not-an-email]: for
    the existing user 1 the UPDATE carrying it is sent to the store and
    the answer is 500; for an id without user the answer is 404; 400 in
    neither case. *)
Theorem C5_put_takes_malformed_email :
  let b := [("email", "not-an-email")] in
  test emailRegex "not-an-email" = false
  /\ status (fst (app production (PUT_user "1" b) seeded)) = 500
  /\ queries_of production (PUT_user "1" b) seeded
       = [ mkQuery (SELECT_usuario 1) ["1"];
           mkQuery (UPDATE_usuario
                      [("email", Param 1); ("actualizado_en", CURRENT_TIMESTAMP)] 2)
             ["not-an-email"; "1"] ]
  /\ status (fst (app production (PUT_user "999" b) seeded)) = 404
  /\ status (fst (app production (POST_users (("nombre", "Ana") :: b)) seeded)) = 400.
Proof. repeat split. Qed.



(** C7, as stated, fails: [PUT /users/999] without name or email, no user
    999 in the store, is answered 400 and not 404 (the presence check
    comes before the lookup). *)
Theorem C7_counterexample :
  outage seeded = None
  /\ int4_in "999" = Some 999
  /\ absent 999 seeded = true
  /\ status (fst (app production (PUT_user "999" []) seeded)) = 400.
Proof. repeat split. Qed.

(** C7, amended.  With the store reachable and a path parameter it reads as
    the integer [n]: when no user has the id [n], [GET] and [DELETE]
    answer 404, and [PUT] answers 404 if the body has a non-empty name or
    email and 400 if it has neither; when a user [u] has it, [DELETE]
    answers 200 with [u] as the deleted record and a second [DELETE]
    answers 404. *)
Theorem C7_lookup_miss_is_404 ev p i n :
  outage p = None ->
  int4_in i = Some n ->
  (absent n p = true ->
     status (fst (app ev (GET_user i) p)) = 404
     /\ status (fst (app ev (DELETE_user i) p)) = 404
     /\ forall b,
          status (fst (app ev (PUT_user i b) p))
            = if truthy (field "nombre" b) || truthy (field "email" b)
              then 404 else 400)
  /\ (forall u, find (by_id n) (usuarios (server p)) = Some u ->
        fst (app ev (DELETE_user i) p)
          = mkResponse 200
              (JObj [ ("success", JBool true);
                      ("message", JStr "Usuario eliminado exitosamente");
                      ("deleted_user", usuario_row u) ])
        /\ status (fst (app ev (DELETE_user i) (snd (app ev (DELETE_user i) p))))
             = 404).
Proof.
  intros Hup Hid. split.
  - intro Habs. pose proof (absent_filter _ _ Habs) as Hf.
    rewrite app_GET_user, app_DELETE_user. repeat split.
    + unfold get_user. rewrite pool_query_up by assumption.
      rewrite exec_select_usuario with (n := n) by assumption.
      simpl fst. cbv beta iota. rewrite Hf. reflexivity.
    + unfold delete_user. rewrite pool_query_up by assumption.
      rewrite exec_delete_usuario with (n := n) by assumption.
      simpl fst. cbv beta iota. rewrite Hf. reflexivity.
    + intro b. rewrite app_PUT_user. unfold put_user.
      rewrite <- negb_orb.
      destruct (truthy (field "nombre" b) || truthy (field "email" b));
        [|reflexivity].
      simpl negb. cbv beta iota.
      rewrite pool_query_up by assumption.
      rewrite exec_select_usuario with (n := n) by assumption.
      simpl fst. cbv beta iota. rewrite Hf. reflexivity.
  - intros u Hfind. apply find_filter in Hfind as [rest Hf].
    rewrite !app_DELETE_user.
    assert (E : delete_user i p =
      (mkResponse 200
         (JObj [ ("success", JBool true);
                 ("message", JStr "Usuario eliminado exitosamente");
                 ("deleted_user", usuario_row u) ]),
       mkPool (set_usuarios (filter (fun v => negb (by_id n v))
                               (usuarios (server p))) (server p))
         None (issued p ++ [mkQuery (DELETE_usuario 1) [i]]))).
    { unfold delete_user. rewrite pool_query_up by assumption.
      rewrite exec_delete_usuario with (n := n) by assumption.
      simpl fst; simpl snd. cbv beta iota. rewrite Hf.
      rewrite rowCount_result_of. reflexivity. }
    rewrite E. split; [reflexivity|]. simpl snd.
    unfold delete_user. rewrite pool_query_up by reflexivity.
    rewrite exec_delete_usuario with (n := n) by assumption.
    simpl fst. cbv beta iota. simpl usuarios.
    rewrite filter_negb_gone. reflexivity.
Qed.

Lemma C7_witness :
  status (fst (app production (GET_user "999") seeded)) = 404
  /\ status (fst (app production (DELETE_user "2")
                    (snd (app production (DELETE_user "2") seeded)))) = 404.
Proof.
  destruct (@C7_lookup_miss_is_404 production seeded "999" 999 eq_refl eq_refl)
    as [H _].
  destruct (H eq_refl) as [G _].
  destruct (@C7_lookup_miss_is_404 production seeded "2" 2 eq_refl eq_refl)
    as [_ H2].
  destruct (H2 _ eq_refl) as [_ D].
  split; [exact G | exact D].
Defined.

(** C8, as stated, fails: a name and an email that pass the handler's checks
    are answered 409 when the email is registered already, and 500 when
    the name is longer than the column. *)
Theorem C8_counterexample :
  test emailRegex "juan@example.com" = true
  /\ status (fst (app production
                    (POST_users [("nombre", "Ana");
                                 ("email", "juan@example.com")]) seeded)) = 409
  /\ test emailRegex "ana@example.com" = true
  /\ long_name <> ""
  /\ status (fst (app production
                    (POST_users [("nombre", long_name);
                                 ("email", "ana@example.com")]) seeded)) = 500.
Proof. repeat split. discriminate. Qed.

(** C8, amended.  A name and an email that pass the handler's checks, have
    no code unit 0 and at most 100 characters each, the email not yet
    registered, the store reachable, its keys sound and its id sequence
    with a value left: [POST /users] answers 201 with a user carrying
    that name and email, the next value of the sequence as id and the
    store's current time; a [GET /users/:id] for that id in decimal,
    right after, answers 200 with the same user. *)
Theorem C8_create_then_read ev p b n e :
  outage p = None ->
  consistent (server p) ->
  1 <= usuarios_id_seq (server p) <= int4_max ->
  field "nombre" b = Some n -> field "email" b = Some e ->
  n <> "" -> test emailRegex e = true ->
  has_nul n = false -> has_nul e = false ->
  (String.length n <= 100)%nat -> (String.length e <= 100)%nat ->
  registered e p = [] ->
  let user :=
    JObj [ ("id", JNum (usuarios_id_seq (server p))); ("nombre", JStr n);
           ("email", JStr e); ("creado_en", JDate (now (server p))) ] in
  let r1 := app ev (POST_users b) p in
  fst r1 = mkResponse 201
             (JObj [ ("success", JBool true);
                     ("message", JStr "Usuario creado exitosamente");
                     ("user", user) ])
  /\ fst (app ev (GET_user (show (usuarios_id_seq (server p)))) (snd r1))
       = mkResponse 200 (JObj [ ("success", JBool true); ("user", user) ]).
Proof.
  intros Hup [Hlt _] Hseq Hn He Nn Te Zn Ze Ln Le Hreg. cbv zeta.
  pose proof (existsb_by_id_below _ Hlt) as Hi.
  assert (Hm : existsb (by_email e) (usuarios (server p)) = false)
    by (apply filter_nil_existsb; exact Hreg).
  rewrite (@post_users_created ev p b n e n)
    by first [assumption | apply varchar100_short; assumption | lia].
  split; [reflexivity|]. cbn [fst snd].
  rewrite app_GET_user. unfold get_user.
  rewrite pool_query_up by reflexivity.
  rewrite exec_select_usuario with (n := usuarios_id_seq (server p))
    by (apply int4_in_show; unfold int4_min; lia).
  simpl fst. cbv beta iota. simpl usuarios.
  rewrite filter_app.
  assert (F0 : filter (by_id (usuarios_id_seq (server p))) (usuarios (server p)) = [])
    by (apply filter_nil_existsb; exact Hi).
  rewrite F0. simpl filter.
  replace (by_id (usuarios_id_seq (server p)) (created n e (server p)))
    with true by (symmetry; apply Z.eqb_refl).
  reflexivity.
Qed.

Lemma C8_witness :
  let user :=
    JObj [ ("id", JNum 3); ("nombre", JStr "Ana");
           ("email", JStr "ana@example.com");
           ("creado_en", JDate (now (server seeded))) ] in
  let r1 := app production
              (POST_users [("nombre", "Ana"); ("email", "ana@example.com")])
              seeded in
  fst r1 = mkResponse 201
             (JObj [ ("success", JBool true);
                     ("message", JStr "Usuario creado exitosamente");
                     ("user", user) ])
  /\ fst (app production (GET_user "3") (snd r1))
       = mkResponse 200 (JObj [ ("success", JBool true); ("user", user) ]).
Proof.
  apply (@C8_create_then_read production seeded
           [("nombre", "Ana"); ("email", "ana@example.com")]
           "Ana" "ana@example.com" eq_refl
           (init_sql_consistent _ _)).
  - vm_compute. split; discriminate.
  - reflexivity.
  - reflexivity.
  - discriminate.
  - reflexivity.
  - reflexivity.
  - reflexivity.
  - simpl. lia.
  - simpl. lia.
  - reflexivity.
Defined.

(** C9.  [checkDatabaseConnection] never makes more than five attempts.
    When the store stays unreachable it makes exactly five, pauses 2000 ms
    after each but the last, and reports [false]; [startServer] then goes
    on to [app.listen] and does not exit; and the health route of the
    listening service answers 500 with status [unhealthy] and the
    database [disconnected]. *)
Theorem C9_startup_retries_then_serves connect :
  (connects (snd (V2.checkDatabaseConnection connect)) <= 5)%nat
  /\ ((forall k, connect k = false) ->
        V2.checkDatabaseConnection connect
          = (false, [Connect; Sleep 2000; Connect; Sleep 2000; Connect;
                     Sleep 2000; Connect; Sleep 2000; Connect])
        /\ V2.startServer connect false
             = [Connect; Sleep 2000; Connect; Sleep 2000; Connect;
                Sleep 2000; Connect; Sleep 2000; Connect; Listen]
        /\ forall ev p err, outage p = Some err ->
             status (fst (V2.health ev p)) = 500
             /\ get "status" (payload (fst (V2.health ev p)))
                  = Some (JStr "unhealthy")
             /\ get "database" (payload (fst (V2.health ev p)))
                  = Some (JObj [ ("status", JStr "disconnected");
                                 ("error", JStr (message err)) ])).
Proof.
  split.
  - apply attempts_bounded.
  - intro Hdown.
    assert (E : V2.checkDatabaseConnection connect
          = (false, [Connect; Sleep 2000; Connect; Sleep 2000; Connect;
                     Sleep 2000; Connect; Sleep 2000; Connect])).
    { unfold V2.checkDatabaseConnection, V2.checkDatabaseConnection_with.
      simpl. rewrite !Hdown. reflexivity. }
    split; [exact E|]. split.
    + unfold V2.startServer. rewrite E. reflexivity.
    + intros ev p err Hout. unfold V2.health.
      rewrite (pool_query_down _ _ Hout). repeat split.
Qed.

Lemma C9_witness :
  V2.startServer (fun _ => false) false
    = [Connect; Sleep 2000; Connect; Sleep 2000; Connect;
       Sleep 2000; Connect; Sleep 2000; Connect; Listen].
Proof.
  destruct (C9_startup_retries_then_serves (fun _ => false)) as [_ H].
  destruct (H (fun _ => eq_refl)) as (_ & L & _).
  exact L.
Defined.

(** C10.  [PUT /users/:id] takes a field for present when it is truthy.  With
    an empty name: if the email is empty too the request is answered 400,
    exactly as a body without fields, and the store is not touched; if
    the email is valid the request is handled exactly as if the name had
    not been sent: the SET list assigns the email only, and the answer is
    not a 400. *)
Theorem C10_put_presence_is_truthiness ev i b p :
  field "nombre" b = Some "" ->
  (field "email" b = Some "" ->
     app ev (PUT_user i b) p = app ev (PUT_user i []) p
     /\ status (fst (app ev (PUT_user i b) p)) = 400
     /\ snd (app ev (PUT_user i b) p) = p)
  /\ (forall e, field "email" b = Some e -> test emailRegex e = true ->
        app ev (PUT_user i b) p = app ev (PUT_user i [("email", e)]) p
        /\ update_query i (field "nombre" b) (field "email" b)
             = mkQuery
                 (UPDATE_usuario
                    [("email", Param 1); ("actualizado_en", CURRENT_TIMESTAMP)] 2)
                 [e; i]
        /\ status (fst (app ev (PUT_user i b) p)) <> 400).
Proof.
  intro Hn. rewrite !app_PUT_user. split.
  - intro He.
    assert (Tn : truthy (field "nombre" b) = false) by (rewrite Hn; reflexivity).
    assert (Te : truthy (field "email" b) = false) by (rewrite He; reflexivity).
    destruct (put_user_no_field i b p Tn Te) as [R S].
    destruct (put_user_no_field i [] p eq_refl eq_refl) as [R' S'].
    repeat split.
    + rewrite (surjective_pairing (put_user i b p)),
        (surjective_pairing (put_user i [] p)), R, S, R', S'. reflexivity.
    + rewrite R. reflexivity.
    + exact S.
  - intros e He Hv. rewrite !app_PUT_user.
    pose proof (emailRegex_truthy _ Hv) as Te.
    repeat split.
    + apply put_user_cong; [reflexivity | rewrite Hn; reflexivity |].
      simpl. symmetry. exact He.
    + unfold update_query, push_if. rewrite Hn, He, Te. reflexivity.
    + apply put_user_not_400. rewrite He. exact Te.
Qed.

Lemma C10_witness :
  field "nombre" [("nombre", ""); ("email", "ana@example.com")] = Some ""
  /\ update_query "1" (Some "") (Some "ana@example.com")
       = mkQuery
           (UPDATE_usuario
              [("email", Param 1); ("actualizado_en", CURRENT_TIMESTAMP)] 2)
           ["ana@example.com"; "1"].
Proof.
  split; [reflexivity|].
  destruct (C10_put_presence_is_truthiness production "1"
              [("nombre", ""); ("email", "ana@example.com")] seeded eq_refl)
    as [_ H].
  destruct (H "ana@example.com" eq_refl eq_refl) as (_ & Q & _).
  exact Q.
Defined.

(** * Further properties of the code *)

(** ** Shared lemmas *)

(** The store behind the pool after one query. *)
Lemma pool_query_server q p :
  server (snd (pool_query q p))
    = match outage p with
      | Some _ => server p
      | None => snd (exec q (server p))
      end.
Proof.
  unfold pool_query. destruct (outage p); [reflexivity|].
  destruct (exec q (server p)); reflexivity.
Qed.

Lemma exec_update_query_snd i n e d : snd (exec (update_query i n e) d) = d.
Proof. rewrite exec_update_query. reflexivity. Qed.

Lemma pool_query_read q p :
  snd (exec q (server p)) = server p ->
  server (snd (pool_query q p)) = server p.
Proof. intro H. rewrite pool_query_server. destruct (outage p); auto. Qed.

Lemma exec_select_usuario_snd i d :
  snd (exec (mkQuery (SELECT_usuario 1) [i]) d) = d.
Proof.
  unfold exec; cbn [text values]. destruct (existsb has_nul [i]); [reflexivity|].
  destruct (where_id_value 1 [i]); reflexivity.
Qed.

Ltac step_query r p1 E :=
  match goal with
  | |- context [pool_query ?q ?p] =>
      let H := fresh "Hs" in
      pose proof (pool_query_server q p) as H;
      destruct (pool_query q p) as [r p1] eqn:E; simpl snd in H
  end.

(** Whatever every statement preserves, every request preserves. *)
Lemma app_preserves (P : database -> Prop) :
  (forall q d, P d -> P (snd (exec q d))) ->
  forall ev req p, P (server p) -> P (server (snd (app ev req p))).
Proof.
  intros Hexec ev req p H.
  assert (Hq : forall q p0 r p1,
             pool_query q p0 = (r, p1) -> P (server p0) -> P (server p1)).
  { intros q p0 r p1 E H0.
    pose proof (pool_query_server q p0) as S. rewrite E in S. simpl in S.
    rewrite S. destruct (outage p0); [exact H0 | apply Hexec, H0]. }
  destruct req as [m pa [jerr|b]]; unfold app; simpl body; [exact H|].
  simpl method; simpl path.
  destruct (route_of m pa) as [| | | | | | |i| |i|i| | |]; simpl handle;
    try exact H.
  - unfold health. query_case r p1 E. apply Hq in E; [|exact H].
    destruct r; exact E.
  - unfold db_test. query_case r p1 E. apply Hq in E; [|exact H].
    destruct r; exact E.
  - unfold get_users. query_case r p1 E. apply Hq in E; [|exact H].
    destruct r; exact E.
  - unfold get_user. query_case r p1 E. apply Hq in E; [|exact H].
    destruct r as [e|r]; [exact E|]. destruct (rowCount r =? 0); exact E.
  - unfold post_users.
    destruct (negb _ || negb _); [exact H|].
    destruct (negb (test _ _)); [exact H|].
    query_case r p1 E. apply Hq in E; [|exact H].
    destruct r as [e|r]; [|exact E].
    destruct (code e =? "23505")%string; exact E.
  - unfold put_user.
    destruct (negb _ && negb _); [exact H|].
    query_case r p1 E. apply Hq in E; [|exact H].
    destruct r as [e|r].
    { destruct (code e =? "23505")%string; exact E. }
    destruct (rowCount r =? 0); [exact E|].
    query_case r2 p2 E2. apply Hq in E2; [|exact E].
    destruct r2 as [e|r2]; [|exact E2].
    destruct (code e =? "23505")%string; exact E2.
  - unfold delete_user. query_case r p1 E. apply Hq in E; [|exact H].
    destruct r as [e|r]; [exact E|]. destruct (rowCount r =? 0); exact E.
  - unfold get_products. query_case r p1 E. apply Hq in E; [|exact H].
    destruct r; exact E.
  - unfold get_stats. query_case r1 p1 E1. query_case r2 p2 E2.
    query_case r3 p3 E3.
    apply Hq in E1; [|exact H]. apply Hq in E2; [|exact E1].
    apply Hq in E3; [|exact E2].
    destruct r1, r2, r3; exact E3.
Qed.

(** And so does every sequence of requests. *)
Lemma serve_preserves (P : database -> Prop) :
  (forall q d, P d -> P (snd (exec q d))) ->
  forall ev reqs p, P (server p) -> P (server (serve ev reqs p)).
Proof.
  intros Hexec ev reqs. induction reqs as [|req rest IH]; intros p H; simpl.
  - exact H.
  - apply IH, app_preserves; assumption.
Qed.

(** No statement touches the products, the clock or the version. *)
Lemma exec_fixed q d :
  productos (snd (exec q d)) = productos d
  /\ now (snd (exec q d)) = now d
  /\ version (snd (exec q d)) = version d.
Proof.
  destruct q as [t vs]. unfold exec. cbn [text values].
  destruct t; try (repeat split; fail).
  - destruct (existsb has_nul vs); [repeat split|].
    destruct (where_id_value where_id vs); repeat split.
  - destruct (param 1 vs) as [n|]; [|repeat split].
    destruct (param 2 vs) as [e|]; [|repeat split].
    destruct (existsb has_nul vs); [repeat split|].
    destruct (varchar100 n); [|repeat split].
    destruct (varchar100 e); [|repeat split].
    destruct (int4_max <? usuarios_id_seq d); [repeat split|]. cbv zeta.
    destruct (existsb (by_id _) _); [repeat split|].
    destruct (existsb (by_email _) _); repeat split.
  - destruct (missing_column set); [repeat split|].
    destruct (existsb has_nul vs); [repeat split|].
    destruct (where_id_value where_id vs); [repeat split|].
    destruct (assign_all _ _); [repeat split|].
    destruct (find _ _); [|repeat split]. cbv zeta.
    destruct (existsb _ _); repeat split.
  - destruct (existsb has_nul vs); [repeat split|].
    destruct (where_id_value where_id vs); repeat split.
Qed.

(** A statement never lowers the sequence, and the only id it can add is the value of the sequence. *)
Lemma exec_ids q d :
  usuarios_id_seq d <= usuarios_id_seq (snd (exec q d))
  /\ forall u, In u (usuarios (snd (exec q d))) ->
       In (id u) (map id (usuarios d)) \/ id u = usuarios_id_seq d.
Proof.
  assert (Hsame : usuarios_id_seq d <= usuarios_id_seq d
                  /\ forall u, In u (usuarios d) ->
                       In (id u) (map id (usuarios d)) \/ id u = usuarios_id_seq d).
  { split; [lia|]. intros u Hu. left. apply in_map, Hu. }
  assert (Hnext : usuarios_id_seq d <= usuarios_id_seq (nextval d)
                  /\ forall u, In u (usuarios (nextval d)) ->
                       In (id u) (map id (usuarios d)) \/ id u = usuarios_id_seq d).
  { split; [simpl; lia|]. intros u Hu. left. apply in_map, Hu. }
  destruct q as [t vs]. unfold exec. cbn [text values].
  destruct t; try exact Hsame.
  - destruct (existsb has_nul vs); [exact Hsame|].
    destruct (where_id_value where_id vs); exact Hsame.
  - destruct (param 1 vs) as [n|]; [|exact Hsame].
    destruct (param 2 vs) as [e|]; [|exact Hsame].
    destruct (existsb has_nul vs); [exact Hsame|].
    destruct (varchar100 n); [|exact Hsame].
    destruct (varchar100 e); [|exact Hsame].
    destruct (int4_max <? usuarios_id_seq d); [exact Hsame|]. cbv zeta.
    destruct (existsb (by_id _) _); [exact Hnext|].
    destruct (existsb (by_email _) _); [exact Hnext|].
    split; [simpl; lia|]. simpl. intros u Hu.
    apply in_app_iff in Hu as [Hu|[<-|[]]]; [left; apply in_map, Hu|].
    right. reflexivity.
  - destruct (missing_column set); [exact Hsame|].
    destruct (existsb has_nul vs); [exact Hsame|].
    destruct (where_id_value where_id vs) as [e|i]; [exact Hsame|].
    destruct (assign_all _ _) as [e|change] eqn:Ea; [exact Hsame|].
    destruct (find _ _) as [u0|] eqn:Ef; [|exact Hsame]. cbv zeta.
    destruct (existsb _ _); [exact Hsame|].
    split; [simpl; lia|]. simpl. intros u Hu. left.
    apply in_map_iff in Hu as (v & Hv & Hin).
    destruct (by_id i v) eqn:Ev.
    + subst u. rewrite (assign_all_id _ _ Ea).
      apply find_In in Ef as [Hin0 _]. apply in_map, Hin0.
    + subst u. apply in_map, Hin.
  - destruct (existsb has_nul vs); [exact Hsame|].
    destruct (where_id_value where_id vs) as [e|i]; [exact Hsame|].
    split; [simpl; lia|]. simpl. intros u Hu. left.
    apply filter_In in Hu as [Hu _]. apply in_map, Hu.
Qed.

(** No request touches the products. *)
Lemma app_productos ev req p :
  productos (server (snd (app ev req p))) = productos (server p).
Proof.
  apply (@app_preserves (fun d => productos d = productos (server p)));
    [|reflexivity].
  intros q d H. rewrite <- H. apply exec_fixed.
Qed.

Ltac fixed_texts :=
  repeat (apply Forall_cons; [simpl; tauto|]); apply Forall_nil.

(** No GET is routed to a handler that writes. *)
Lemma route_of_GET pa :
  match route_of GET pa with
  | Echo | PostUsers | PutUser _ | DeleteUser _ => False
  | _ => True
  end.
Proof.
  destruct pa as [|s [|i [|x rest]]]; simpl; try exact I.
  - repeat match goal with |- context [if ?c then _ else _] => destruct c end;
      exact I.
  - destruct (seg "users" s); exact I.
Qed.

(** The update handler leaves the store as it was. *)
Lemma put_user_server i b p : server (snd (put_user i b p)) = server p.
Proof.
  unfold put_user.
  destruct (negb _ && negb _); [reflexivity|].
  step_query r p1 E.
  assert (S1 : server p1 = server p).
  { rewrite Hs. destruct (outage p); [reflexivity|].
    apply exec_select_usuario_snd. }
  destruct r as [err|res].
  { destruct (code err =? "23505")%string; exact S1. }
  destruct (rowCount res =? 0); [exact S1|].
  step_query r2 p2 E2.
  assert (S2 : server p2 = server p).
  { rewrite Hs0. destruct (outage p1); [exact S1|].
    rewrite exec_update_query_snd. exact S1. }
  destruct r2 as [err|res2]; [|exact S2].
  destruct (code err =? "23505")%string; exact S2.
Qed.

(** The handlers that only read leave the store as it was. *)
Lemma read_route_server ev b p r :
  match r with
  | PostUsers | PutUser _ | DeleteUser _ => False
  | _ => True
  end ->
  server (snd (handle r ev b p)) = server p.
Proof.
  destruct r as [| | | | | | |i| |i|i| | |]; simpl handle; intro H;
    try contradiction; try reflexivity.
  - unfold health. step_query r p1 E.
    assert (S1 : server p1 = server p)
      by (rewrite Hs; destruct (outage p); reflexivity).
    destruct r; exact S1.
  - unfold db_test. step_query r p1 E.
    assert (S1 : server p1 = server p)
      by (rewrite Hs; destruct (outage p); reflexivity).
    destruct r; exact S1.
  - unfold get_users. step_query r p1 E.
    assert (S1 : server p1 = server p)
      by (rewrite Hs; destruct (outage p); reflexivity).
    destruct r; exact S1.
  - unfold get_user. step_query r p1 E.
    assert (S1 : server p1 = server p).
    { rewrite Hs. destruct (outage p); [reflexivity|].
      apply exec_select_usuario_snd. }
    destruct r as [e|r]; [exact S1|]. destruct (rowCount r =? 0); exact S1.
  - unfold get_products. step_query r p1 E.
    assert (S1 : server p1 = server p)
      by (rewrite Hs; destruct (outage p); reflexivity).
    destruct r; exact S1.
  - unfold get_stats. step_query r1 p1 E1. step_query r2 p2 E2.
    step_query r3 p3 E3.
    assert (S1 : server p1 = server p)
      by (rewrite Hs; destruct (outage p); reflexivity).
    assert (S2 : server p2 = server p)
      by (rewrite Hs0; destruct (outage p1); [exact S1 | exact S1]).
    assert (S3 : server p3 = server p)
      by (rewrite Hs1; destruct (outage p2); [exact S2 | exact S2]).
    destruct r1, r2, r3; exact S3.
Qed.

Lemma filter_none {A} (f : A -> bool) l :
  filter f l = [] -> filter (fun v => negb (f v)) l = l.
Proof.
  induction l as [|a l IH]; simpl; [reflexivity|].
  destruct (f a); [discriminate|]. simpl. intro H. rewrite IH by assumption.
  reflexivity.
Qed.

Lemma map_nil_inv {A B} (g : A -> B) l : map g l = [] -> l = [].
Proof. destruct l; [reflexivity | discriminate]. Qed.

(** The users table after a creation request: answered 201, the request has
    appended one row, with the name as the column stores it, the email,
    the value of the sequence and the store's time, and has moved the
    sequence on; answered anything else, it has added nothing. *)
Lemma post_users_effect b p :
  (status (fst (post_users b p)) = 201 ->
     exists n',
       varchar100 (text_of (field "nombre" b)) = Some n'
       /\ usuarios (server (snd (post_users b p)))
            = usuarios (server p)
                ++ [created n' (text_of (field "email" b)) (server p)]
       /\ usuarios_id_seq (server (snd (post_users b p)))
            = usuarios_id_seq (server p) + 1)
  /\ (status (fst (post_users b p)) <> 201 ->
        usuarios (server (snd (post_users b p))) = usuarios (server p)).
Proof.
  unfold post_users.
  destruct (negb _ || negb _);
    [simpl; split; [discriminate | reflexivity]|].
  destruct (test emailRegex (text_of (field "email" b))) eqn:Te;
    [|simpl; split; [discriminate | reflexivity]].
  simpl negb. cbv beta iota.
  unfold pool_query. destruct (outage p) as [err|].
  { destruct (code err =? "23505")%string; simpl;
      (split; [discriminate | reflexivity]). }
  unfold exec. cbn [text values param nth_error].
  destruct (existsb has_nul _).
  { simpl. split; [discriminate | reflexivity]. }
  destruct (varchar100 (text_of (field "nombre" b))) as [n'|].
  2:{ simpl. split; [discriminate | reflexivity]. }
  destruct (varchar100 (text_of (field "email" b))) as [e'|] eqn:Ve.
  2:{ simpl. split; [discriminate | reflexivity]. }
  destruct (@email_stored_inv _ _ Te Ve) as [-> _].
  destruct (int4_max <? _).
  { simpl. split; [discriminate | reflexivity]. }
  cbv zeta.
  destruct (existsb (by_id _) _).
  { simpl. split; [discriminate | reflexivity]. }
  destruct (existsb (by_email _) _).
  { simpl. split; [discriminate | reflexivity]. }
  simpl. split; [|intro H; congruence].
  intros _. exists n'. repeat split.
Qed.

(** A deletion that is not answered 2xx removed nothing. *)
Lemma delete_user_effect i p :
  is_2xx (fst (delete_user i p)) = false ->
  usuarios (server (snd (delete_user i p))) = usuarios (server p).
Proof.
  unfold delete_user, pool_query.
  destruct (outage p) as [err|]; [reflexivity|].
  unfold exec. cbn [text values].
  destruct (existsb has_nul [i]); [reflexivity|].
  destruct (where_id_value 1 [i]) as [e|n]; [reflexivity|].
  cbv beta iota. rewrite rowCount_result_of.
  destruct (map usuario_row (filter (by_id n) (usuarios (server p)))) eqn:E.
  - intros _. simpl. apply filter_none. eapply map_nil_inv, E.
  - discriminate.
Qed.

Lemma filter_other (n m : Z) l :
  m <> n ->
  filter (by_id m) (filter (fun v => negb (by_id n v)) l) = filter (by_id m) l.
Proof.
  intro H. induction l as [|a l IH]; simpl; [reflexivity|].
  destruct (by_id n a) eqn:En; simpl.
  - replace (by_id m a) with false; [exact IH|].
    symmetry. unfold by_id in *. apply Z.eqb_eq in En. apply Z.eqb_neq. lia.
  - rewrite IH. reflexivity.
Qed.

Lemma get_user_up j m p :
  outage p = None -> int4_in j = Some m ->
  fst (get_user j p) =
    match filter (by_id m) (usuarios (server p)) with
    | [] => not_found_user j
    | u :: _ =>
        mkResponse 200 (JObj [ ("success", JBool true); ("user", usuario_row u) ])
    end.
Proof.
  intros Hup Hj. unfold get_user. rewrite pool_query_up by assumption.
  rewrite exec_select_usuario with (n := m) by assumption.
  simpl fst. cbv beta iota.
  destruct (filter (by_id m) (usuarios (server p))); reflexivity.
Qed.

Lemma delete_user_up i n p :
  outage p = None -> int4_in i = Some n ->
  delete_user i p =
    (match filter (by_id n) (usuarios (server p)) with
     | [] => not_found_user i
     | u :: _ =>
         mkResponse 200
           (JObj [ ("success", JBool true);
                   ("message", JStr "Usuario eliminado exitosamente");
                   ("deleted_user", usuario_row u) ])
     end,
     mkPool (set_usuarios (filter (fun v => negb (by_id n v))
                             (usuarios (server p))) (server p))
       None (issued p ++ [mkQuery (DELETE_usuario 1) [i]])).
Proof.
  intros Hup Hi. unfold delete_user. rewrite pool_query_up by assumption.
  rewrite exec_delete_usuario with (n := n) by assumption.
  simpl fst; simpl snd. cbv beta iota.
  destruct (filter (by_id n) (usuarios (server p))); reflexivity.
Qed.

Lemma filter_keep_below n l :
  existsb (by_id n) l = false -> filter (fun v => negb (by_id n v)) l = l.
Proof.
  intro H. apply filter_none. apply filter_nil_existsb. exact H.
Qed.

(** The ordering of the listing keeps the rows and puts the newest first. *)
Lemma insert_desc_perm u l : Permutation (insert_desc u l) (u :: l).
Proof.
  induction l as [|v l IH]; simpl; [reflexivity|].
  destruct (creado_en v <=? creado_en u); [reflexivity|].
  rewrite IH. apply perm_swap.
Qed.

Lemma order_desc_perm l : Permutation (order_desc l) l.
Proof.
  induction l as [|u l IH]; simpl; [constructor|].
  change (fold_right insert_desc [] l) with (order_desc l).
  rewrite insert_desc_perm. constructor. exact IH.
Qed.

Lemma insert_desc_sorted u l :
  StronglySorted newer_first l -> StronglySorted newer_first (insert_desc u l).
Proof.
  induction l as [|v l IH]; simpl; intro H.
  - constructor; constructor.
  - inversion H as [|? ? Hl Hv]; subst.
    destruct (creado_en v <=? creado_en u) eqn:E.
    + apply Z.leb_le in E. constructor; [exact H|].
      constructor; [exact E|].
      eapply Forall_impl; [|exact Hv]. unfold newer_first. intros; lia.
    + apply Z.leb_gt in E. constructor; [apply IH, Hl|].
      eapply Permutation_Forall; [symmetry; apply insert_desc_perm|].
      constructor; [unfold newer_first; lia | exact Hv].
Qed.

Lemma order_desc_sorted l : StronglySorted newer_first (order_desc l).
Proof.
  induction l as [|u l IH]; simpl; [constructor|].
  apply insert_desc_sorted, IH.
Qed.

(** The loop from iteration [i] on, when the store first answers at attempt
    [k]: a failed attempt and a pause for each iteration before [k], then
    the attempt that succeeds and the release of its client. *)
Lemma attempts_first_success connect retries delay k :
  connect k = true ->
  (forall j, (j < k)%nat -> connect j = false) ->
  forall remaining i, (i <= k)%nat -> (i + remaining = retries)%nat ->
    (k < retries)%nat ->
    V2.attempts connect retries delay remaining i
      = (true, List.concat (repeat [Connect; Sleep delay] (k - i))
                 ++ [Connect; Release]).
Proof.
  intros Hk Hbefore. induction remaining as [|r IH]; intros i Hik Hsum Hlt.
  { lia. }
  simpl. destruct (Nat.eq_dec i k) as [->|Hne].
  - rewrite Hk. rewrite Nat.sub_diag. reflexivity.
  - rewrite (Hbefore i) by lia.
    rewrite (IH (S i)) by lia.
    replace (Z.of_nat i <? Z.of_nat retries - 1) with true
      by (symmetry; apply Z.ltb_lt; lia).
    replace (k - i)%nat with (S (k - S i)) by lia. reflexivity.
Qed.

(** The loop from iteration [i] on, when the store never answers: an attempt
    for each iteration left, a pause after each but the last. *)
Lemma attempts_all_fail connect retries delay :
  (forall k, connect k = false) ->
  forall remaining i, (i + remaining = retries)%nat ->
    V2.attempts connect retries delay remaining i
      = (false, match remaining with
                | O => []
                | S k => List.concat (repeat [Connect; Sleep delay] k) ++ [Connect]
                end).
Proof.
  intros Hdown. induction remaining as [|k IH]; intros i Hi; [reflexivity|].
  simpl. rewrite Hdown. rewrite (IH (S i)) by lia.
  destruct k as [|k].
  - replace (Z.of_nat i <? Z.of_nat retries - 1) with false
      by (symmetry; apply Z.ltb_ge; lia).
    reflexivity.
  - replace (Z.of_nat i <? Z.of_nat retries - 1) with true
      by (symmetry; apply Z.ltb_lt; lia).
    reflexivity.
Qed.

(** The connection check neither listens nor exits. *)
Lemma attempts_events connect retries delay :
  forall remaining i,
    Forall (fun ev => match ev with Listen | Exit _ => False | _ => True end)
      (snd (V2.attempts connect retries delay remaining i)).
Proof.
  induction remaining as [|r IH]; intro i; simpl; [constructor|].
  destruct (connect i); [repeat constructor|].
  specialize (IH (S i)).
  destruct (V2.attempts connect retries delay r (S i)) as [b t]. simpl in *.
  constructor; [exact I|]. apply Forall_app. split; [|exact IH].
  destruct (Z.of_nat i <? Z.of_nat retries - 1); repeat constructor.
Qed.

(** The UPDATE of the variant that assigns both fields, on values the server
    binds and the columns take. *)
Lemma exec_update_both n e i k n' e' d :
  has_nul n = false -> has_nul e = false -> int4_in i = Some k ->
  varchar100 n = Some n' -> varchar100 e = Some e' ->
  exec (mkQuery (UPDATE_usuario [("nombre", Param 1); ("email", Param 2)] 3)
          [n; e; i]) d
    = match find (by_id k) (usuarios d) with
      | None => (inr (result_of []), d)
      | Some u =>
          let u' := mkUsuario (id u) n' e' (creado_en u) in
          if existsb (fun v => negb (by_id k v) && by_email e' v) (usuarios d)
          then (inl (unique_violation "usuarios_email_key"), d)
          else (inr (result_of [usuario_row u']),
                set_usuarios
                  (map (fun v => if by_id k v then u' else v) (usuarios d)) d)
      end.
Proof.
  intros Zn Ze Hi Vn Ve. unfold exec. cbn [text values missing_column].
  simpl existsb at 1 2. cbv beta iota.
  cbn [existsb]. rewrite Zn, Ze, (int4_in_nul _ Hi). cbn [orb].
  unfold where_id_value. cbn [param nth_error]. rewrite Hi.
  cbn [assign_all assign param nth_error]. simpl String.eqb.
  cbv beta iota. rewrite Vn, Ve.
  destruct (find (by_id k) (usuarios d)); reflexivity.
Qed.

(** The same UPDATE on a value the server does not bind or a column does not
    take: refused, whether or not a row has the id. *)
Lemma exec_update_refused n e i k d :
  int4_in i = Some k ->
  has_nul n = true \/ has_nul e = true
  \/ varchar100 n = None \/ varchar100 e = None ->
  exists err,
    exec (mkQuery (UPDATE_usuario [("nombre", Param 1); ("email", Param 2)] 3)
            [n; e; i]) d = (inl err, d).
Proof.
  intros Hi H. unfold exec. cbn [text values missing_column].
  simpl existsb at 1 2. cbv beta iota.
  cbn [existsb]. rewrite (int4_in_nul _ Hi), !orb_false_r.
  destruct (has_nul n) eqn:Zn; [eexists; reflexivity|].
  destruct (has_nul e) eqn:Ze; [eexists; reflexivity|]. cbn [orb].
  unfold where_id_value. cbn [param nth_error]. rewrite Hi.
  cbn [assign_all assign param nth_error]. simpl String.eqb.
  cbv beta iota.
  destruct (varchar100 n) as [n'|] eqn:Vn; [|eexists; reflexivity].
  destruct (varchar100 e) as [e'|] eqn:Ve; [|eexists; reflexivity].
  destruct H as [H|[H|[H|H]]]; discriminate.
Qed.

Lemma find_absent k p : absent k p = true -> find (by_id k) (usuarios (server p)) = None.
Proof.
  unfold absent. intro H. apply negb_true_iff in H.
  destruct (find (by_id k) (usuarios (server p))) as [u|] eqn:E; [|reflexivity].
  apply find_some in E as [Hin Hk].
  assert (existsb (by_id k) (usuarios (server p)) = true); [|congruence].
  apply existsb_exists. eauto.
Qed.

Lemma filter_unique_id u l :
  NoDup (map id l) -> In u l -> filter (by_id (id u)) l = [u].
Proof.
  induction l as [|v l IH]; simpl; intros Hnd Hin; [contradiction|].
  inversion Hnd as [|? ? Hv Hl]; subst.
  destruct Hin as [->|Hin].
  - unfold by_id at 1. rewrite Z.eqb_refl. f_equal.
    apply filter_nil_existsb.
    destruct (existsb (by_id (id u)) l) eqn:E; [|reflexivity].
    apply existsb_exists in E as (w & Hw & Hid).
    exfalso. apply Hv. apply Z.eqb_eq in Hid. rewrite <- Hid.
    apply in_map, Hw.
  - replace (by_id (id u) v) with false; [apply IH; assumption|].
    symmetry. apply Z.eqb_neq. intro Heq. apply Hv. rewrite Heq.
    apply in_map, Hin.
Qed.

(** ** The properties *)

(** X1.  The pattern of [POST /users] accepts exactly the texts of the shape
    [local@domain.tld]: three non-empty parts without blanks or [@], one
    [@] between the first two and a dot between the last two. *)
Theorem X1_email_pattern_shape s : test emailRegex s = true <-> email_shape s.
Proof. apply emailRegex_spec. Qed.

(** X2.  For a body whose name and email are strings or are absent:
    [POST /users] answers 400 exactly when the name is missing or empty,
    the email is missing or empty, or the email has not the shape of the
    pattern; a request answered 400 leaves the pool as it was. *)
Theorem X2_post_400_iff_invalid ev b p :
  let r := app ev (POST_users b) p in
  (status (fst r) = 400 <->
     truthy (field "nombre" b) = false
     \/ truthy (field "email" b) = false
     \/ ~ email_shape (text_of (field "email" b)))
  /\ (status (fst r) = 400 -> snd r = p).
Proof.
  cbv zeta. rewrite app_POST_users. unfold post_users.
  destruct (truthy (field "nombre" b)) eqn:Tn; simpl negb; simpl orb;
    cbv beta iota.
  2:{ split; [split; auto|reflexivity]. }
  destruct (truthy (field "email" b)) eqn:Te; simpl negb; cbv beta iota.
  2:{ split; [split; auto|reflexivity]. }
  destruct (test emailRegex (text_of (field "email" b))) eqn:Tr;
    simpl negb; cbv beta iota.
  2:{ split; [|reflexivity]. split; [intros _|reflexivity].
      right; right. intro H. apply emailRegex_spec in H. congruence. }
  assert (Hno' : ~ (true = false \/ true = false
                    \/ ~ email_shape (text_of (field "email" b)))).
  { intros [H|[H|H]]; try discriminate. apply H, emailRegex_spec, Tr. }
  destruct (pool_query _ p) as [[err|res] p1].
  - destruct (code err =? "23505")%string; simpl;
      (split; [split; [discriminate | intro H; exfalso; exact (Hno' H)]
              | discriminate]).
  - simpl. split; [split; [discriminate | intro H; exfalso; exact (Hno' H)]
                  | discriminate].
Qed.

(** X3.  [POST /users] answered 201 has appended one row: the name as the
    column stores it (the name of the body, cut to its first 100
    characters when only spaces come after them), the email of the body,
    the value of the id sequence and the store's time; and it has moved
    the sequence on by one.  Answered anything else it has left the users
    as they were.  The products are never touched. *)
Theorem X3_post_adds_one_row_or_none ev b p :
  let r := app ev (POST_users b) p in
  let n := text_of (field "nombre" b) in
  (status (fst r) = 201 ->
     exists n',
       varchar100 n = Some n'
       /\ ((String.length n <= 100)%nat -> n' = n)
       /\ ((100 < String.length n)%nat ->
           n' = string_of_list_ascii (firstn 100 (list_ascii_of_string n)))
       /\ usuarios (server (snd r))
            = usuarios (server p)
                ++ [mkUsuario (usuarios_id_seq (server p)) n'
                      (text_of (field "email" b)) (now (server p))]
       /\ usuarios_id_seq (server (snd r)) = usuarios_id_seq (server p) + 1)
  /\ (status (fst r) <> 201 -> usuarios (server (snd r)) = usuarios (server p))
  /\ productos (server (snd r)) = productos (server p).
Proof.
  cbv zeta. split; [|split; [|apply app_productos]];
    rewrite app_POST_users; [|apply post_users_effect].
  intro H. destruct (post_users_effect b p) as [E _].
  destruct (E H) as (n' & Vn & Hu & Hs). exists n'.
  split; [exact Vn|]. split; [|split; [|split; [exact Hu | exact Hs]]].
  - intro L. rewrite (varchar100_short _ L) in Vn. congruence.
  - intro L. unfold varchar100 in Vn. rewrite length_list_ascii in Vn.
    apply Nat.leb_gt in L. rewrite L in Vn.
    destruct (forallb _ _); congruence.
Qed.

Lemma X3_witness :
  usuarios (server (snd (app production
      (POST_users [("nombre", padded_name); ("email", "ana@example.com")])
      seeded)))
    = usuarios (server seeded)
        ++ [mkUsuario 3 full_name "ana@example.com" (now (server seeded))].
Proof.
  destruct (X3_post_adds_one_row_or_none production
              [("nombre", padded_name); ("email", "ana@example.com")] seeded)
    as [H _].
  destruct (H eq_refl) as (n' & V & _ & _ & U & _).
  assert (E : n' = full_name)
    by (vm_compute in V; injection V as <-; reflexivity).
  rewrite U, E. reflexivity.
Defined.

(** X4.  The handler does not bound the length of the fields.  A request that
    passes its checks with an email of more than 100 characters, or with
    a name that has anything but spaces after its first 100 characters,
    is refused by the store and answered 500 with the store's message:
    nothing is stored and no id is drawn.  A name that has only spaces
    after its first 100 characters is stored without them: the answer is
    a 201 that carries the shortened name. *)
Theorem X4_post_text_beyond_the_column ev p b n e :
  outage p = None ->
  field "nombre" b = Some n -> field "email" b = Some e ->
  n <> "" -> test emailRegex e = true ->
  has_nul n = false -> has_nul e = false ->
  let r := app ev (POST_users b) p in
  (varchar100 n = None \/ (100 < String.length e)%nat ->
     fst r = failure value_too_long /\ server (snd r) = server p)
  /\ (forall n',
        varchar100 n = Some n' -> (String.length e <= 100)%nat ->
        consistent (server p) -> usuarios_id_seq (server p) <= int4_max ->
        registered e p = [] ->
        fst r = mkResponse 201
                  (JObj [ ("success", JBool true);
                          ("message", JStr "Usuario creado exitosamente");
                          ("user",
                           JObj [ ("id", JNum (usuarios_id_seq (server p)));
                                  ("nombre", JStr n'); ("email", JStr e);
                                  ("creado_en", JDate (now (server p))) ]) ])
        /\ (String.length n' <= 100)%nat).
Proof.
  intros Hup Hn He Nn Te Zn Ze. cbv zeta. split.
  - intro Hlong.
    rewrite app_POST_users. unfold post_users. rewrite Hn, He.
    assert (Tn : truthy (Some n) = true).
    { simpl. apply negb_true_iff, String.eqb_neq. exact Nn. }
    rewrite Tn, (emailRegex_truthy _ Te). simpl negb. simpl orb.
    cbv beta iota. simpl text_of. rewrite Te. simpl negb. cbv beta iota.
    rewrite pool_query_up by assumption.
    unfold exec. cbn [text values param nth_error].
    rewrite (bound_two _ _ Zn Ze).
    assert (E : match varchar100 n, varchar100 e with
                | Some _, Some _ => False
                | _, _ => True
                end).
    { destruct Hlong as [-> | L]; [exact I|].
      rewrite (varchar100_email _ Te). apply Nat.leb_gt in L. rewrite L.
      destruct (varchar100 n); exact I. }
    destruct (varchar100 n), (varchar100 e); try contradiction;
      split; reflexivity.
  - intros n' Vn Le [Hlt _] Hs Hreg.
    pose proof (existsb_by_id_below _ Hlt) as Hi.
    assert (Hm : existsb (by_email e) (usuarios (server p)) = false)
      by (apply filter_nil_existsb; exact Hreg).
    rewrite (@post_users_created ev p b n e n') by assumption.
    split; [reflexivity | eapply varchar100_fits, Vn].
Qed.

Lemma X4_witness :
  fst (app production
         (POST_users [("nombre", long_name); ("email", "ana@example.com")]) seeded)
    = failure value_too_long
  /\ at_path ["user"; "nombre"]
       (payload (fst (app production
          (POST_users [("nombre", padded_name); ("email", "ana@example.com")])
          seeded))) = Some (JStr full_name).
Proof.
  destruct (@X4_post_text_beyond_the_column production seeded
              [("nombre", long_name); ("email", "ana@example.com")]
              long_name "ana@example.com" eq_refl eq_refl eq_refl)
    as [L _]; try reflexivity; [discriminate|].
  destruct (@X4_post_text_beyond_the_column production seeded
              [("nombre", padded_name); ("email", "ana@example.com")]
              padded_name "ana@example.com" eq_refl eq_refl eq_refl)
    as [_ T]; try reflexivity; [discriminate|].
  destruct (T full_name eq_refl) as [T1 _];
    [simpl; lia | apply init_sql_consistent | vm_compute; discriminate
     | reflexivity |].
  split.
  - apply L. left. reflexivity.
  - rewrite T1. reflexivity.
Defined.

(** X5.  No [PUT /users/:id], whatever its id and body, changes the store or
    is answered 200. *)
Theorem X5_put_changes_nothing ev i b p :
  server (snd (app ev (PUT_user i b) p)) = server p
  /\ status (fst (app ev (PUT_user i b) p)) <> 200.
Proof.
  rewrite app_PUT_user. split; [apply put_user_server | apply put_user_never_200].
Qed.

(** X6.  The dynamic UPDATE: every placeholder of the SET list is bound to the
    field it is written for, the field being truthy; a truthy field has
    its assignment; the placeholder of the WHERE clause is the last value,
    the id; the timestamp is assigned once, after the fields. *)
Theorem X6_update_placeholders i n e :
  let q := update_query i n e in
  exists set w,
    text q = UPDATE_usuario (set ++ [("actualizado_en", CURRENT_TIMESTAMP)]) w
    /\ List.length (values q) = w
    /\ param w (values q) = Some i
    /\ (forall c k, In (c, Param k) set ->
          (c = "nombre" /\ truthy n = true /\ param k (values q) = n)
          \/ (c = "email" /\ truthy e = true /\ param k (values q) = e))
    /\ (truthy n = true -> exists k, In ("nombre", Param k) set)
    /\ (truthy e = true -> exists k, In ("email", Param k) set)
    /\ (forall c, ~ In (c, CURRENT_TIMESTAMP) set).
Proof.
  cbv zeta. unfold update_query, push_if.
  destruct n as [n|], e as [e|]; simpl truthy;
    try destruct (negb (n =? "")%string) eqn:Tn;
    try destruct (negb (e =? "")%string) eqn:Te;
    cbn [updates vals paramCount app text values];
    eexists _, _; (split; [reflexivity|]); (split; [reflexivity|]);
    (split; [reflexivity|]); repeat split;
    try discriminate; try (intros _; eexists; simpl; eauto; fail);
    try (intros c k H; simpl in H;
         repeat (destruct H as [H|H]; [injection H as <- <-|]);
         try contradiction; simpl; auto; fail);
    try (intros c H; simpl in H; repeat (destruct H as [H|H]; [discriminate|]);
         contradiction).
Qed.

(** X7.  Whatever the request, every statement sent to the store is one of
    thirteen fixed texts: the path and the body only reach the store as
    bound values. *)
Theorem X7_statements_are_fixed_texts ev req p :
  Forall (fun q => In (text q) templates) (queries_of ev req p).
Proof.
  destruct (issued_app ev req p) as (l & Hl & Hshape).
  destruct req as [m pa [jerr|b]]; cbn [body method path] in Hshape.
  { rewrite (@queries_of_eq ev _ p l Hl). subst l. constructor. }
  destruct (route_of m pa) as [| | | | | | |i| |i|i| | |] eqn:R;
    try (rewrite (@queries_of_eq ev _ p l Hl); subst l;
         fixed_texts).
  - rewrite (@queries_of_eq ev _ p l Hl).
    destruct (_ || _ || _); subst l; fixed_texts.
  - (* the update: what was sent depends on the fields that are truthy *)
    clear Hl Hshape l. unfold queries_of, app. simpl body. simpl method.
    simpl path. rewrite R. simpl handle. unfold put_user.
    destruct (truthy (field "nombre" b)) eqn:Tn;
      destruct (truthy (field "email" b)) eqn:Te; simpl negb; simpl andb;
      cbv beta iota;
      try (simpl snd; rewrite skipn_length; constructor).
    all: destruct (pool_query (mkQuery (SELECT_usuario 1) [i]) p)
           as [r p1] eqn:E;
         destruct (issued_pool_query _ _ E) as [I1 _];
         destruct r as [err|res];
         [ destruct (code err =? "23505")%string; simpl snd; rewrite I1,
             skipn_length_app; fixed_texts
         | destruct (rowCount res =? 0);
           [ simpl snd; rewrite I1, skipn_length_app; repeat constructor;
             simpl; tauto | ] ];
         destruct (pool_query _ p1) as [r2 p2] eqn:E2;
         destruct (issued_pool_query _ _ E2) as [I2 _];
         assert (I : issued p2 = issued p ++
                   [mkQuery (SELECT_usuario 1) [i];
                    update_query i (field "nombre" b) (field "email" b)])
           by (rewrite I2, I1, <- app_assoc; reflexivity);
         assert (T : In (text (update_query i (field "nombre" b)
                                 (field "email" b))) templates)
           by (unfold update_query, push_if; rewrite Tn, Te; simpl; tauto);
         assert (F : Forall (fun q => In (text q) templates)
                       [mkQuery (SELECT_usuario 1) [i];
                        update_query i (field "nombre" b) (field "email" b)])
           by (apply Forall_cons; [simpl; tauto|]; apply Forall_cons; [exact T|]; apply Forall_nil);
         destruct r2 as [err|res2];
         [ destruct (code err =? "23505")%string | ];
         simpl snd; rewrite I, skipn_length_app; exact F.
Qed.

(** X8.  No GET request, on any path, changes the store. *)
Theorem X8_get_requests_only_read ev pa b p :
  server (snd (app ev (mkRequest GET pa b) p)) = server p.
Proof.
  unfold app. simpl body. destruct b as [jerr|b]; [reflexivity|].
  simpl method; simpl path. apply read_route_server.
  pose proof (route_of_GET pa) as H.
  destruct (route_of GET pa); auto.
Qed.

(** X9.  No sequence of requests changes the products. *)
Theorem X9_products_are_read_only ev reqs p :
  productos (server (serve ev reqs p)) = productos (server p).
Proof.
  apply (@serve_preserves (fun d => productos d = productos (server p)));
    [|reflexivity].
  intros q d H. rewrite <- H. apply exec_fixed.
Qed.

(** X10.  A request that is not answered 2xx leaves the users as they were. *)
Theorem X10_refused_requests_change_no_user ev req p :
  is_2xx (fst (app ev req p)) = false ->
  usuarios (server (snd (app ev req p))) = usuarios (server p).
Proof.
  destruct req as [m pa [jerr|b]]; unfold app; simpl body; [reflexivity|].
  simpl method; simpl path.
  destruct (route_of m pa) as [| | | | | | |i| |i|i| | |] eqn:R;
    try (intros _; rewrite read_route_server; [reflexivity | exact I]).
  - simpl handle. intro H. apply post_users_effect.
    intro H1. unfold is_2xx in H. rewrite H1 in H. discriminate.
  - simpl handle. intros _. rewrite put_user_server. reflexivity.
  - simpl handle. apply delete_user_effect.
Qed.

Lemma X10_witness :
  usuarios (server (snd (app production
      (POST_users [("nombre", "Ana"); ("email", "juan@example.com")]) seeded)))
    = usuarios (server seeded).
Proof.
  apply (@X10_refused_requests_change_no_user production
           (POST_users [("nombre", "Ana"); ("email", "juan@example.com")])
           seeded).
  reflexivity.
Defined.

(** X11.  [DELETE /users/:id] on a reachable store removes the rows of that id
    and no other: the id is then answered 404, and the lookup of any other
    id is answered as before. *)
Theorem X11_delete_removes_that_user_only ev i n p :
  outage p = None -> int4_in i = Some n ->
  let p1 := snd (app ev (DELETE_user i) p) in
  usuarios (server p1)
    = filter (fun v => negb (by_id n v)) (usuarios (server p))
  /\ status (fst (app ev (GET_user i) p1)) = 404
  /\ forall j m, int4_in j = Some m -> m <> n ->
       fst (app ev (GET_user j) p1) = fst (app ev (GET_user j) p).
Proof.
  intros Hup Hi. cbv zeta. rewrite app_DELETE_user.
  rewrite (@delete_user_up i n p Hup Hi). simpl snd. split; [reflexivity|].
  split.
  - rewrite app_GET_user.
    rewrite get_user_up with (m := n) by (try reflexivity; assumption).
    simpl usuarios. rewrite filter_negb_gone. reflexivity.
  - intros j m Hj Hm. rewrite !app_GET_user.
    rewrite get_user_up with (m := m) by (try reflexivity; assumption).
    rewrite get_user_up with (m := m) (p := p) by assumption.
    simpl usuarios. rewrite filter_other by assumption. reflexivity.
Qed.

Lemma X11_witness :
  let p1 := snd (app production (DELETE_user "1") seeded) in
  usuarios (server p1)
    = filter (fun v => negb (by_id 1 v)) (usuarios (server seeded))
  /\ status (fst (app production (GET_user "1") p1)) = 404
  /\ forall j m, int4_in j = Some m -> m <> 1 ->
       fst (app production (GET_user j) p1)
         = fst (app production (GET_user j) seeded).
Proof.
  exact (@X11_delete_removes_that_user_only production "1" 1 seeded
           eq_refl eq_refl).
Defined.

(** X12.  Creating a user (a name and an email that pass the handler's checks,
    have no code unit 0 and at most 100 characters, on a reachable store
    with sound keys and a sequence value left) and deleting it by the id
    it was given, in decimal, returns the created row and leaves the
    users exactly as they were before the two requests. *)
Theorem X12_create_then_delete_restores ev p b n e :
  outage p = None ->
  consistent (server p) ->
  1 <= usuarios_id_seq (server p) <= int4_max ->
  field "nombre" b = Some n -> field "email" b = Some e ->
  n <> "" -> test emailRegex e = true ->
  has_nul n = false -> has_nul e = false ->
  (String.length n <= 100)%nat -> (String.length e <= 100)%nat ->
  registered e p = [] ->
  let p1 := snd (app ev (POST_users b) p) in
  let r2 := app ev (DELETE_user (show (usuarios_id_seq (server p)))) p1 in
  fst r2 = mkResponse 200
             (JObj [ ("success", JBool true);
                     ("message", JStr "Usuario eliminado exitosamente");
                     ("deleted_user",
                      JObj [ ("id", JNum (usuarios_id_seq (server p)));
                             ("nombre", JStr n); ("email", JStr e);
                             ("creado_en", JDate (now (server p))) ]) ])
  /\ usuarios (server (snd r2)) = usuarios (server p).
Proof.
  intros Hup [Hlt _] Hseq Hn He Nn Te Zn Ze Ln Le Hreg. cbv zeta.
  pose proof (existsb_by_id_below _ Hlt) as Hi.
  assert (Hm : existsb (by_email e) (usuarios (server p)) = false)
    by (apply filter_nil_existsb; exact Hreg).
  rewrite (@post_users_created ev p b n e n)
    by first [assumption | apply varchar100_short; assumption | lia].
  simpl snd. rewrite app_DELETE_user.
  rewrite delete_user_up with (n := usuarios_id_seq (server p))
    by first [reflexivity | apply int4_in_show; unfold int4_min; lia].
  simpl usuarios. rewrite !filter_app.
  assert (F0 : filter (by_id (usuarios_id_seq (server p))) (usuarios (server p)) = [])
    by (apply filter_nil_existsb; exact Hi).
  rewrite F0, (filter_keep_below _ _ Hi). simpl filter.
  replace (by_id (usuarios_id_seq (server p)) (created n e (server p)))
    with true by (symmetry; apply Z.eqb_refl).
  simpl. rewrite app_nil_r. split; reflexivity.
Qed.

Lemma X12_witness :
  let b := [("nombre", "Ana"); ("email", "ana@example.com")] in
  let p1 := snd (app production (POST_users b) seeded) in
  let r2 := app production (DELETE_user "3") p1 in
  fst r2 = mkResponse 200
             (JObj [ ("success", JBool true);
                     ("message", JStr "Usuario eliminado exitosamente");
                     ("deleted_user",
                      JObj [ ("id", JNum 3); ("nombre", JStr "Ana");
                             ("email", JStr "ana@example.com");
                             ("creado_en", JDate (now (server seeded))) ]) ])
  /\ usuarios (server (snd r2)) = usuarios (server seeded).
Proof.
  apply (@X12_create_then_delete_restores production seeded
           [("nombre", "Ana"); ("email", "ana@example.com")]
           "Ana" "ana@example.com" eq_refl
           (init_sql_consistent _ _)).
  - vm_compute. split; discriminate.
  - reflexivity.
  - reflexivity.
  - discriminate.
  - reflexivity.
  - reflexivity.
  - reflexivity.
  - simpl. lia.
  - simpl. lia.
  - reflexivity.
Defined.

(** X13.  An id below the value of the sequence that no user has, because it
    was never given or because its user was deleted, is the id of no
    user after any sequence of requests, and the sequence never goes
    back: in particular the id of a user deleted through the service is
    not given again. *)
Theorem X13_ids_are_not_reused ev reqs p n :
  n < usuarios_id_seq (server p) ->
  (absent n p = true -> absent n (serve ev reqs p) = true)
  /\ (forall i, outage p = None -> int4_in i = Some n ->
        absent n (serve ev reqs (snd (app ev (DELETE_user i) p))) = true)
  /\ usuarios_id_seq (server p) <= usuarios_id_seq (server (serve ev reqs p)).
Proof.
  intro Hn.
  assert (Keep : forall p0,
            n < usuarios_id_seq (server p0) -> absent n p0 = true ->
            absent n (serve ev reqs p0) = true
            /\ usuarios_id_seq (server p0)
                 <= usuarios_id_seq (server (serve ev reqs p0))).
  { intros p0 Hn0 Ha.
    assert (G : usuarios_id_seq (server p0)
                  <= usuarios_id_seq (server (serve ev reqs p0))
                /\ existsb (by_id n) (usuarios (server (serve ev reqs p0)))
                     = false).
    { apply (@serve_preserves
               (fun d => usuarios_id_seq (server p0) <= usuarios_id_seq d
                         /\ existsb (by_id n) (usuarios d) = false)).
      - intros q d [Hs Hu]. destruct (exec_ids q d) as [Hs' Hu'].
        split; [lia|].
        destruct (existsb (by_id n) (usuarios (snd (exec q d)))) eqn:E;
          [|reflexivity].
        exfalso. apply existsb_exists in E as (u & Hin & Hid).
        apply Z.eqb_eq in Hid.
        destruct (Hu' u Hin) as [H|H]; [|lia].
        apply in_map_iff in H as (v & Hv & Hvin).
        assert (existsb (by_id n) (usuarios d) = true); [|congruence].
        apply existsb_exists. exists v. split; [exact Hvin|].
        apply Z.eqb_eq. congruence.
      - split; [lia|]. unfold absent in Ha. apply negb_true_iff, Ha. }
    destruct G as [G1 G2]. split; [|exact G1].
    unfold absent. rewrite G2. reflexivity. }
  split; [intro Ha; apply Keep; assumption|]. split.
  - intros i Hup Hi. rewrite app_DELETE_user.
    rewrite (@delete_user_up i n p Hup Hi). cbn [snd].
    apply Keep; [exact Hn|].
    unfold absent. cbn [server usuarios set_usuarios].
    apply negb_true_iff, filter_nil_existsb, filter_negb_gone.
  - clear Keep.
    apply (@serve_preserves
             (fun d => usuarios_id_seq (server p) <= usuarios_id_seq d)).
    + intros q d Hs. destruct (exec_ids q d) as [Hs' _]. lia.
    + lia.
Qed.

Lemma X13_witness :
  absent 1 (serve production
              [POST_users [("nombre", "Ana"); ("email", "ana@example.com")];
               POST_users [("nombre", "Juan"); ("email", "juan@example.com")]]
              (snd (app production (DELETE_user "1") seeded))) = true
  /\ absent 0 (serve production
                 [POST_users [("nombre", "Ana"); ("email", "ana@example.com")]]
                 seeded) = true.
Proof.
  destruct (@X13_ids_are_not_reused production
              [POST_users [("nombre", "Ana"); ("email", "ana@example.com")];
               POST_users [("nombre", "Juan"); ("email", "juan@example.com")]]
              seeded 1) as (_ & D & _); [reflexivity|].
  destruct (@X13_ids_are_not_reused production
              [POST_users [("nombre", "Ana"); ("email", "ana@example.com")]]
              seeded 0) as (K & _); [reflexivity|].
  split.
  - apply (D "1"); reflexivity.
  - apply K. reflexivity.
Defined.

(** X14.  From the store as [init.sql] seeds it, whatever requests are served,
    ids stay below the sequence and no two users share an id or an
    email. *)
Theorem X14_keys_hold_from_the_seed ev reqs t v o l :
  consistent (server (serve ev reqs (mkPool (init_sql t v) o l))).
Proof. apply serve_consistent. simpl. apply init_sql_consistent. Qed.

(** X15.  [GET /users] on a reachable store answers 200 with every user row
    once, newest first, and their number as [count]. *)
Theorem X15_user_list_is_complete_and_ordered ev p :
  outage p = None ->
  exists l,
    Permutation l (usuarios (server p))
    /\ StronglySorted newer_first l
    /\ fst (app ev (GET_ "users") p) =
         mkResponse 200
           (JObj [ ("success", JBool true);
                   ("count", JNum (Z.of_nat (List.length (usuarios (server p)))));
                   ("users", JArr (map usuario_row l)) ]).
Proof.
  intro Hup. exists (order_desc (usuarios (server p))).
  split; [apply order_desc_perm|]. split; [apply order_desc_sorted|].
  change (app ev (GET_ "users") p) with (get_users p).
  unfold get_users. rewrite pool_query_up by assumption.
  unfold exec. cbn [text values fst]. unfold result_of.
  cbn [rowCount rows fst]. rewrite length_map.
  rewrite (Permutation_length (order_desc_perm (usuarios (server p)))).
  reflexivity.
Qed.

Lemma X15_witness :
  exists l,
    Permutation l (usuarios (server seeded))
    /\ StronglySorted newer_first l
    /\ fst (app production (GET_ "users") seeded) =
         mkResponse 200
           (JObj [ ("success", JBool true);
                   ("count",
                    JNum (Z.of_nat (List.length (usuarios (server seeded)))));
                   ("users", JArr (map usuario_row l)) ]).
Proof.
  exact (@X15_user_list_is_complete_and_ordered production seeded eq_refl).
Defined.

(** X16.  [GET /stats] on a reachable store reports the number of users, the
    number of products and the sum of the stocks, 0 when no product has
    one. *)
Theorem X16_stats_count_the_store ev p :
  outage p = None ->
  let r := fst (app ev (GET_ "stats") p) in
  status r = 200
  /\ at_path ["stats"; "users"; "total"] (payload r)
       = Some (JNum (Z.of_nat (List.length (usuarios (server p)))))
  /\ at_path ["stats"; "products"; "total"] (payload r)
       = Some (JNum (Z.of_nat (List.length (productos (server p)))))
  /\ at_path ["stats"; "products"; "total_stock"] (payload r)
       = Some (JNum (match sum_stock (productos (server p)) with
                     | Some n => n
                     | None => 0
                     end)).
Proof.
  intro Hup. cbv zeta.
  change (app ev (GET_ "stats") p) with (get_stats ev p).
  unfold get_stats. rewrite pool_query_up by assumption.
  rewrite pool_query_up by reflexivity. rewrite pool_query_up by reflexivity.
  unfold exec. cbn [text values fst snd server]. cbv beta iota.
  repeat split.
  cbn. destruct (sum_stock (productos (server p))); reflexivity.
Qed.

Lemma X16_witness :
  at_path ["stats"; "products"; "total_stock"]
    (payload (fst (app production (GET_ "stats") seeded))) = Some (JNum 90).
Proof.
  destruct (@X16_stats_count_the_store production seeded eq_refl)
    as (_ & _ & _ & H).
  exact H.
Defined.

(** X17.  [GET /health] is answered 200 exactly when the store is reachable and
    500 exactly when it is not, with [healthy]/[connected] or
    [unhealthy]/[disconnected] accordingly, and the text of the failure
    under [database.error]. *)
Theorem X17_health_tells_reachability ev p :
  let r := fst (app ev (GET_ "health") p) in
  (status r = 200 <-> outage p = None)
  /\ (status r = 500 <-> outage p <> None)
  /\ get "status" (payload r)
       = Some (JStr (if is_2xx r then "healthy" else "unhealthy"))
  /\ at_path ["database"; "status"] (payload r)
       = Some (JStr (if is_2xx r then "connected" else "disconnected"))
  /\ forall err, outage p = Some err ->
       at_path ["database"; "error"] (payload r) = Some (JStr (message err)).
Proof.
  cbv zeta. change (app ev (GET_ "health") p) with (health ev p).
  unfold health, pool_query. destruct (outage p) as [e|].
  - simpl. repeat split; try discriminate; try congruence.
  - simpl. repeat split; try discriminate; try congruence.
Qed.

(** X18.  The days, hours, minutes and seconds shown for an uptime add up to
    it, with hours below 24 and minutes and seconds below 60. *)
Theorem X18_uptime_parts ev :
  0 <= uptime ev ->
  let up := uptime ev in
  up = days_of up * 86400 + hours_of up * 3600 + minutes_of up * 60
       + seconds_of up
  /\ 0 <= days_of up
  /\ 0 <= hours_of up < 24
  /\ 0 <= minutes_of up < 60
  /\ 0 <= seconds_of up < 60
  /\ uptime_text ev
       = (show (days_of up) ++ "d " ++ show (hours_of up) ++ "h "
            ++ show (minutes_of up) ++ "m " ++ show (seconds_of up) ++ "s")%string.
Proof.
  intro H. cbv zeta. unfold days_of, hours_of, minutes_of, seconds_of.
  set (up := uptime ev) in *.
  change (3600 * 24) with 86400.
  pose proof (Z.div_mod up 86400 ltac:(lia)) as D1.
  pose proof (Z.mod_pos_bound up 86400 ltac:(lia)) as B1.
  pose proof (Z.div_mod (up mod 86400) 3600 ltac:(lia)) as D2.
  pose proof (Z.mod_pos_bound (up mod 86400) 3600 ltac:(lia)) as B2.
  pose proof (Z.div_mod (up mod 3600) 60 ltac:(lia)) as D3.
  pose proof (Z.mod_pos_bound (up mod 3600) 60 ltac:(lia)) as B3.
  pose proof (Z.mod_pos_bound up 3600 ltac:(lia)) as B4.
  pose proof (Z.mod_pos_bound up 60 ltac:(lia)) as B5.
  assert (M1 : (up mod 86400) mod 3600 = up mod 3600).
  { symmetry. rewrite (Z.mod_eq up 86400) by lia.
    replace (up - 86400 * (up / 86400)) with (up + (- 24 * (up / 86400)) * 3600)
      by lia.
    rewrite Z.mod_add by lia. reflexivity. }
  assert (M2 : (up mod 3600) mod 60 = up mod 60).
  { symmetry. rewrite (Z.mod_eq up 3600) by lia.
    replace (up - 3600 * (up / 3600)) with (up + (- 60 * (up / 3600)) * 60)
      by lia.
    rewrite Z.mod_add by lia. reflexivity. }
  rewrite M1 in D2, B2. rewrite M2 in D3, B3.
  assert (0 <= up / 86400) by (apply Z.div_pos; lia).
  assert (0 <= (up mod 86400) / 3600 < 24).
  { split; [apply Z.div_pos; lia|]. apply Z.div_lt_upper_bound; lia. }
  assert (0 <= (up mod 3600) / 60 < 60).
  { split; [apply Z.div_pos; lia|]. apply Z.div_lt_upper_bound; lia. }
  repeat split; try lia. 
Qed.

Lemma X18_witness :
  uptime production
    = days_of (uptime production) * 86400 + hours_of (uptime production) * 3600
      + minutes_of (uptime production) * 60 + seconds_of (uptime production).
Proof.
  destruct (@X18_uptime_parts production) as [H _].
  - simpl. lia.
  - exact H.
Defined.

(** X19.  A request whose body could not be parsed is answered by the terminal
    error handler whatever its path and its method, OPTIONS apart, which
    is answered 204 before the body is looked at; a HEAD request gets
    the handler's status without a body.  Nothing is sent to the store.
    The status is the error's own when it has one other than 0, and 500
    when it has none or 0; [success] is false; the error text is the
    message of the error, or a fixed text when that is empty. *)
Theorem X19_unparsed_body_goes_to_error_handler ev v pa err p :
  let r := service ev (mkArrival v pa (inl err)) p in
  let h := error_handler ev err in
  snd r = p
  /\ service_queries ev (mkArrival v pa (inl err)) p = []
  /\ fst r = match v with
             | OPTIONS => mkReply 204 None
             | HEAD => mkReply (status h) None
             | _ => mkReply (status h) (Some (payload h))
             end
  /\ (forall s, err_status err = Some s -> s <> 0 -> status h = s)
  /\ (err_status err = None \/ err_status err = Some 0 -> status h = 500)
  /\ get "success" (payload h) = Some (JBool false)
  /\ (err_message err <> "" ->
      get "error" (payload h) = Some (JStr (err_message err)))
  /\ (err_message err = "" ->
      get "error" (payload h) = Some (JStr "Error interno del servidor")).
Proof.
  cbv zeta.
  assert (S : service ev (mkArrival v pa (inl err)) p
              = (match v with
                 | OPTIONS => mkReply 204 None
                 | HEAD => mkReply (status (error_handler ev err)) None
                 | _ => mkReply (status (error_handler ev err))
                          (Some (payload (error_handler ev err)))
                 end, p)).
  { destruct v; reflexivity. }
  split; [rewrite S; reflexivity|].
  split; [unfold service_queries; rewrite S; apply skipn_length|].
  split; [rewrite S; reflexivity|].
  unfold error_handler. cbn [status payload get List.app member].
  split; [|split; [|split; [reflexivity|split]]].
  - intros s -> Hs. apply Z.eqb_neq in Hs. rewrite Hs. reflexivity.
  - intros [-> | ->]; reflexivity.
  - intro H. apply String.eqb_neq in H. simpl. rewrite H. reflexivity.
  - intros ->. reflexivity.
Qed.

(** X20.  [checkDatabaseConnection(retries, delay)] against a store that never
    answers reports [false] after exactly this: [retries] attempts, each
    but the last followed by a pause of [delay], no client released. *)
Theorem X20_connection_check_gives_up connect retries delay :
  (forall k, connect k = false) ->
  V2.checkDatabaseConnection_with connect retries delay
    = (false,
       match retries with
       | O => []
       | S k => List.concat (repeat [Connect; Sleep delay] k) ++ [Connect]
       end).
Proof.
  intro Hdown. unfold V2.checkDatabaseConnection_with.
  apply attempts_all_fail; [exact Hdown | reflexivity].
Qed.

Lemma X20_witness :
  V2.checkDatabaseConnection_with (fun _ => false) 3 100
    = (false, [Connect; Sleep 100; Connect; Sleep 100; Connect]).
Proof.
  exact (@X20_connection_check_gives_up (fun _ => false) 3 100
           (fun _ => eq_refl)).
Defined.

(** X21.  [checkDatabaseConnection(retries, delay)] against a store that first
    answers at attempt [k] (counted from 0, below [retries]) reports
    [true] after exactly this: [k] failed attempts, each followed by a
    pause of [delay], then the attempt that succeeds and the release of
    its client. *)
Theorem X21_connection_check_stops_at_first_success connect retries delay k :
  connect k = true ->
  (forall j, (j < k)%nat -> connect j = false) ->
  (k < retries)%nat ->
  V2.checkDatabaseConnection_with connect retries delay
    = (true, List.concat (repeat [Connect; Sleep delay] k) ++ [Connect; Release]).
Proof.
  intros Hk Hbefore Hlt. unfold V2.checkDatabaseConnection_with.
  rewrite (@attempts_first_success connect retries delay k Hk Hbefore
             retries 0%nat) by lia.
  rewrite Nat.sub_0_r. reflexivity.
Qed.

Lemma X21_witness :
  V2.checkDatabaseConnection_with (up_after 2) 5 2000
    = (true, [Connect; Sleep 2000; Connect; Sleep 2000; Connect; Release]).
Proof.
  apply (@X21_connection_check_stops_at_first_success (up_after 2) 5 2000 2).
  - reflexivity.
  - intros j Hj. unfold up_after. apply Nat.leb_gt. exact Hj.
  - lia.
Defined.

(** X22.  [startServer] ends with [app.listen], or with [process.exit(1)] when
    listening throws, whatever the store did; before that it only
    connects, releases and pauses, with at most five attempts. *)
Theorem X22_server_listens_whatever_the_store connect listen_throws :
  exists t,
    V2.startServer connect listen_throws
      = t ++ [if listen_throws then Exit 1 else Listen]
    /\ Forall (fun ev => match ev with Listen | Exit _ => False | _ => True end) t
    /\ (connects t <= 5)%nat.
Proof.
  unfold V2.startServer.
  pose proof (attempts_events connect 5 2000 5 0) as He.
  pose proof (attempts_bounded connect 5 2000 5 0) as Hb.
  unfold V2.checkDatabaseConnection, V2.checkDatabaseConnection_with.
  destruct (V2.attempts connect 5 2000 5 0) as [b t]. simpl in *.
  exists t. destruct listen_throws; auto.
Qed.

(** X23.  The variant with [checkDatabaseConnection], store unreachable: the
    user handlers answer 500 with a fixed text; the text of the store's
    error is added by [GET /users] as [details], and the text of an
    unhandled error by the terminal handler as [message], in development
    mode only. *)
Theorem X23_v2_hides_store_errors ev p err :
  outage p = Some err ->
  code err <> "23505" ->
  fst (V2.get_users ev p)
    = mkResponse 500
        (JObj ([ ("success", JBool false);
                 ("error", JStr "Error interno del servidor") ]
               ++ if is_exactly (NODE_ENV ev) "development"
                  then [("details", JStr (message err))] else []))
  /\ (forall i, fst (V2.get_user i p) = V2.internal_error)
  /\ (forall b, status (fst (V2.post_users b p)) = 400
                \/ fst (V2.post_users b p) = V2.internal_error)
  /\ (forall i b, status (fst (V2.put_user i b p)) = 400
                  \/ fst (V2.put_user i b p) = V2.internal_error)
  /\ (forall jerr,
        V2.error_handler ev jerr
          = mkResponse 500
              (JObj ([ ("success", JBool false);
                       ("error", JStr "Error interno del servidor") ]
                     ++ if is_exactly (NODE_ENV ev) "development"
                        then [("message", JStr (err_message jerr))] else []))).
Proof.
  intros Hout Hcode. apply code_other in Hcode. repeat split.
  - unfold V2.get_users. rewrite (pool_query_down _ _ Hout).
    destruct (is_exactly (NODE_ENV ev) "development"); reflexivity.
  - intro i. unfold V2.get_user. rewrite (pool_query_down _ _ Hout).
    reflexivity.
  - intro b. unfold V2.post_users.
    destruct (negb _ || negb _); [left; reflexivity|].
    destruct (negb (test _ _)); [left; reflexivity|].
    right. rewrite (pool_query_down _ _ Hout). cbv beta iota.
    rewrite Hcode. reflexivity.
  - intros i b. unfold V2.put_user.
    destruct (negb _ || negb _); [left; reflexivity|].
    right. rewrite (pool_query_down _ _ Hout). reflexivity.
  - intro jerr. unfold V2.error_handler.
    destruct (is_exactly (NODE_ENV ev) "development"); reflexivity.
Qed.

Lemma X23_witness :
  fst (V2.get_users production unreachable) = V2.internal_error
  /\ fst (V2.get_user "1" unreachable) = V2.internal_error.
Proof.
  destruct (@X23_v2_hides_store_errors production unreachable refused eq_refl)
    as (G & U & _).
  - discriminate.
  - split; [exact G | exact (U "1")].
Defined.

(** X24.  [PUT /users/:id] of that variant, for an existing user, a name and an
    email without code unit 0 that their columns take (as they are when
    they have at most 100 characters), the email used by no other user:
    200 with the user under its new name and email and its old id and
    creation time; that row, and no other, is replaced. *)
Theorem X24_v2_put_replaces_name_and_email p i k u b n e n' e' :
  outage p = None ->
  int4_in i = Some k ->
  find (by_id k) (usuarios (server p)) = Some u ->
  field "nombre" b = Some n -> field "email" b = Some e ->
  n <> "" -> e <> "" ->
  has_nul n = false -> has_nul e = false ->
  varchar100 n = Some n' -> varchar100 e = Some e' ->
  existsb (fun v => negb (by_id k v) && by_email e' v) (usuarios (server p))
    = false ->
  let u' := mkUsuario (id u) n' e' (creado_en u) in
  fst (V2.put_user i b p)
    = mkResponse 200
        (JObj [ ("success", JBool true);
                ("message", JStr "Usuario actualizado exitosamente");
                ("user", JObj [ ("id", JNum k); ("nombre", JStr n');
                                ("email", JStr e');
                                ("creado_en", JDate (creado_en u)) ]) ])
  /\ usuarios (server (snd (V2.put_user i b p)))
       = map (fun v => if by_id k v then u' else v) (usuarios (server p))
  /\ id u' = k
  /\ ((String.length n <= 100)%nat -> n' = n)
  /\ ((String.length e <= 100)%nat -> e' = e).
Proof.
  intros Hup Hi Hf Hn He Nn Ne Zn Ze Vn Ve Hfree. cbv zeta.
  assert (Tn : truthy (Some n) = true)
    by (simpl; apply negb_true_iff, String.eqb_neq; exact Nn).
  assert (Te : truthy (Some e) = true)
    by (simpl; apply negb_true_iff, String.eqb_neq; exact Ne).
  assert (Hk : id u = k).
  { apply find_In in Hf as [_ Hk]. apply Z.eqb_eq in Hk. exact Hk. }
  unfold V2.put_user. rewrite Hn, He, Tn, Te. simpl negb. simpl orb.
  cbv beta iota. simpl text_of. rewrite pool_query_up by assumption.
  rewrite (@exec_update_both n e i k n' e' (server p) Zn Ze Hi Vn Ve).
  rewrite Hf. cbv zeta. rewrite Hfree. simpl. rewrite Hk.
  split; [reflexivity|]. split; [reflexivity|]. split; [reflexivity|].
  split; intro L; rewrite (varchar100_short _ L) in *; congruence.
Qed.

Lemma X24_witness :
  let b := [("nombre", "Juan"); ("email", "juan@ejemplo.com")] in
  let u' := mkUsuario 1 "Juan" "juan@ejemplo.com" (now (server seeded)) in
  fst (V2.put_user "1" b seeded)
    = mkResponse 200
        (JObj [ ("success", JBool true);
                ("message", JStr "Usuario actualizado exitosamente");
                ("user", JObj [ ("id", JNum 1); ("nombre", JStr "Juan");
                                ("email", JStr "juan@ejemplo.com");
                                ("creado_en", JDate (now (server seeded))) ]) ])
  /\ usuarios (server (snd (V2.put_user "1" b seeded)))
       = map (fun v => if by_id 1 v then u' else v) (usuarios (server seeded)).
Proof.
  destruct (@X24_v2_put_replaces_name_and_email seeded "1" 1
              (mkUsuario 1 juan_perez "juan@example.com" (now (server seeded)))
              [("nombre", "Juan"); ("email", "juan@ejemplo.com")]
              "Juan" "juan@ejemplo.com" "Juan" "juan@ejemplo.com"
              eq_refl eq_refl eq_refl eq_refl eq_refl)
    as (R & U & _); try reflexivity; try discriminate.
  split; [exact R | exact U].
Defined.

(** X25.  [PUT /users/:id] of that variant: 400 without touching the pool when
    the name or the email is missing or empty.  Otherwise, on a reachable
    store and an id read as an integer: 500 with the fixed text when the
    name or the email has a code unit 0 or does not fit its column,
    whether or not a user has the id; with values the store takes, 404
    when no user has the id, and 500 with the fixed text, not a
    conflict, when the email belongs to another user.  The store is
    unchanged in each case. *)
Theorem X25_v2_put_refusals p i b :
  let n := text_of (field "nombre" b) in
  let e := text_of (field "email" b) in
  (truthy (field "nombre" b) = false \/ truthy (field "email" b) = false ->
     status (fst (V2.put_user i b p)) = 400 /\ snd (V2.put_user i b p) = p)
  /\ (forall k,
        outage p = None -> int4_in i = Some k ->
        truthy (field "nombre" b) = true -> truthy (field "email" b) = true ->
        (has_nul n = true \/ has_nul e = true
         \/ varchar100 n = None \/ varchar100 e = None ->
           fst (V2.put_user i b p) = V2.internal_error
           /\ server (snd (V2.put_user i b p)) = server p)
        /\ (forall n' e',
              has_nul n = false -> has_nul e = false ->
              varchar100 n = Some n' -> varchar100 e = Some e' ->
              (absent k p = true ->
                 fst (V2.put_user i b p) = V2.user_not_found
                 /\ server (snd (V2.put_user i b p)) = server p)
              /\ (forall u,
                    find (by_id k) (usuarios (server p)) = Some u ->
                    existsb (fun v => negb (by_id k v) && by_email e' v)
                      (usuarios (server p)) = true ->
                    fst (V2.put_user i b p) = V2.internal_error
                    /\ server (snd (V2.put_user i b p)) = server p))).
Proof.
  cbv zeta. split.
  - intros H. unfold V2.put_user.
    replace (negb (truthy (field "nombre" b)) || negb (truthy (field "email" b)))
      with true; [split; reflexivity|].
    destruct H as [-> | ->]; [reflexivity | symmetry; apply orb_true_r].
  - intros k Hup Hi Tn Te.
    assert (E : V2.put_user i b p
                = let (r, p1) :=
                    pool_query
                      (mkQuery
                         (UPDATE_usuario
                            [("nombre", Param 1); ("email", Param 2)] 3)
                         [text_of (field "nombre" b);
                          text_of (field "email" b); i]) p in
                  match r with
                  | inr result =>
                      if rowCount result =? 0 then (V2.user_not_found, p1)
                      else
                        (mkResponse 200
                           (JObj ([ ("success", JBool true);
                                    ("message",
                                     JStr "Usuario actualizado exitosamente") ]
                                  ++ opt "user" (hd_error (rows result)))), p1)
                  | inl error => (V2.internal_error, p1)
                  end).
    { unfold V2.put_user. rewrite Tn, Te. reflexivity. }
    rewrite E. clear E. rewrite pool_query_up by assumption. split.
    + intro Hbad.
      destruct (@exec_update_refused _ _ i k (server p) Hi Hbad) as [err Ex].
      rewrite Ex. split; reflexivity.
    + intros n' e' Zn Ze Vn Ve.
      rewrite (@exec_update_both _ _ i k n' e' (server p) Zn Ze Hi Vn Ve).
      split.
      * intro Habs. rewrite (find_absent _ _ Habs). split; reflexivity.
      * intros u Hf Htaken. rewrite Hf. cbv zeta. rewrite Htaken.
        split; reflexivity.
Qed.

Lemma X25_witness :
  absent 999 seeded = true
  /\ fst (V2.put_user "999"
            [("nombre", long_name); ("email", "ana@example.com")] seeded)
       = V2.internal_error
  /\ fst (V2.put_user "999"
            [("nombre", "Ana"); ("email", "ana@example.com")] seeded)
       = V2.user_not_found.
Proof.
  split; [reflexivity|].
  destruct (X25_v2_put_refusals seeded "999"
              [("nombre", long_name); ("email", "ana@example.com")])
    as [_ L].
  destruct (L 999 eq_refl eq_refl eq_refl eq_refl) as [L1 _].
  destruct (X25_v2_put_refusals seeded "999"
              [("nombre", "Ana"); ("email", "ana@example.com")])
    as [_ A].
  destruct (A 999 eq_refl eq_refl eq_refl eq_refl) as [_ A1].
  destruct (A1 "Ana" "ana@example.com" eq_refl eq_refl eq_refl eq_refl)
    as [A2 _].
  split.
  - apply L1. right. right. left. reflexivity.
  - apply A2. reflexivity.
Defined.

(** X27.  [GET /health] of the first variant: 200 exactly when the store is
    reachable, [healthy]/[connected] or [unhealthy]/[disconnected]
    accordingly, the text of the failure as [error] when there is one;
    the store is not changed. *)
Theorem X27_v1_health_tells_reachability ev p :
  let r := fst (V1.health ev p) in
  (status r = 200 <-> outage p = None)
  /\ get "status" (payload r)
       = Some (JStr (if is_2xx r then "healthy" else "unhealthy"))
  /\ get "database" (payload r)
       = Some (JStr (if is_2xx r then "connected" else "disconnected"))
  /\ get "error" (payload r)
       = match outage p with
         | Some err => Some (JStr (message err))
         | None => None
         end
  /\ server (snd (V1.health ev p)) = server p.
Proof.
  cbv zeta. unfold V1.health, pool_query. destruct (outage p) as [e|].
  - simpl. repeat split; try discriminate; try congruence.
  - simpl. repeat split; try discriminate; try congruence.
Qed.

(** X28.  [GET /users/:id] on a reachable store whose keys hold answers 200
    with the row of the user that has this id. *)
Theorem X28_lookup_returns_the_stored_row ev p i u :
  outage p = None ->
  consistent (server p) ->
  In u (usuarios (server p)) ->
  int4_in i = Some (id u) ->
  fst (app ev (GET_user i) p)
    = mkResponse 200 (JObj [ ("success", JBool true); ("user", usuario_row u) ]).
Proof.
  intros Hup (_ & Hid & _) Hin Hi. rewrite app_GET_user.
  rewrite get_user_up with (m := id u) by assumption.
  rewrite filter_unique_id by assumption. reflexivity.
Qed.

Lemma X28_witness :
  fst (app production (GET_user "2") seeded)
    = mkResponse 200
        (JObj [ ("success", JBool true);
                ("user",
                 usuario_row (mkUsuario 2 maria_garcia "maria@example.com"
                                (now (server seeded)))) ]).
Proof.
  apply (@X28_lookup_returns_the_stored_row production seeded "2"
           (mkUsuario 2 maria_garcia "maria@example.com" (now (server seeded)))
           eq_refl (init_sql_consistent _ _)).
  - right. left. reflexivity.
  - reflexivity.
Defined.
